(** * The 4-tier quantitative stock scoring engine

    A shallow embedding of [scoring_engine_4tier.py] (class [ScoringEngine])
    and the properties of it that the specification states.

    Numbers.  The engine computes on Python floats.  The embedding of the
    scorers computes on exact rationals ([Q]): every literal of the source
    ([0.35], [1.3], [4.17]) is the rational it denotes, and [+], [-], [*],
    [/] are exact.  Python's [round(x, 2)] and [round(x)] round the exact
    value of their argument to the nearest representable result with ties to
    even, which is what [round2] and [round_half_even] do on a rational.
    A comparison of an input field with a literal is the same on both
    sides.  Where the source compares or divides by the result of an
    arithmetic operation (a difference of two returns, the volatility
    adjustment of the position size), the float result can fall on the other
    side of a threshold than the exact one, within one unit in the last
    place; properties of such tests are stated where the two sides agree:
    with a margin around the threshold, or with an operand that makes the
    operation exact.  Infinities and NaN have no counterpart in [Q].

    Position sizes.  [calculate_position_size] is embedded twice: on
    rationals, as the last step of [calculate_score], and on binary64 floats
    ([Float64.calculate_position_size]), operation for operation, for the
    properties that depend on how its quotient is rounded.

    Input records.  A [ScoreInput] is a Python dict from field names to
    numbers, booleans, strings or nested dicts of boolean flags.  The
    embedding keeps one finite map per kind of value, so a record is
    well-typed by construction, any subset of its fields may be absent, and
    [data.get(key, default)] is a lookup with default in the map of the
    field's kind.

    Exceptions.  Division and dict subscription are the only operations of
    the engine that can raise on such records; [round] raises on a float
    that is infinite or not a number.  All go through the [result] monad. *)

From Stdlib Require Import QArith Qround Qabs Lqa Lia ZArith String List Floats.
From stdpp Require Import gmap strings.
Import ListNotations.

Local Open Scope Q_scope.

(** Decimal literals of the source that are not binary64 numbers stand for
    the nearest one, as in Python. *)
#[local] Set Warnings "-inexact-float".

(** ** Python numbers *)

Definition Qgeb (x y : Q) : bool := Qle_bool y x.
Definition Qgtb (x y : Q) : bool := negb (Qle_bool x y).
Definition Qleb (x y : Q) : bool := Qle_bool x y.
Definition Qltb (x y : Q) : bool := negb (Qle_bool y x).

Infix ">=?" := Qgeb (at level 70, no associativity) : Q_scope.
Infix ">?" := Qgtb (at level 70, no associativity) : Q_scope.
Infix "<=?" := Qleb (at level 70, no associativity) : Q_scope.
Infix "<?" := Qltb (at level 70, no associativity) : Q_scope.
Infix "=?" := Qeq_bool (at level 70, no associativity) : Q_scope.

(** [abs(x)] *)
Definition abs (x : Q) : Q := Qabs x.

(** [round(x)]: nearest integer, ties to the even one. *)
Definition round_half_even (x : Q) : Z :=
  let f := Qfloor x in
  let r := x - inject_Z f in
  if r <? 1 # 2 then f
  else if r >? 1 # 2 then (f + 1)%Z
  else if Z.even f then f else (f + 1)%Z.

(** [round(x, 2)] *)
Definition round2 (x : Q) : Q := inject_Z (round_half_even (x * 100)) / 100.

(** ** Exceptions *)

Inductive exn : Set := ZeroDivisionError | KeyError | OverflowError | ValueError.

Inductive result (A : Type) : Type :=
| Ok (a : A)
| Raise (e : exn).
Arguments Ok {A} a.
Arguments Raise {A} e.

#[global] Instance result_ret : MRet result := fun A a => Ok a.
#[global] Instance result_bind : MBind result := fun A B f m =>
  match m with
  | Ok a => f a
  | Raise e => Raise e
  end.

(** [x / y] on numbers *)
Definition py_div (x y : Q) : result Q :=
  if y =? 0 then Raise ZeroDivisionError else Ok (x / y).

(** [d[k]] on a dict with integer keys *)
Definition subscript {A : Type} (d : gmap Z A) (k : Z) : result A :=
  match d !! k with
  | Some a => Ok a
  | None => Raise KeyError
  end.

(** ** Input records *)

Record ScoreInput : Type := {
  numbers : gmap string Q;
  booleans : gmap string bool;
  texts : gmap string string;
  flag_sets : gmap string (gmap string bool)
}.

(** [data.get(key, default)], by the kind of the field *)
Definition get_num (data : ScoreInput) (key : string) (dflt : Q) : Q :=
  default dflt (numbers data !! key).
Definition get_bool (data : ScoreInput) (key : string) (dflt : bool) : bool :=
  default dflt (booleans data !! key).
Definition get_str (data : ScoreInput) (key : string) (dflt : string) : string :=
  default dflt (texts data !! key).
(** [data.get(key, {})] *)
Definition get_flags (data : ScoreInput) (key : string) : gmap string bool :=
  default ∅ (flag_sets data !! key).
(** [bonuses.get(key, False)] *)
Definition flag (bonuses : gmap string bool) (key : string) : bool :=
  default false (bonuses !! key).

(** [s in [a, b, ...]] *)
Definition str_in (s : string) (l : list string) : bool :=
  existsb (String.eqb s) l.

(** ** Tier tables and primitives *)

Record TierDefinition : Type := {
  name : string;
  min_cap : Q;
  max_cap : option Q;  (* [None] is [float('inf')] *)
  min_score : Q
}.

Definition TIER_DEFINITIONS : gmap Z TierDefinition :=
  <[1%Z := {| name := "Mega-Cap Core"; min_cap := 200; max_cap := None; min_score := 60 |}]>
  (<[2%Z := {| name := "Large-Cap Growth"; min_cap := 50; max_cap := Some 200; min_score := 65 |}]>
  (<[3%Z := {| name := "Mid-Cap Emerging"; min_cap := 10; max_cap := Some 50; min_score := 67 |}]>
  (<[4%Z := {| name := "Small-Cap Moonshots"; min_cap := 0; max_cap := Some 10; min_score := 70 |}]>
   ∅))).

Definition TIER_WEIGHTS : gmap Z (list (string * Q)) :=
  <[1%Z := [("V", 0.20); ("Q", 0.35); ("G", 0.25); ("M", 0.10); ("FH", 0.10)]]>
  (<[2%Z := [("V", 0.18); ("Q", 0.28); ("G", 0.32); ("M", 0.12); ("SM", 0.10)]]>
  (<[3%Z := [("V", 0.15); ("Q", 0.22); ("G", 0.38); ("M", 0.15); ("SI", 0.10)]]>
  (<[4%Z := [("V", 0.10); ("Q", 0.15); ("G", 0.40); ("M", 0.15); ("D", 0.20)]]>
   ∅))).

Definition determine_tier (market_cap_billions : Q) : Z :=
  if market_cap_billions >=? 200 then 1
  else if market_cap_billions >=? 50 then 2
  else if market_cap_billions >=? 10 then 3
  else 4.

(** [min(score, maximum)] *)
Definition cap_score (score maximum : Q) : Q :=
  if maximum <? score then maximum else score.

(** [max(score, minimum)] *)
Definition floor_score (score minimum : Q) : Q :=
  if minimum >? score then minimum else score.

(** The loop of [bracket_score]: the score of the first pair whose
    threshold the value reaches. *)
Fixpoint first_bracket (value : Q) (brackets : list (Q * Q)) : option Q :=
  match brackets with
  | [] => None
  | (threshold, score) :: rest =>
      if value >=? threshold then Some score else first_bracket value rest
  end.

(** [brackets[-1][1]]; the source passes non-empty tables only, the default
    stands for the [IndexError] of an empty one. *)
Definition last_score (brackets : list (Q * Q)) : Q :=
  snd (List.last brackets (0, 0)).

Definition bracket_score (value : Q) (brackets : list (Q * Q)) : Q :=
  match first_bracket value brackets with
  | Some score => score
  | None => last_score brackets
  end.

(** ** Tier 1: Mega-Cap Core *)

(** Component 1 of [tier1_valuation]: P/E ratio against its history.  The
    division is guarded by [historical_pe > 0]. *)
Definition tier1_valuation_pe_score (data : ScoreInput) : result Q :=
  let current_pe := get_num data "pe_ratio" 0 in
  let historical_pe := get_num data "historical_pe_avg" current_pe in
  if historical_pe >? 0 then
    pe_ratio_vs_hist ← py_div current_pe historical_pe;
    let pe_score := 100 - ((pe_ratio_vs_hist - 1) * 100) in
    mret (cap_score (floor_score pe_score 0) 100)
  else mret 50.

Definition tier1_valuation_fcf_score (data : ScoreInput) : Q :=
  let fcf_yield := get_num data "fcf_yield_pct" 0 in
  let fcf_brackets := [(5, 100); (3, 80); (2, 60); (1, 40); (0, 20)] in
  bracket_score fcf_yield fcf_brackets.

(** The loop over [peg_brackets_reversed]: the first threshold the ratio
    does not exceed. *)
Fixpoint first_at_most (value : Q) (brackets : list (Q * Q)) (dflt : Q) : Q :=
  match brackets with
  | [] => dflt
  | (threshold, score) :: rest =>
      if value <=? threshold then score else first_at_most value rest dflt
  end.

Definition tier1_valuation_peg_score (data : ScoreInput) : Q :=
  let peg_ratio := get_num data "peg_ratio" 999 in
  let peg_brackets_reversed := [(1.0, 100); (1.5, 85); (2.0, 70); (2.5, 50)] in
  if peg_ratio <? 1.0 then 100
  else first_at_most peg_ratio peg_brackets_reversed 30.

Definition tier1_valuation (data : ScoreInput) : result Q :=
  pe_score ← tier1_valuation_pe_score data;
  let fcf_score := tier1_valuation_fcf_score data in
  let peg_score := tier1_valuation_peg_score data in
  let valuation_score := (pe_score * 0.35) + (fcf_score * 0.30) + (peg_score * 0.35) in
  mret (round2 valuation_score).

Definition tier1_quality_roic_score (data : ScoreInput) : Q :=
  let roic := get_num data "roic_pct" 0 in
  let roic_brackets := [(25, 100); (20, 90); (15, 75); (10, 50); (0, 25)] in
  bracket_score roic roic_brackets.

Definition tier1_quality_op_margin_score (data : ScoreInput) : Q :=
  let op_margin := get_num data "operating_margin_pct" 0 in
  let op_margin_brackets := [(30, 100); (20, 85); (15, 70); (10, 50); (0, 30)] in
  bracket_score op_margin op_margin_brackets.

Definition tier1_quality_margin_trend_score (data : ScoreInput) : Q :=
  let margin_trend_bps := get_num data "margin_trend_bps_per_year" 0 in
  let margin_trend_brackets := [(200, 100); (100, 85); (50, 70); (-50, 60); (-999, 25)] in
  bracket_score margin_trend_bps margin_trend_brackets.

Definition tier1_quality_moat_score (data : ScoreInput) : Q :=
  let moat_base := 50 in
  let moat_bonuses := get_flags data "moat_bonuses" in
  let moat_score := moat_base in
  let moat_score := if flag moat_bonuses "network_effects" then moat_score + 25 else moat_score in
  let moat_score := if flag moat_bonuses "economies_of_scale" then moat_score + 20 else moat_score in
  let moat_score := if flag moat_bonuses "switching_costs" then moat_score + 20 else moat_score in
  let moat_score := if flag moat_bonuses "intangible_assets" then moat_score + 15 else moat_score in
  let moat_score := if flag moat_bonuses "regulatory_moat" then moat_score + 10 else moat_score in
  cap_score moat_score 100.

Definition tier1_quality_mgmt_score (data : ScoreInput) : Q :=
  let earnings_beat_rate := get_num data "earnings_beat_rate_pct" 50 in
  let mgmt_base :=
    if earnings_beat_rate >? 80 then 100
    else if earnings_beat_rate >=? 70 then 85
    else if earnings_beat_rate >=? 60 then 70
    else 50 in
  let mgmt_bonuses := get_flags data "mgmt_bonuses" in
  let mgmt_score := mgmt_base in
  let mgmt_score := if flag mgmt_bonuses "smart_ma" then mgmt_score + 10 else mgmt_score in
  let mgmt_score := if flag mgmt_bonuses "consistent_buybacks" then mgmt_score + 8 else mgmt_score in
  let mgmt_score := if flag mgmt_bonuses "growing_dividend" then mgmt_score + 7 else mgmt_score in
  cap_score mgmt_score 100.

Definition tier1_quality_cash_conv_score (data : ScoreInput) : Q :=
  let cash_conversion_ratio := get_num data "cash_conversion_ratio" 0 in
  let cash_brackets := [(1.2, 100); (1.0, 80); (0.8, 60); (0, 30)] in
  bracket_score cash_conversion_ratio cash_brackets.

Definition tier1_quality (data : ScoreInput) : Q :=
  let roic_score := tier1_quality_roic_score data in
  let op_margin_score := tier1_quality_op_margin_score data in
  let margin_trend_score := tier1_quality_margin_trend_score data in
  let moat_score := tier1_quality_moat_score data in
  let mgmt_score := tier1_quality_mgmt_score data in
  let cash_conv_score := tier1_quality_cash_conv_score data in
  let quality_score :=
    (roic_score * 0.30) +
    (op_margin_score * 0.20) +
    (margin_trend_score * 0.12) +
    (moat_score * 0.18) +
    (mgmt_score * 0.10) +
    (cash_conv_score * 0.10) in
  round2 quality_score.

Definition tier1_growth_rev_growth_score (data : ScoreInput) : Q :=
  let rev_cagr := get_num data "revenue_cagr_3yr_pct" 0 in
  let rev_brackets := [(20, 100); (15, 85); (10, 65); (7, 45); (5, 30); (0, 15)] in
  bracket_score rev_cagr rev_brackets.

Definition tier1_growth_consistency_score (data : ScoreInput) : Q :=
  let consistency_base := 50 in
  let recent_yoy := get_num data "revenue_growth_recent_yoy_pct" 0 in
  let avg_3yr := get_num data "revenue_cagr_3yr_pct" 0 in
  let delta := recent_yoy - avg_3yr in
  let consistency_score :=
    if delta >? 3 then consistency_base + 50
    else if delta >=? 1 then consistency_base + 30
    else if abs delta <=? 1 then consistency_base + 10
    else if delta >=? -3 then consistency_base - 10
    else consistency_base - 30 in
  cap_score consistency_score 100.

Definition tier1_growth_eps_score (data : ScoreInput) : Q :=
  let rev_cagr := get_num data "revenue_cagr_3yr_pct" 0 in
  let eps_cagr := get_num data "eps_cagr_3yr_pct" 0 in
  let eps_brackets := [(25, 100); (18, 85); (12, 70); (8, 50); (0, 30)] in
  let eps_base_score := bracket_score eps_cagr eps_brackets in
  let eps_score := eps_base_score in
  let eps_score :=
    if eps_cagr >? rev_cagr + 5 then eps_score + 15
    else if eps_cagr <? rev_cagr - 5 then eps_score - 15
    else eps_score in
  cap_score (floor_score eps_score 0) 100.

Definition tier1_growth_future_score (data : ScoreInput) : Q :=
  let tam_billions := get_num data "tam_billions" 0 in
  let market_share_pct := get_num data "market_share_pct" 100 in
  let future_base :=
    if (tam_billions >? 500) && (market_share_pct <? 20) then 100
    else if (tam_billions >=? 200) && (market_share_pct <? 30) then 85
    else if (tam_billions >=? 100) && (market_share_pct <? 40) then 70
    else 50 in
  let future_bonuses := get_flags data "future_growth_bonuses" in
  let future_score := future_base in
  let future_score := if flag future_bonuses "geographic_expansion" then future_score + 10 else future_score in
  let future_score := if flag future_bonuses "new_product_cycles" then future_score + 10 else future_score in
  let future_score := if flag future_bonuses "platform_effects" then future_score + 10 else future_score in
  let future_score := if flag future_bonuses "multiple_growth_vectors" then future_score + 10 else future_score in
  cap_score future_score 100.

Definition tier1_growth_analyst_score (data : ScoreInput) : Q :=
  let analyst_forward_growth := get_num data "analyst_forward_growth_pct" 0 in
  let analyst_brackets := [(15, 100); (12, 80); (8, 60); (5, 40); (0, 20)] in
  bracket_score analyst_forward_growth analyst_brackets.

Definition tier1_growth (data : ScoreInput) : Q :=
  let rev_growth_score := tier1_growth_rev_growth_score data in
  let consistency_score := tier1_growth_consistency_score data in
  let eps_score := tier1_growth_eps_score data in
  let future_score := tier1_growth_future_score data in
  let analyst_score := tier1_growth_analyst_score data in
  let growth_score :=
    (rev_growth_score * 0.30) +
    (consistency_score * 0.15) +
    (eps_score * 0.25) +
    (future_score * 0.15) +
    (analyst_score * 0.15) in
  round2 growth_score.

Definition tier1_momentum_return_score (data : ScoreInput) : Q :=
  let return_12m := get_num data "return_12m_pct" 0 in
  let return_brackets := [(30, 100); (20, 80); (10, 60); (0, 45); (-10, 40); (-999, 60)] in
  if return_12m <? -10 then 60
  else bracket_score return_12m (removelast return_brackets).

Definition tier1_momentum_rel_score (data : ScoreInput) : Q :=
  let return_12m := get_num data "return_12m_pct" 0 in
  let stock_return := return_12m in
  let spy_return := get_num data "spy_return_12m_pct" 0 in
  let rel_perf := stock_return - spy_return in
  let rel_brackets := [(10, 100); (5, 75); (0, 60); (-5, 50); (-999, 30)] in
  bracket_score rel_perf rel_brackets.

Definition tier1_momentum_technical_score (data : ScoreInput) : Q :=
  let price := get_num data "price" 0 in
  let ma_50 := get_num data "ma_50" 0 in
  let ma_200 := get_num data "ma_200" 0 in
  if (price >? ma_50) && (price >? ma_200) then 100
  else if price >? ma_200 then 70
  else if price >? ma_50 then 55
  else if (ma_50 <? price) && (price <? ma_200) then 50
  else 30.

Definition tier1_momentum (data : ScoreInput) : Q :=
  let return_score := tier1_momentum_return_score data in
  let rel_score := tier1_momentum_rel_score data in
  let technical_score := tier1_momentum_technical_score data in
  let momentum_score :=
    (return_score * 0.40) +
    (rel_score * 0.35) +
    (technical_score * 0.25) in
  round2 momentum_score.

Definition tier1_financial_health_net_cash_score (data : ScoreInput) : Q :=
  let net_cash_billions := get_num data "net_cash_billions" 0 in
  if net_cash_billions >? 75 then 100
  else if net_cash_billions >=? 50 then 90
  else if net_cash_billions >=? 25 then 80
  else if net_cash_billions >=? 0 then 70
  else if net_cash_billions >=? -50 then 60
  else 40.

Definition tier1_financial_health_fcf_score (data : ScoreInput) : Q :=
  let fcf_billions := get_num data "fcf_billions" 0 in
  let fcf_brackets := [(20, 100); (15, 90); (10, 80); (5, 60); (0, 40)] in
  bracket_score fcf_billions fcf_brackets.

Definition tier1_financial_health_cap_alloc_score (data : ScoreInput) : Q :=
  let cap_alloc_base := 50 in
  let cap_alloc_bonuses := get_flags data "capital_allocation_bonuses" in
  let cap_alloc_score := cap_alloc_base in
  let cap_alloc_score := if flag cap_alloc_bonuses "buybacks_rnd_gt_10pct" then cap_alloc_score + 25 else cap_alloc_score in
  let cap_alloc_score := if flag cap_alloc_bonuses "value_creating_ma" then cap_alloc_score + 20 else cap_alloc_score in
  let cap_alloc_score := if flag cap_alloc_bonuses "growing_dividend" then cap_alloc_score + 15 else cap_alloc_score in
  let cap_alloc_score := if flag cap_alloc_bonuses "disciplined_deployment" then cap_alloc_score + 10 else cap_alloc_score in
  cap_score cap_alloc_score 100.

Definition tier1_financial_health (data : ScoreInput) : Q :=
  let net_cash_score := tier1_financial_health_net_cash_score data in
  let fcf_score := tier1_financial_health_fcf_score data in
  let cap_alloc_score := tier1_financial_health_cap_alloc_score data in
  let fh_score :=
    (net_cash_score * 0.50) +
    (fcf_score * 0.40) +
    (cap_alloc_score * 0.10) in
  round2 fh_score.

Definition calculate_tier1_composite (data : ScoreInput) : result (Q * list (string * Q)) :=
  v_score ← tier1_valuation data;
  let q_score := tier1_quality data in
  let g_score := tier1_growth data in
  let m_score := tier1_momentum data in
  let fh_score := tier1_financial_health data in
  let composite :=
    (v_score * 0.20) +
    (q_score * 0.35) +
    (g_score * 0.25) +
    (m_score * 0.10) +
    (fh_score * 0.10) in
  let components :=
    [("Valuation", v_score); ("Quality", q_score); ("Growth", g_score);
     ("Momentum", m_score); ("Financial_Health", fh_score)] in
  mret (round2 composite, components).

(** ** Tier 2: Large-Cap Growth *)

Definition tier2_valuation_pe_ps_score (data : ScoreInput) : Q :=
  let is_profitable := get_bool data "is_profitable" true in
  if is_profitable then
    let forward_pe := get_num data "forward_pe" 999 in
    if forward_pe <? 25 then 100
    else if forward_pe <? 35 then 85
    else if forward_pe <? 50 then 70
    else if forward_pe <? 70 then 50
    else 35
  else
    let ps_ratio := get_num data "ps_ratio" 999 in
    let growth_rate := get_num data "revenue_growth_recent_yoy_pct" 0 in
    let pe_ps_score :=
      if ps_ratio <? 8 then 100
      else if ps_ratio <? 12 then 85
      else if ps_ratio <? 18 then 70
      else if ps_ratio <? 25 then 50
      else if ps_ratio <? 35 then 35
      else 25 in
    let pe_ps_score :=
      if (growth_rate >? 50) && (ps_ratio >? 35) then pe_ps_score + 15
      else if (growth_rate >? 50) && ((25 <=? ps_ratio) && (ps_ratio <=? 35)) then pe_ps_score + 25
      else if (growth_rate >? 35) && ((18 <=? ps_ratio) && (ps_ratio <=? 25)) then pe_ps_score + 20
      else pe_ps_score in
    cap_score pe_ps_score 100.

Definition tier2_valuation_peg_score (data : ScoreInput) : Q :=
  let peg_ratio := get_num data "peg_ratio" 999 in
  if peg_ratio <? 1.0 then 100
  else if peg_ratio <? 1.5 then 85
  else if peg_ratio <? 2.0 then 70
  else if peg_ratio <? 2.5 then 50
  else 30.

Definition tier2_valuation_rel_val_score (data : ScoreInput) : Q :=
  let pe_ps_score := tier2_valuation_pe_ps_score data in
  let sector_median_pe := get_num data "sector_median_pe" pe_ps_score in
  let stock_pe := get_num data "forward_pe" pe_ps_score in
  if stock_pe <? sector_median_pe then 100
  else if stock_pe <=? sector_median_pe * 1.15 then 80
  else if stock_pe <=? sector_median_pe * 1.30 then 60
  else if stock_pe <=? sector_median_pe * 1.50 then 40
  else 20.

Definition tier2_valuation (data : ScoreInput) : Q :=
  let pe_ps_score := tier2_valuation_pe_ps_score data in
  let peg_score := tier2_valuation_peg_score data in
  let rel_val_score := tier2_valuation_rel_val_score data in
  let valuation_score :=
    (pe_ps_score * 0.55) +
    (peg_score * 0.25) +
    (rel_val_score * 0.20) in
  round2 valuation_score.

Definition tier2_quality_rev_scale_score (data : ScoreInput) : Q :=
  let revenue_billions := get_num data "revenue_billions" 0 in
  let rev_scale_brackets := [(10, 100); (7, 90); (5, 80); (3, 70); (2, 60); (0, 45)] in
  bracket_score revenue_billions rev_scale_brackets.

Definition tier2_quality_profit_score (data : ScoreInput) : Q :=
  let is_gaap_profitable := get_bool data "is_gaap_profitable" false in
  let op_margin := get_num data "operating_margin_pct" 0 in
  if is_gaap_profitable then
    if op_margin >? 20 then 100
    else if op_margin >=? 15 then 90
    else if op_margin >=? 10 then 75
    else if op_margin >=? 5 then 60
    else 50
  else
    let path_to_profit_quarters := get_num data "path_to_profit_quarters" 999 in
    if path_to_profit_quarters <? 4 then 40
    else if path_to_profit_quarters <? 8 then 30
    else 15.

Definition tier2_quality_gross_margin_score (data : ScoreInput) : Q :=
  let gross_margin := get_num data "gross_margin_pct" 0 in
  if gross_margin >? 75 then 100
  else if gross_margin >=? 65 then 90
  else if gross_margin >=? 55 then 80
  else if gross_margin >=? 45 then 70
  else if gross_margin >=? 35 then 55
  else 35.

Definition tier2_quality_margin_traj_score (data : ScoreInput) : Q :=
  let margin_trend_bps := get_num data "margin_trend_bps_per_year" 0 in
  if margin_trend_bps >? 300 then 100
  else if margin_trend_bps >=? 200 then 90
  else if margin_trend_bps >=? 100 then 80
  else if margin_trend_bps >=? 50 then 65
  else if abs margin_trend_bps <=? 50 then 50
  else 25.

(** The four proxies of the non-SaaS branch of customer retention, each
    appended to [scores] in this order. *)
Definition tier2_quality_repeat_revenue_score (data : ScoreInput) : Q :=
  let repeat_revenue_pct := get_num data "repeat_revenue_pct" 0 in
  if repeat_revenue_pct >? 70 then 100
  else if repeat_revenue_pct >=? 50 then 80
  else if repeat_revenue_pct >=? 30 then 60
  else 40.

Definition tier2_quality_churn_score (data : ScoreInput) : Q :=
  let customer_churn_pct := get_num data "customer_churn_pct" 100 in
  if customer_churn_pct <? 5 then 100
  else if customer_churn_pct <? 10 then 75
  else if customer_churn_pct <? 15 then 50
  else 30.

Definition tier2_quality_customer_growth_score (data : ScoreInput) : Q :=
  let customer_growth_pct := get_num data "customer_growth_pct" 0 in
  if customer_growth_pct >? 25 then 100
  else if customer_growth_pct >=? 15 then 80
  else if customer_growth_pct >=? 5 then 60
  else 40.

Definition tier2_quality_concentration_score (data : ScoreInput) : Q :=
  let top_customer_concentration_pct := get_num data "top_customer_concentration_pct" 100 in
  if top_customer_concentration_pct <? 10 then 85
  else if top_customer_concentration_pct <? 20 then 70
  else if top_customer_concentration_pct <? 30 then 50
  else 25.

(** [max(scores) if scores else dflt]: the first largest element. *)
Definition max_or (scores : list Q) (dflt : Q) : Q :=
  match scores with
  | [] => dflt
  | first :: rest => fold_left (fun best s => if s >? best then s else best) rest first
  end.

Definition tier2_quality_retention_score (data : ScoreInput) : Q :=
  let is_saas := get_bool data "is_saas" false in
  if is_saas then
    let nrr_pct := get_num data "nrr_pct" 100 in
    let dbr_pct := get_num data "dollar_based_retention_pct" 100 in
    let retention_base :=
      if nrr_pct >? 130 then 100
      else if nrr_pct >=? 120 then 90
      else if nrr_pct >=? 110 then 80
      else if nrr_pct >=? 100 then 65
      else if nrr_pct >=? 90 then 45
      else 25 in
    let retention_score := retention_base in
    let retention_score := if dbr_pct >? 105 then retention_score + 15 else retention_score in
    cap_score retention_score 100
  else
    let scores := [] in
    let scores := scores ++ [tier2_quality_repeat_revenue_score data] in
    let scores := scores ++ [tier2_quality_churn_score data] in
    let scores := scores ++ [tier2_quality_customer_growth_score data] in
    let scores := scores ++ [tier2_quality_concentration_score data] in
    max_or scores 50.

Definition tier2_quality_market_pos_score (data : ScoreInput) : Q :=
  let market_pos_base := 50 in
  let market_pos_bonuses := get_flags data "market_position_bonuses" in
  let market_pos_score := market_pos_base in
  let market_pos_score :=
    if flag market_pos_bonuses "top_1_or_2" then market_pos_score + 35
    else if flag market_pos_bonuses "top_3_to_5" then market_pos_score + 25
    else market_pos_score in
  let market_pos_score := if flag market_pos_bonuses "gaining_share" then market_pos_score + 25 else market_pos_score in
  let market_pos_score := if flag market_pos_bonuses "category_leader" then market_pos_score + 30 else market_pos_score in
  cap_score market_pos_score 100.

Definition tier2_quality (data : ScoreInput) : Q :=
  let rev_scale_score := tier2_quality_rev_scale_score data in
  let profit_score := tier2_quality_profit_score data in
  let gross_margin_score := tier2_quality_gross_margin_score data in
  let margin_traj_score := tier2_quality_margin_traj_score data in
  let retention_score := tier2_quality_retention_score data in
  let market_pos_score := tier2_quality_market_pos_score data in
  let quality_score :=
    (rev_scale_score * 0.15) +
    (profit_score * 0.18) +
    (gross_margin_score * 0.20) +
    (margin_traj_score * 0.15) +
    (retention_score * 0.20) +
    (market_pos_score * 0.12) in
  round2 quality_score.

Definition tier2_growth_rev_growth_score (data : ScoreInput) : Q :=
  let ttm_growth := get_num data "revenue_growth_ttm_pct" 0 in
  if ttm_growth >? 35 then 100
  else if ttm_growth >=? 28 then 90
  else if ttm_growth >=? 22 then 80
  else if ttm_growth >=? 18 then 70
  else if ttm_growth >=? 15 then 55
  else if ttm_growth >=? 12 then 40
  else 20.

Definition tier2_growth_consistency_score (data : ScoreInput) : Q :=
  let ttm_growth := get_num data "revenue_growth_ttm_pct" 0 in
  let years_of_25plus_growth := get_num data "years_of_25plus_growth" 0 in
  let is_accelerating := get_bool data "is_accelerating" false in
  if years_of_25plus_growth >=? 3 then 100
  else if years_of_25plus_growth =? 2 then 85
  else if is_accelerating then 80
  else if ttm_growth >=? 20 then 60
  else 20.

Definition tier2_growth_forward_score (data : ScoreInput) : Q :=
  let ttm_growth := get_num data "revenue_growth_ttm_pct" 0 in
  let forward_growth_estimate := get_num data "analyst_forward_growth_pct" 0 in
  let current_growth := ttm_growth in
  let forward_base :=
    if forward_growth_estimate >? 30 then 100
    else if forward_growth_estimate >=? 25 then 85
    else if forward_growth_estimate >=? 20 then 70
    else if forward_growth_estimate >=? 15 then 55
    else if forward_growth_estimate >=? 10 then 40
    else 20 in
  let forward_score := forward_base in
  let forward_score :=
    if forward_growth_estimate >? current_growth + 5 then forward_score + 20 else forward_score in
  cap_score forward_score 100.

Definition tier2_growth_eps_vs_rev_score (data : ScoreInput) : Q :=
  let ttm_growth := get_num data "revenue_growth_ttm_pct" 0 in
  let eps_growth := get_num data "eps_growth_pct" 0 in
  let rev_growth := ttm_growth in
  let eps_vs_rev_base := 50 in
  let eps_vs_rev_score :=
    if eps_growth >? rev_growth + 7 then eps_vs_rev_base + 50
    else if abs (eps_growth - rev_growth) <=? 5 then eps_vs_rev_base + 20
    else if eps_growth <? rev_growth - 5 then eps_vs_rev_base - 20
    else eps_vs_rev_base in
  cap_score eps_vs_rev_score 100.

Definition tier2_growth_tam_score (data : ScoreInput) : Q :=
  let tam_billions := get_num data "tam_billions" 0 in
  let penetration_pct := get_num data "market_penetration_pct" 100 in
  if (tam_billions >? 100) && (penetration_pct <? 10) then 100
  else if (tam_billions >=? 75) && (penetration_pct <? 12) then 90
  else if (tam_billions >=? 50) && (penetration_pct <? 15) then 80
  else if (tam_billions >=? 25) && (penetration_pct <? 20) then 65
  else 40.

Definition tier2_growth_drivers_score (data : ScoreInput) : Q :=
  let drivers_base := 50 in
  let drivers_bonuses := get_flags data "growth_driver_bonuses" in
  let drivers_score := drivers_base in
  let drivers_score := if flag drivers_bonuses "multiple_segments_20plus" then drivers_score + 25 else drivers_score in
  let drivers_score := if flag drivers_bonuses "geographic_expansion" then drivers_score + 15 else drivers_score in
  let drivers_score := if flag drivers_bonuses "new_products" then drivers_score + 15 else drivers_score in
  let drivers_score := if flag drivers_bonuses "platform_effects" then drivers_score + 15 else drivers_score in
  let drivers_score := if flag drivers_bonuses "viral_network" then drivers_score + 10 else drivers_score in
  cap_score drivers_score 100.

Definition tier2_growth_cyclicality_score (data : ScoreInput) : Q :=
  let business_type := get_str data "business_type" "software" in
  if str_in business_type ["software"; "saas"] then 100
  else if String.eqb business_type "early_mid_cycle" then 85
  else if String.eqb business_type "late_cycle_secular" then 70
  else if String.eqb business_type "peak_cycle" then 40
  else 20.

Definition tier2_growth (data : ScoreInput) : Q :=
  let rev_growth_score := tier2_growth_rev_growth_score data in
  let consistency_score := tier2_growth_consistency_score data in
  let forward_score := tier2_growth_forward_score data in
  let eps_vs_rev_score := tier2_growth_eps_vs_rev_score data in
  let tam_score := tier2_growth_tam_score data in
  let drivers_score := tier2_growth_drivers_score data in
  let cyclicality_score := tier2_growth_cyclicality_score data in
  let growth_score :=
    (rev_growth_score * 0.25) +
    (consistency_score * 0.15) +
    (forward_score * 0.20) +
    (eps_vs_rev_score * 0.10) +
    (tam_score * 0.15) +
    (drivers_score * 0.10) +
    (cyclicality_score * 0.05) in
  round2 growth_score.

Definition tier2_momentum_return_score (data : ScoreInput) : Q :=
  let return_6m := get_num data "return_6m_pct" 0 in
  let return_base :=
    if return_6m >? 50 then 100
    else if return_6m >=? 35 then 85
    else if return_6m >=? 20 then 70
    else if return_6m >=? 10 then 50
    else if return_6m >=? 0 then 40
    else 60 in
  let inst_bonuses := get_flags data "institutional_bonuses" in
  let return_score := return_base in
  let return_score := if flag inst_bonuses "increasing_ownership" then return_score + 15 else return_score in
  let return_score := if flag inst_bonuses "smart_money" then return_score + 10 else return_score in
  let return_score := if flag inst_bonuses "insider_buying" then return_score + 10 else return_score in
  cap_score return_score 100.

Definition tier2_momentum_rel_score (data : ScoreInput) : Q :=
  let return_6m := get_num data "return_6m_pct" 0 in
  let qqq_return_6m := get_num data "qqq_return_6m_pct" 0 in
  let rel_perf := return_6m - qqq_return_6m in
  let rel_base :=
    if rel_perf >? 15 then 100
    else if rel_perf >=? 8 then 80
    else if rel_perf >=? 0 then 60
    else if rel_perf >=? -8 then 45
    else 30 in
  let analyst_bonuses := get_flags data "analyst_momentum_bonuses" in
  let rel_score := rel_base in
  let rel_score := if flag analyst_bonuses "multiple_upgrades" then rel_score + 15 else rel_score in
  let rel_score := if flag analyst_bonuses "price_target_increases" then rel_score + 10 else rel_score in
  let rel_score := if flag analyst_bonuses "positive_revisions" then rel_score + 10 else rel_score in
  cap_score rel_score 100.

Definition tier2_momentum_technical_score (data : ScoreInput) : Q :=
  let price := get_num data "price" 0 in
  let ma_50 := get_num data "ma_50" 0 in
  let ma_200 := get_num data "ma_200" 0 in
  if (price >? ma_50) && (price >? ma_200) then 100
  else if price >? ma_200 then 70
  else if price >? ma_50 then 55
  else if (ma_50 <? price) && (price <? ma_200) then 50
  else 30.

Definition tier2_momentum (data : ScoreInput) : Q :=
  let return_score := tier2_momentum_return_score data in
  let rel_score := tier2_momentum_rel_score data in
  let technical_score := tier2_momentum_technical_score data in
  let momentum_score :=
    (return_score * 0.40) +
    (rel_score * 0.35) +
    (technical_score * 0.25) in
  round2 momentum_score.

Definition tier2_scale_moat_comp_pos_score (data : ScoreInput) : Q :=
  let company_growth := get_num data "revenue_growth_ttm_pct" 0 in
  let sector_growth := get_num data "sector_avg_growth_pct" 0 in
  if company_growth >? sector_growth * 1.5 then 100
  else if company_growth >? sector_growth * 1.2 then 80
  else if company_growth >=? sector_growth then 60
  else 30.

Definition tier2_scale_moat_moat_score (data : ScoreInput) : Q :=
  let moat_base := 50 in
  let moat_bonuses := get_flags data "moat_development_bonuses" in
  let moat_score := moat_base in
  let moat_score := if flag moat_bonuses "network_effects" then moat_score + 30 else moat_score in
  let moat_score := if flag moat_bonuses "switching_costs" then moat_score + 25 else moat_score in
  let moat_score := if flag moat_bonuses "economies_of_scale" then moat_score + 20 else moat_score in
  let moat_score := if flag moat_bonuses "brand_ecosystem" then moat_score + 20 else moat_score in
  let moat_score := if flag moat_bonuses "data_ip_moat" then moat_score + 15 else moat_score in
  cap_score moat_score 100.

Definition tier2_scale_moat_op_leverage_score (data : ScoreInput) : Q :=
  let company_growth := get_num data "revenue_growth_ttm_pct" 0 in
  let margin_expansion_bps := get_num data "margin_trend_bps_per_year" 0 in
  let revenue_growth_pct := company_growth in
  if margin_expansion_bps >? revenue_growth_pct * 10 then 100
  else if margin_expansion_bps >? 0 then 75
  else if margin_expansion_bps >? -100 then 50
  else 30.

Definition tier2_scale_moat_partnership_score (data : ScoreInput) : Q :=
  let partnership_base := 50 in
  let partnership_bonuses := get_flags data "partnership_bonuses" in
  let partnership_score := partnership_base in
  let partnership_score := if flag partnership_bonuses "major_tech_partners" then partnership_score + 25 else partnership_score in
  let partnership_score := if flag partnership_bonuses "gov_contracts" then partnership_score + 25 else partnership_score in
  let partnership_score := if flag partnership_bonuses "ecosystem_integrations" then partnership_score + 20 else partnership_score in
  let partnership_score := if flag partnership_bonuses "strategic_customers" then partnership_score + 15 else partnership_score in
  cap_score partnership_score 100.

Definition tier2_scale_moat (data : ScoreInput) : Q :=
  let comp_pos_score := tier2_scale_moat_comp_pos_score data in
  let moat_score := tier2_scale_moat_moat_score data in
  let op_leverage_score := tier2_scale_moat_op_leverage_score data in
  let partnership_score := tier2_scale_moat_partnership_score data in
  let sm_score :=
    (comp_pos_score * 0.35) +
    (moat_score * 0.30) +
    (op_leverage_score * 0.20) +
    (partnership_score * 0.15) in
  round2 sm_score.

Definition calculate_tier2_composite (data : ScoreInput) : Q * list (string * Q) :=
  let v_score := tier2_valuation data in
  let q_score := tier2_quality data in
  let g_score := tier2_growth data in
  let m_score := tier2_momentum data in
  let sm_score := tier2_scale_moat data in
  let composite :=
    (v_score * 0.18) +
    (q_score * 0.28) +
    (g_score * 0.32) +
    (m_score * 0.12) +
    (sm_score * 0.10) in
  let components :=
    [("Valuation", v_score); ("Quality", q_score); ("Growth", g_score);
     ("Momentum", m_score); ("Scale_Moat", sm_score)] in
  (round2 composite, components).

(** ** Tier 3: Mid-Cap Emerging *)

Definition tier3_valuation_ps_score (data : ScoreInput) : Q :=
  let ps_ratio := get_num data "ps_ratio" 999 in
  let growth_rate := get_num data "revenue_growth_ttm_pct" 0 in
  let ps_base :=
    if ps_ratio <? 10 then 100
    else if ps_ratio <? 15 then 85
    else if ps_ratio <? 22 then 70
    else if ps_ratio <? 30 then 55
    else if ps_ratio <? 40 then 40
    else 30 in
  let ps_score := ps_base in
  let ps_score :=
    if (growth_rate >? 40) && ((22 <=? ps_ratio) && (ps_ratio <=? 30)) then ps_score + 25
    else if (growth_rate >? 50) && ((30 <=? ps_ratio) && (ps_ratio <=? 40)) then ps_score + 30
    else if (growth_rate >? 60) && (ps_ratio >? 40) then ps_score + 20
    else ps_score in
  cap_score ps_score 100.

Definition tier3_valuation_rel_val_score (data : ScoreInput) : Q :=
  let ps_ratio := get_num data "ps_ratio" 999 in
  let sector_median_ps := get_num data "sector_median_ps" ps_ratio in
  if ps_ratio <? sector_median_ps then 100
  else if ps_ratio <=? sector_median_ps then 75
  else if ps_ratio <=? sector_median_ps * 1.5 then 60
  else if ps_ratio <=? sector_median_ps * 2.0 then 40
  else 20.

Definition tier3_valuation_insider_score (data : ScoreInput) : Q :=
  let insider_ownership_pct := get_num data "insider_ownership_pct" 0 in
  let insider_base :=
    if insider_ownership_pct >? 20 then 100
    else if insider_ownership_pct >=? 15 then 90
    else if insider_ownership_pct >=? 10 then 75
    else if insider_ownership_pct >=? 5 then 60
    else 40 in
  let insider_bonuses := get_flags data "insider_bonuses" in
  let insider_score := insider_base in
  let insider_score := if flag insider_bonuses "recent_buying" then insider_score + 20 else insider_score in
  let insider_score := if insider_ownership_pct >? 25 then insider_score + 15 else insider_score in
  cap_score insider_score 100.

Definition tier3_valuation (data : ScoreInput) : Q :=
  let ps_score := tier3_valuation_ps_score data in
  let rel_val_score := tier3_valuation_rel_val_score data in
  let insider_score := tier3_valuation_insider_score data in
  let valuation_score :=
    (ps_score * 0.60) +
    (rel_val_score * 0.25) +
    (insider_score * 0.15) in
  round2 valuation_score.

Definition tier3_quality_scale_score (data : ScoreInput) : Q :=
  let revenue_billions := get_num data "revenue_billions" 0 in
  if revenue_billions >? 5 then 100
  else if revenue_billions >=? 3 then 85
  else if revenue_billions >=? 2 then 75
  else if revenue_billions >=? 1 then 60
  else if revenue_billions >=? 0.5 then 45
  else 30.

Definition tier3_quality_profit_score (data : ScoreInput) : Q :=
  let is_profitable := get_bool data "is_profitable" false in
  let op_margin := get_num data "operating_margin_pct" 0 in
  let path_to_profit_months := get_num data "path_to_profit_months" 999 in
  let profit_base :=
    if is_profitable then
      if op_margin >? 15 then 100
      else if op_margin >=? 10 then 85
      else if op_margin >=? 5 then 70
      else 60
    else
      if path_to_profit_months <? 12 then 50
      else if path_to_profit_months <? 24 then 40
      else if path_to_profit_months <? 36 then 30
      else 15 in
  let profit_penalties := get_flags data "profit_path_penalties" in
  let profit_score := profit_base in
  let profit_score := if flag profit_penalties "burn_accelerating" then profit_score - 20 else profit_score in
  let profit_score := if flag profit_penalties "no_guidance" then profit_score - 15 else profit_score in
  let profit_score := if flag profit_penalties "frequent_raises" then profit_score - 10 else profit_score in
  floor_score profit_score 0.

Definition tier3_quality_gross_score (data : ScoreInput) : Q :=
  let gross_margin := get_num data "gross_margin_pct" 0 in
  if gross_margin >? 75 then 100
  else if gross_margin >=? 65 then 90
  else if gross_margin >=? 55 then 80
  else if gross_margin >=? 45 then 65
  else if gross_margin >=? 35 then 50
  else 30.

Definition tier3_quality_unit_econ_score (data : ScoreInput) : Q :=
  let ltv_cac_ratio := get_num data "ltv_cac_ratio" 0 in
  if ltv_cac_ratio >? 3 then 100
  else if ltv_cac_ratio >=? 2 then 75
  else if ltv_cac_ratio >=? 1 then 40
  else
    let cac_payback_months := get_num data "cac_payback_months" 999 in
    let gross_margin_expanding := get_bool data "gross_margin_expanding" false in
    let cohorts_improving := get_bool data "cohorts_improving" false in
    if cac_payback_months <? 12 then 85
    else if gross_margin_expanding then 70
    else if cohorts_improving then 60
    else 40.

Definition tier3_quality_customer_score (data : ScoreInput) : Q :=
  let is_saas := get_bool data "is_saas" false in
  if is_saas then
    let nrr_pct := get_num data "nrr_pct" 100 in
    if nrr_pct >? 125 then 100
    else if nrr_pct >=? 115 then 85
    else if nrr_pct >=? 105 then 70
    else if nrr_pct >=? 95 then 50
    else 30
  else
    let concentration := get_num data "top_customer_concentration_pct" 100 in
    let customer_growth := get_num data "customer_growth_pct" 0 in
    let repeat_revenue := get_num data "repeat_revenue_pct" 0 in
    let scores := [] in
    let scores := scores ++
      [if concentration <? 10 then 100
       else if concentration <? 20 then 80
       else if concentration <? 30 then 60
       else 30] in
    let scores := scores ++
      [if customer_growth >? 25 then 100
       else if customer_growth >=? 15 then 80
       else if customer_growth >=? 5 then 60
       else 40] in
    let scores := scores ++
      [if repeat_revenue >? 60 then 100
       else if repeat_revenue >=? 40 then 75
       else if repeat_revenue >=? 20 then 50
       else 30] in
    max_or scores 50.

Definition tier3_quality (data : ScoreInput) : Q :=
  let scale_score := tier3_quality_scale_score data in
  let profit_score := tier3_quality_profit_score data in
  let gross_score := tier3_quality_gross_score data in
  let unit_econ_score := tier3_quality_unit_econ_score data in
  let customer_score := tier3_quality_customer_score data in
  let quality_score :=
    (scale_score * 0.18) +
    (profit_score * 0.20) +
    (gross_score * 0.22) +
    (unit_econ_score * 0.20) +
    (customer_score * 0.20) in
  round2 quality_score.

Definition tier3_growth_rev_score (data : ScoreInput) : Q :=
  let ttm_growth := get_num data "revenue_growth_ttm_pct" 0 in
  if ttm_growth >? 50 then 100
  else if ttm_growth >=? 40 then 90
  else if ttm_growth >=? 32 then 80
  else if ttm_growth >=? 25 then 70
  else if ttm_growth >=? 20 then 55
  else if ttm_growth >=? 15 then 35
  else 15.

Definition tier3_growth_accel_score (data : ScoreInput) : Q :=
  let ttm_growth := get_num data "revenue_growth_ttm_pct" 0 in
  let quarters_accelerating := get_num data "quarters_accelerating" 0 in
  let accel_base :=
    if quarters_accelerating >=? 4 then
      let accel_base := 100 in
      if quarters_accelerating >? 4 then accel_base + 10 * (quarters_accelerating - 4)
      else accel_base
    else if quarters_accelerating =? 3 then 90
    else if quarters_accelerating =? 2 then 75
    else if ttm_growth >=? 30 then 60
    else 30 in
  cap_score accel_base 100.

Definition tier3_growth_forward_score (data : ScoreInput) : Q :=
  let ttm_growth := get_num data "revenue_growth_ttm_pct" 0 in
  let forward_est := get_num data "analyst_forward_growth_pct" 0 in
  let current_growth := ttm_growth in
  let forward_base :=
    if forward_est >? 40 then 100
    else if forward_est >=? 32 then 85
    else if forward_est >=? 25 then 70
    else if forward_est >=? 20 then 55
    else if forward_est >=? 15 then 40
    else 20 in
  let forward_score := forward_base in
  let forward_score := if forward_est >? current_growth + 8 then forward_score + 20 else forward_score in
  cap_score forward_score 100.

Definition tier3_growth_tam_score (data : ScoreInput) : Q :=
  let tam_billions := get_num data "tam_billions" 0 in
  let penetration := get_num data "market_penetration_pct" 100 in
  if (tam_billions >? 75) && (penetration <? 8) then 100
  else if (tam_billions >=? 50) && (penetration <? 12) then 85
  else if (tam_billions >=? 30) && (penetration <? 15) then 70
  else if (tam_billions >=? 15) && (penetration <? 20) then 55
  else 35.

Definition tier3_growth_drivers_score (data : ScoreInput) : Q :=
  let drivers_base := 50 in
  let driver_bonuses := get_flags data "growth_driver_bonuses" in
  let drivers_score := drivers_base in
  let drivers_score := if flag driver_bonuses "multiple_segments_25plus" then drivers_score + 30 else drivers_score in
  let drivers_score := if flag driver_bonuses "geographic_expansion" then drivers_score + 20 else drivers_score in
  let drivers_score := if flag driver_bonuses "new_product_launches" then drivers_score + 20 else drivers_score in
  let drivers_score := if flag driver_bonuses "platform_effects" then drivers_score + 20 else drivers_score in
  let drivers_score := if flag driver_bonuses "viral_network" then drivers_score + 15 else drivers_score in
  cap_score drivers_score 100.

Definition tier3_growth_cyclical_score (data : ScoreInput) : Q :=
  let business_type := get_str data "business_type" "software" in
  if str_in business_type ["software"; "saas"; "non_cyclical"] then 100
  else if String.eqb business_type "early_mid_cycle_secular" then 85
  else if String.eqb business_type "mid_cycle" then 70
  else if String.eqb business_type "late_cycle" then 45
  else 25.

Definition tier3_growth (data : ScoreInput) : Q :=
  let rev_score := tier3_growth_rev_score data in
  let accel_score := tier3_growth_accel_score data in
  let forward_score := tier3_growth_forward_score data in
  let tam_score := tier3_growth_tam_score data in
  let drivers_score := tier3_growth_drivers_score data in
  let cyclical_score := tier3_growth_cyclical_score data in
  let growth_score :=
    (rev_score * 0.28) +
    (accel_score * 0.18) +
    (forward_score * 0.18) +
    (tam_score * 0.18) +
    (drivers_score * 0.12) +
    (cyclical_score * 0.06) in
  round2 growth_score.

Definition tier3_momentum_return_score (data : ScoreInput) : Q :=
  let return_6m := get_num data "return_6m_pct" 0 in
  if return_6m >? 70 then 100
  else if return_6m >=? 50 then 90
  else if return_6m >=? 30 then 75
  else if return_6m >=? 15 then 55
  else if return_6m >=? 0 then 40
  else 60.

Definition tier3_momentum_rel_score (data : ScoreInput) : Q :=
  let return_6m := get_num data "return_6m_pct" 0 in
  let iwm_return_6m := get_num data "iwm_return_6m_pct" 0 in
  let rel_perf := return_6m - iwm_return_6m in
  let rel_base :=
    if rel_perf >? 20 then 100
    else if rel_perf >=? 12 then 80
    else if rel_perf >=? 5 then 60
    else if rel_perf >=? 0 then 45
    else 30 in
  let analyst_bonuses := get_flags data "analyst_momentum_bonuses" in
  let rel_score := rel_base in
  let rel_score := if flag analyst_bonuses "upgrades_3plus" then rel_score + 15 else rel_score in
  let rel_score := if flag analyst_bonuses "price_target_raises" then rel_score + 10 else rel_score in
  cap_score rel_score 100.

Definition tier3_momentum_sentiment_score (data : ScoreInput) : Q :=
  let analyst_bonuses := get_flags data "analyst_momentum_bonuses" in
  let volume_change_pct := get_num data "volume_change_pct" 0 in
  let sentiment_positive := get_bool data "sentiment_positive" false in
  let sentiment_base := 50 in
  let sentiment_base :=
    if volume_change_pct >? 50 then sentiment_base + 25
    else if volume_change_pct >=? 25 then sentiment_base + 15
    else if volume_change_pct <? -25 then sentiment_base - 15
    else sentiment_base in
  let sentiment_base := if sentiment_positive then sentiment_base + 15 else sentiment_base in
  let sentiment_base := if flag analyst_bonuses "analyst_momentum" then sentiment_base + 15 else sentiment_base in
  cap_score sentiment_base 100.

Definition tier3_momentum (data : ScoreInput) : Q :=
  let return_score := tier3_momentum_return_score data in
  let rel_score := tier3_momentum_rel_score data in
  let sentiment_score := tier3_momentum_sentiment_score data in
  let momentum_score :=
    (return_score * 0.40) +
    (rel_score * 0.35) +
    (sentiment_score * 0.25) in
  round2 momentum_score.

Definition tier3_scale_inflection_market_pos_score (data : ScoreInput) : Q :=
  let company_growth := get_num data "revenue_growth_ttm_pct" 0 in
  let sector_growth := get_num data "sector_avg_growth_pct" 0 in
  let growth_delta := company_growth - sector_growth in
  if growth_delta >=? 10 then 100
  else if growth_delta >=? 5 then 80
  else if growth_delta >=? 0 then 60
  else 30.

Definition tier3_scale_inflection_op_lev_score (data : ScoreInput) : Q :=
  let margin_expansion_bps := get_num data "margin_trend_bps_per_year" 0 in
  if margin_expansion_bps >? 400 then 100
  else if margin_expansion_bps >=? 250 then 85
  else if margin_expansion_bps >=? 150 then 70
  else if margin_expansion_bps >=? 100 then 55
  else 35.

Definition tier3_scale_inflection_moat_score (data : ScoreInput) : Q :=
  let moat_base := 50 in
  let moat_bonuses := get_flags data "moat_formation_bonuses" in
  let moat_score := moat_base in
  let moat_score := if flag moat_bonuses "network_effects" then moat_score + 30 else moat_score in
  let moat_score := if flag moat_bonuses "switching_costs" then moat_score + 25 else moat_score in
  let moat_score := if flag moat_bonuses "scale_advantages" then moat_score + 20 else moat_score in
  let moat_score := if flag moat_bonuses "data_ip_moat" then moat_score + 20 else moat_score in
  let moat_score := if flag moat_bonuses "brand_emerging" then moat_score + 15 else moat_score in
  cap_score moat_score 100.

Definition tier3_scale_inflection_partnership_score (data : ScoreInput) : Q :=
  let partnership_base := 50 in
  let partnership_bonuses := get_flags data "partnership_bonuses" in
  let partnership_score := partnership_base in
  let partnership_score := if flag partnership_bonuses "major_tech_partners" then partnership_score + 30 else partnership_score in
  let partnership_score := if flag partnership_bonuses "gov_enterprise" then partnership_score + 25 else partnership_score in
  let partnership_score := if flag partnership_bonuses "critical_integrations" then partnership_score + 20 else partnership_score in
  let partnership_score := if flag partnership_bonuses "ecosystem_role" then partnership_score + 15 else partnership_score in
  cap_score partnership_score 100.

Definition tier3_scale_inflection (data : ScoreInput) : Q :=
  let market_pos_score := tier3_scale_inflection_market_pos_score data in
  let op_lev_score := tier3_scale_inflection_op_lev_score data in
  let moat_score := tier3_scale_inflection_moat_score data in
  let partnership_score := tier3_scale_inflection_partnership_score data in
  let si_score :=
    (market_pos_score * 0.30) +
    (op_lev_score * 0.30) +
    (moat_score * 0.25) +
    (partnership_score * 0.15) in
  round2 si_score.

Definition calculate_tier3_composite (data : ScoreInput) : Q * list (string * Q) :=
  let v_score := tier3_valuation data in
  let q_score := tier3_quality data in
  let g_score := tier3_growth data in
  let m_score := tier3_momentum data in
  let si_score := tier3_scale_inflection data in
  let composite :=
    (v_score * 0.15) +
    (q_score * 0.22) +
    (g_score * 0.38) +
    (m_score * 0.15) +
    (si_score * 0.10) in
  let components :=
    [("Valuation", v_score); ("Quality", q_score); ("Growth", g_score);
     ("Momentum", m_score); ("Scale_Inflection", si_score)] in
  (round2 composite, components).

(** ** Tier 4: Small-Cap Moonshots *)

Definition tier4_valuation_ps_score (data : ScoreInput) : Q :=
  let ps_ratio := get_num data "ps_ratio" 999 in
  let growth_rate := get_num data "revenue_growth_ttm_pct" 0 in
  let ps_base :=
    if ps_ratio <? 12 then 100
    else if ps_ratio <? 20 then 85
    else if ps_ratio <? 35 then 70
    else if ps_ratio <? 50 then 50
    else if ps_ratio <? 75 then 35
    else 25 in
  let ps_score := ps_base in
  let ps_score :=
    if (growth_rate >? 75) && ((35 <=? ps_ratio) && (ps_ratio <=? 50)) then ps_score + 35
    else if (growth_rate >? 100) && ((50 <=? ps_ratio) && (ps_ratio <=? 75)) then ps_score + 30
    else if (growth_rate >? 100) && (ps_ratio >? 75) then ps_score + 25
    else ps_score in
  cap_score ps_score 100.

(** Component 2 of [tier4_valuation].  The division is guarded by
    [sector_median_ps > 0]. *)
Definition tier4_valuation_rel_val_score (data : ScoreInput) : result Q :=
  let ps_ratio := get_num data "ps_ratio" 999 in
  let sector_median_ps := get_num data "sector_median_ps" ps_ratio in
  ratio_to_sector ←
    (if sector_median_ps >? 0 then py_div ps_ratio sector_median_ps else mret 1.0);
  mret (if ratio_to_sector <? 1.0 then 100
        else if ratio_to_sector <=? 1.0 then 75
        else if ratio_to_sector <=? 2.0 then 60
        else if ratio_to_sector <=? 3.0 then 40
        else 20).

Definition tier4_valuation_insider_score (data : ScoreInput) : Q :=
  let insider_pct := get_num data "insider_ownership_pct" 0 in
  let insider_base :=
    if insider_pct >? 25 then 100
    else if insider_pct >=? 20 then 90
    else if insider_pct >=? 15 then 80
    else if insider_pct >=? 10 then 65
    else if insider_pct >=? 5 then 45
    else 30 in
  let insider_bonuses := get_flags data "insider_bonuses" in
  let insider_score := insider_base in
  let insider_score := if flag insider_bonuses "recent_buying" then insider_score + 20 else insider_score in
  let insider_score := if insider_pct >? 30 then insider_score + 20 else insider_score in
  cap_score insider_score 100.

Definition tier4_valuation (data : ScoreInput) : result Q :=
  let ps_score := tier4_valuation_ps_score data in
  rel_val_score ← tier4_valuation_rel_val_score data;
  let insider_score := tier4_valuation_insider_score data in
  let valuation_score :=
    (ps_score * 0.60) +
    (rel_val_score * 0.25) +
    (insider_score * 0.15) in
  mret (round2 valuation_score).

Definition tier4_quality_gross_score (data : ScoreInput) : Q :=
  let gross_margin := get_num data "gross_margin_pct" 0 in
  if gross_margin >? 70 then 100
  else if gross_margin >=? 60 then 85
  else if gross_margin >=? 50 then 70
  else if gross_margin >=? 40 then 50
  else if gross_margin >=? 30 then 35
  else 20.

Definition tier4_quality_rev_quality_score (data : ScoreInput) : Q :=
  let rev_quality_base := 50 in
  let recurring_pct := get_num data "recurring_revenue_pct" 0 in
  let nrr_pct := get_num data "nrr_pct" 100 in
  let top_customer_pct := get_num data "top_customer_concentration_pct" 100 in
  let top_3_customers_pct := get_num data "top_3_concentration_pct" 100 in
  let rev_quality_score := rev_quality_base in
  let rev_quality_score :=
    if recurring_pct >? 70 then rev_quality_score + 30
    else if recurring_pct >=? 50 then rev_quality_score + 20
    else rev_quality_score in
  let rev_quality_score := if nrr_pct >? 110 then rev_quality_score + 20 else rev_quality_score in
  let rev_quality_score :=
    if top_customer_pct <? 10 then rev_quality_score + 15
    else if top_customer_pct >? 50 then rev_quality_score - 35
    else rev_quality_score in
  let rev_quality_score :=
    if top_3_customers_pct <? 25 then rev_quality_score + 5
    else if top_3_customers_pct >? 30 then rev_quality_score - 20
    else rev_quality_score in
  cap_score (floor_score rev_quality_score 0) 100.

Definition tier4_quality_unit_econ_score (data : ScoreInput) : Q :=
  let ltv_cac := get_num data "ltv_cac_ratio" 0 in
  if ltv_cac >? 3 then 100
  else if ltv_cac >=? 2 then 75
  else if ltv_cac >=? 1 then 40
  else
    let cac_payback := get_num data "cac_payback_months" 999 in
    if cac_payback <? 12 then 85
    else if get_bool data "gross_margin_expanding" false then 70
    else if get_bool data "cohorts_improving" false then 60
    else 40.

Definition tier4_quality_profit_path_score (data : ScoreInput) : Q :=
  let is_profitable := get_bool data "is_profitable" false in
  let path_months := get_num data "path_to_profit_months" 999 in
  let profit_path_base :=
    if is_profitable then 100
    else if path_months <? 12 then 80
    else if path_months <? 24 then 60
    else if path_months <? 36 then 40
    else if path_months <? 48 then 25
    else 15 in
  let penalties := get_flags data "profit_path_penalties" in
  let profit_path_score := profit_path_base in
  let profit_path_score := if flag penalties "burn_accelerating" then profit_path_score - 25 else profit_path_score in
  let profit_path_score := if flag penalties "no_guidance" then profit_path_score - 15 else profit_path_score in
  let profit_path_score := if flag penalties "frequent_raises" then profit_path_score - 10 else profit_path_score in
  floor_score profit_path_score 0.

Definition tier4_quality (data : ScoreInput) : Q :=
  let gross_score := tier4_quality_gross_score data in
  let rev_quality_score := tier4_quality_rev_quality_score data in
  let unit_econ_score := tier4_quality_unit_econ_score data in
  let profit_path_score := tier4_quality_profit_path_score data in
  let quality_score :=
    (gross_score * 0.30) +
    (rev_quality_score * 0.30) +
    (unit_econ_score * 0.20) +
    (profit_path_score * 0.20) in
  round2 quality_score.

Definition tier4_growth_rev_score (data : ScoreInput) : Q :=
  let ttm_growth := get_num data "revenue_growth_ttm_pct" 0 in
  if ttm_growth >? 100 then 100
  else if ttm_growth >=? 75 then 95
  else if ttm_growth >=? 55 then 85
  else if ttm_growth >=? 40 then 70
  else if ttm_growth >=? 30 then 50
  else if ttm_growth >=? 20 then 30
  else 15.

Definition tier4_growth_consist_score (data : ScoreInput) : Q :=
  let ttm_growth := get_num data "revenue_growth_ttm_pct" 0 in
  let quarters_accel := get_num data "quarters_accelerating" 0 in
  let consist_base :=
    if quarters_accel >=? 5 then 100 + (10 * (quarters_accel - 5))
    else if quarters_accel =? 4 then 90
    else if quarters_accel =? 3 then 80
    else if ttm_growth >=? 40 then 70
    else 30 in
  cap_score consist_base 100.

Definition tier4_growth_tam_score (data : ScoreInput) : Q :=
  let tam_billions := get_num data "tam_billions" 0 in
  if tam_billions >? 150 then 100
  else if tam_billions >=? 100 then 90
  else if tam_billions >=? 50 then 75
  else if tam_billions >=? 25 then 55
  else if tam_billions >=? 10 then 35
  else 20.

Definition tier4_growth_penetration_score (data : ScoreInput) : Q :=
  let penetration_pct := get_num data "market_penetration_pct" 100 in
  if penetration_pct <? 3 then 100
  else if penetration_pct <? 5 then 90
  else if penetration_pct <? 10 then 75
  else if penetration_pct <? 15 then 55
  else 35.

Definition tier4_growth_drivers_score (data : ScoreInput) : Q :=
  let drivers_base := 50 in
  let driver_bonuses := get_flags data "growth_driver_bonuses" in
  let drivers_score := drivers_base in
  let drivers_score := if flag driver_bonuses "network_effects" then drivers_score + 25 else drivers_score in
  let drivers_score := if flag driver_bonuses "viral_growth_50plus" then drivers_score + 25 else drivers_score in
  let drivers_score := if flag driver_bonuses "platform_forming" then drivers_score + 20 else drivers_score in
  let drivers_score := if flag driver_bonuses "multiple_streams_35plus" then drivers_score + 20 else drivers_score in
  let drivers_score := if flag driver_bonuses "gov_enterprise_accelerating" then drivers_score + 20 else drivers_score in
  cap_score drivers_score 100.

Definition tier4_growth_forward_score (data : ScoreInput) : Q :=
  let ttm_growth := get_num data "revenue_growth_ttm_pct" 0 in
  let forward_est := get_num data "analyst_forward_growth_pct" 0 in
  let current_growth := ttm_growth in
  let forward_base :=
    if forward_est >? 60 then 100
    else if forward_est >=? 50 then 90
    else if forward_est >=? 40 then 80
    else if forward_est >=? 30 then 65
    else if forward_est >=? 20 then 45
    else 25 in
  let forward_score := forward_base in
  let forward_score := if forward_est >? current_growth + 12 then forward_score + 20 else forward_score in
  cap_score forward_score 100.

Definition tier4_growth_catalyst_score (data : ScoreInput) : Q :=
  let catalyst_base := 50 in
  let catalyst_bonuses := get_flags data "catalyst_bonuses" in
  let catalyst_score := catalyst_base in
  let catalyst_score := if flag catalyst_bonuses "major_launch_6mo" then catalyst_score + 30 else catalyst_score in
  let catalyst_score := if flag catalyst_bonuses "market_expansion" then catalyst_score + 25 else catalyst_score in
  let catalyst_score := if flag catalyst_bonuses "partnership_expected" then catalyst_score + 25 else catalyst_score in
  let catalyst_score := if flag catalyst_bonuses "regulatory_milestone" then catalyst_score + 30 else catalyst_score in
  let catalyst_score := if flag catalyst_bonuses "index_inclusion" then catalyst_score + 20 else catalyst_score in
  cap_score catalyst_score 100.

Definition tier4_growth (data : ScoreInput) : Q :=
  let rev_score := tier4_growth_rev_score data in
  let consist_score := tier4_growth_consist_score data in
  let tam_score := tier4_growth_tam_score data in
  let penetration_score := tier4_growth_penetration_score data in
  let drivers_score := tier4_growth_drivers_score data in
  let forward_score := tier4_growth_forward_score data in
  let catalyst_score := tier4_growth_catalyst_score data in
  let growth_score :=
    (rev_score * 0.28) +
    (consist_score * 0.15) +
    (tam_score * 0.15) +
    (penetration_score * 0.10) +
    (drivers_score * 0.15) +
    (forward_score * 0.12) +
    (catalyst_score * 0.05) in
  round2 growth_score.

Definition tier4_momentum_return_score (data : ScoreInput) : Q :=
  let return_6m := get_num data "return_6m_pct" 0 in
  if return_6m >? 100 then 100
  else if return_6m >=? 70 then 95
  else if return_6m >=? 50 then 85
  else if return_6m >=? 30 then 70
  else if return_6m >=? 15 then 50
  else if return_6m >=? 0 then 35
  else 60.

Definition tier4_momentum_rel_score (data : ScoreInput) : Q :=
  let return_6m := get_num data "return_6m_pct" 0 in
  let iwo_return_6m := get_num data "iwo_return_6m_pct" 0 in
  let rel_perf := return_6m - iwo_return_6m in
  if rel_perf >? 30 then 100
  else if rel_perf >=? 20 then 85
  else if rel_perf >=? 10 then 65
  else if rel_perf >=? 0 then 45
  else 25.

Definition tier4_momentum_sentiment_score (data : ScoreInput) : Q :=
  let sentiment_base := 50 in
  let sentiment_bonuses := get_flags data "sentiment_bonuses" in
  let sentiment_score := sentiment_base in
  let sentiment_score := if flag sentiment_bonuses "rising_mentions_bullish" then sentiment_score + 25 else sentiment_score in
  let sentiment_score := if flag sentiment_bonuses "positive_reddit" then sentiment_score + 20 else sentiment_score in
  let sentiment_score := if flag sentiment_bonuses "analyst_upgrades_3plus" then sentiment_score + 25 else sentiment_score in
  let sentiment_score := if flag sentiment_bonuses "target_increases" then sentiment_score + 20 else sentiment_score in
  let sentiment_score := if flag sentiment_bonuses "positive_media" then sentiment_score + 15 else sentiment_score in
  let sentiment_penalties := get_flags data "sentiment_penalties" in
  let sentiment_score := if flag sentiment_penalties "negative_trending" then sentiment_score - 25 else sentiment_score in
  let sentiment_score := if flag sentiment_penalties "unsustainable_meme" then sentiment_score - 20 else sentiment_score in
  cap_score (floor_score sentiment_score 0) 100.

Definition tier4_momentum_volume_score (data : ScoreInput) : Q :=
  let volume_change_30d_vs_90d := get_num data "volume_change_pct" 0 in
  if volume_change_30d_vs_90d >? 75 then 100
  else if volume_change_30d_vs_90d >=? 50 then 85
  else if volume_change_30d_vs_90d >=? 25 then 65
  else if abs volume_change_30d_vs_90d <=? 25 then 50
  else 30.

Definition tier4_momentum (data : ScoreInput) : Q :=
  let return_score := tier4_momentum_return_score data in
  let rel_score := tier4_momentum_rel_score data in
  let sentiment_score := tier4_momentum_sentiment_score data in
  let volume_score := tier4_momentum_volume_score data in
  let momentum_score :=
    (return_score * 0.40) +
    (rel_score * 0.30) +
    (sentiment_score * 0.20) +
    (volume_score * 0.10) in
  round2 momentum_score.

Definition tier4_disruption_disruption_score (data : ScoreInput) : Q :=
  let disruption_type := get_str data "disruption_type" "incremental" in
  if String.eqb disruption_type "attacking_100b_plus" then 100
  else if String.eqb disruption_type "creating_new_category" then 95
  else if String.eqb disruption_type "significant_share_gains" then 85
  else if String.eqb disruption_type "niche_10_50b" then 70
  else 50.

Definition tier4_disruption_tech_moat_score (data : ScoreInput) : Q :=
  let tech_moat_base := 50 in
  let tech_bonuses := get_flags data "tech_moat_bonuses" in
  let tech_moat_score := tech_moat_base in
  let tech_moat_score := if flag tech_bonuses "proprietary_ai_ml" then tech_moat_score + 30 else tech_moat_score in
  let tech_moat_score := if flag tech_bonuses "strong_patents" then tech_moat_score + 25 else tech_moat_score in
  let tech_moat_score := if flag tech_bonuses "unique_data_assets" then tech_moat_score + 25 else tech_moat_score in
  let tech_moat_score := if flag tech_bonuses "first_mover_scale" then tech_moat_score + 20 else tech_moat_score in
  let tech_moat_score := if flag tech_bonuses "unique_supply_chain" then tech_moat_score + 25 else tech_moat_score in
  cap_score tech_moat_score 100.

Definition tier4_disruption_comp_dyn_score (data : ScoreInput) : Q :=
  let market_structure := get_str data "market_structure" "highly_competitive" in
  if String.eqb market_structure "winner_take_most" then 100
  else if String.eqb market_structure "oligopoly_forming" then 80
  else if String.eqb market_structure "crowded_differentiated" then 60
  else if String.eqb market_structure "highly_competitive" then 40
  else 20.

Definition tier4_disruption_catalyst_score (data : ScoreInput) : Q :=
  let catalyst_base := 50 in
  let catalyst_bonuses := get_flags data "catalyst_bonuses" in
  let catalyst_score := catalyst_base in
  let catalyst_score := if flag catalyst_bonuses "major_launch_6mo" then catalyst_score + 30 else catalyst_score in
  let catalyst_score := if flag catalyst_bonuses "partnership_expected" then catalyst_score + 25 else catalyst_score in
  let catalyst_score := if flag catalyst_bonuses "market_expansion" then catalyst_score + 25 else catalyst_score in
  let catalyst_score := if flag catalyst_bonuses "regulatory_approval" then catalyst_score + 30 else catalyst_score in
  let catalyst_score := if flag catalyst_bonuses "acquisition_target" then catalyst_score + 20 else catalyst_score in
  cap_score catalyst_score 100.

Definition tier4_disruption (data : ScoreInput) : Q :=
  let disruption_score := tier4_disruption_disruption_score data in
  let tech_moat_score := tier4_disruption_tech_moat_score data in
  let comp_dyn_score := tier4_disruption_comp_dyn_score data in
  let catalyst_score := tier4_disruption_catalyst_score data in
  let disruption_total :=
    (disruption_score * 0.35) +
    (tech_moat_score * 0.25) +
    (comp_dyn_score * 0.25) +
    (catalyst_score * 0.15) in
  round2 disruption_total.

Definition calculate_tier4_composite (data : ScoreInput) : result (Q * list (string * Q)) :=
  v_score ← tier4_valuation data;
  let q_score := tier4_quality data in
  let g_score := tier4_growth data in
  let m_score := tier4_momentum data in
  let d_score := tier4_disruption data in
  let composite :=
    (v_score * 0.10) +
    (q_score * 0.15) +
    (g_score * 0.40) +
    (m_score * 0.15) +
    (d_score * 0.20) in
  let components :=
    [("Valuation", v_score); ("Quality", q_score); ("Growth", g_score);
     ("Momentum", m_score); ("Disruption", d_score)] in
  mret (round2 composite, components).

(** ** Position size and the main entry point *)

Definition base_allocations : gmap Z Q :=
  <[1%Z := 10.0]> (<[2%Z := 7.0]> (<[3%Z := 5.0]> (<[4%Z := 3.0]> ∅))).
Definition vol_multipliers : gmap Z Q :=
  <[1%Z := 0.75]> (<[2%Z := 1.0]> (<[3%Z := 1.3]> (<[4%Z := 1.5]> ∅))).

Definition calculate_position_size (tier : Z) (score beta : Q) : result Q :=
  base ← subscript base_allocations tier;
  vol_mult ← subscript vol_multipliers tier;
  let vol_adjustment := 1 + ((beta - 1) * vol_mult) in
  position ← py_div (base * (score / 100.0)) vol_adjustment;
  let position := inject_Z (round_half_even (position * 2)) / 2 in
  mret position.

Record ScoreResult : Type := {
  ticker : string;
  tier : Z;
  tier_name : string;
  market_cap_billions : Q;
  composite_score : Q;
  rating : string;
  stars : string;
  position_size_pct : Q;
  min_score_for_tier : Q;
  score_buffer : Q;
  components : list (string * Q);
  beta : Q
}.

(** The rating ladder assigns [stars] the empty string in each of its
    branches.  The dict literal of the result subscripts
    [TIER_DEFINITIONS] after the position size has been computed. *)
Definition calculate_score (ticker : string) (data : ScoreInput) : result ScoreResult :=
  let market_cap_billions := get_num data "market_cap_billions" 0 in
  let tier := determine_tier market_cap_billions in
  '(composite, components) ←
    (if (tier =? 1)%Z then calculate_tier1_composite data
     else if (tier =? 2)%Z then mret (calculate_tier2_composite data)
     else if (tier =? 3)%Z then mret (calculate_tier3_composite data)
     else calculate_tier4_composite data);
  let '(rating, stars) :=
    if composite >=? 80 then ("Strong Buy", EmptyString)
    else if composite >=? 70 then ("Buy", EmptyString)
    else if composite >=? 60 then ("Hold", EmptyString)
    else if composite >=? 50 then ("Reduce", EmptyString)
    else ("Sell", EmptyString) in
  let beta := get_num data "beta" 1.0 in
  position_size ← calculate_position_size tier composite beta;
  tier_def ← subscript TIER_DEFINITIONS tier;
  mret {| ticker := ticker;
          tier := tier;
          tier_name := name tier_def;
          market_cap_billions := market_cap_billions;
          composite_score := composite;
          rating := rating;
          stars := stars;
          position_size_pct := position_size;
          min_score_for_tier := min_score tier_def;
          score_buffer := round2 (composite - min_score tier_def);
          components := components;
          beta := beta |}.

(** ** Position size on binary64 floats *)

(** [calculate_position_size] as Python evaluates it: [score] and [beta] are
    floats and every operation rounds its exact result to the nearest
    binary64 number, ties to even, which is what the kernel's primitive
    floats do.  An int operand ([1], [2]) is converted exactly. *)
Module Float64.

(** The rational that a finite float denotes. *)
Definition float_value (x : float) : option Q :=
  match Prim2SF x with
  | S754_zero _ => Some 0
  | S754_finite s m e => Some (inject_Z (if s then Z.neg m else Z.pos m) * Qpower 2 e)
  | S754_infinity _ | S754_nan => None
  end.

(** [x / y] on floats *)
Definition py_div (x y : float) : result float :=
  if (y =? 0)%float then Raise ZeroDivisionError else Ok (x / y)%float.

(** [round(x)] on a float: the int nearest its value, ties to the even one;
    it raises on an infinity and on a NaN. *)
Definition round (x : float) : result Z :=
  match float_value x with
  | Some value => Ok (round_half_even value)
  | None => if is_nan x then Raise ValueError else Raise OverflowError
  end.

(** [k / 2] on an int: the float nearest the exact quotient. *)
Definition int_half (k : Z) : float :=
  SF2Prim (binary_normalize prec emax k (-1) false).

Definition base_allocations : gmap Z float :=
  <[1%Z := 10.0%float]> (<[2%Z := 7.0%float]> (<[3%Z := 5.0%float]> (<[4%Z := 3.0%float]> ∅))).
Definition vol_multipliers : gmap Z float :=
  <[1%Z := 0.75%float]> (<[2%Z := 1.0%float]> (<[3%Z := 1.3%float]> (<[4%Z := 1.5%float]> ∅))).

Definition calculate_position_size (tier : Z) (score beta : float) : result float :=
  base ← subscript base_allocations tier;
  vol_mult ← subscript vol_multipliers tier;
  let vol_adjustment := (1 + ((beta - 1) * vol_mult))%float in
  position ← py_div (base * (score / 100.0))%float vol_adjustment;
  position ← round (position * 2)%float;
  mret (int_half position).

End Float64.

(** * Vocabulary of the properties *)

(** A score, sub-score or composite within [0, 100]. *)
Definition in_range (s : Q) : Prop := 0 <= s <= 100.

(** [s1 * w1 + s2 * w2 + ...] *)
Definition weighted_sum (scores weights : list Q) : Q :=
  fold_right Qplus 0 (zip_with Qmult scores weights).

(** [w1 + w2 + ...] *)
Definition total (weights : list Q) : Q := fold_right Qplus 0 weights.

(** Every component scorer of the engine rounds a weighted sum of
    sub-scores.  A [component] names the scorer, the sub-scores it computes
    from a record and the weights it applies to them, in the order of the
    source. *)
Record component : Type := {
  scorer : ScoreInput -> result Q;
  subscores : ScoreInput -> result (list Q);
  weights : list Q
}.

(** The component of a scorer that performs no division. *)
Definition pure_component (f : ScoreInput -> Q) (subs : ScoreInput -> list Q)
    (ws : list Q) : component :=
  {| scorer := fun data => Ok (f data);
     subscores := fun data => Ok (subs data);
     weights := ws |}.

(** A component is sound when its weights add up to one and, on every
    record, its sub-scores are computed without an exception, lie in
    [0, 100], and the scorer returns their rounded weighted sum. *)
Definition component_sound (c : component) : Prop :=
  total (weights c) == 1 /\
  forall data, exists subs,
    subscores c data = Ok subs /\
    length subs = length (weights c) /\
    Forall in_range subs /\
    scorer c data = Ok (round2 (weighted_sum subs (weights c))).

Definition tier1_valuation_component : component :=
  {| scorer := tier1_valuation;
     subscores := fun data =>
       pe_score ← tier1_valuation_pe_score data;
       mret [pe_score; tier1_valuation_fcf_score data; tier1_valuation_peg_score data];
     weights := [0.35; 0.30; 0.35] |}.

Definition tier1_quality_component : component :=
  pure_component tier1_quality
    (fun data => [tier1_quality_roic_score data; tier1_quality_op_margin_score data;
                  tier1_quality_margin_trend_score data; tier1_quality_moat_score data;
                  tier1_quality_mgmt_score data; tier1_quality_cash_conv_score data])
    [0.30; 0.20; 0.12; 0.18; 0.10; 0.10].

Definition tier1_growth_component : component :=
  pure_component tier1_growth
    (fun data => [tier1_growth_rev_growth_score data; tier1_growth_consistency_score data;
                  tier1_growth_eps_score data; tier1_growth_future_score data;
                  tier1_growth_analyst_score data])
    [0.30; 0.15; 0.25; 0.15; 0.15].

Definition tier1_momentum_component : component :=
  pure_component tier1_momentum
    (fun data => [tier1_momentum_return_score data; tier1_momentum_rel_score data;
                  tier1_momentum_technical_score data])
    [0.40; 0.35; 0.25].

Definition tier1_financial_health_component : component :=
  pure_component tier1_financial_health
    (fun data => [tier1_financial_health_net_cash_score data;
                  tier1_financial_health_fcf_score data;
                  tier1_financial_health_cap_alloc_score data])
    [0.50; 0.40; 0.10].

Definition tier2_valuation_component : component :=
  pure_component tier2_valuation
    (fun data => [tier2_valuation_pe_ps_score data; tier2_valuation_peg_score data;
                  tier2_valuation_rel_val_score data])
    [0.55; 0.25; 0.20].

Definition tier2_quality_component : component :=
  pure_component tier2_quality
    (fun data => [tier2_quality_rev_scale_score data; tier2_quality_profit_score data;
                  tier2_quality_gross_margin_score data; tier2_quality_margin_traj_score data;
                  tier2_quality_retention_score data; tier2_quality_market_pos_score data])
    [0.15; 0.18; 0.20; 0.15; 0.20; 0.12].

Definition tier2_growth_component : component :=
  pure_component tier2_growth
    (fun data => [tier2_growth_rev_growth_score data; tier2_growth_consistency_score data;
                  tier2_growth_forward_score data; tier2_growth_eps_vs_rev_score data;
                  tier2_growth_tam_score data; tier2_growth_drivers_score data;
                  tier2_growth_cyclicality_score data])
    [0.25; 0.15; 0.20; 0.10; 0.15; 0.10; 0.05].

Definition tier2_momentum_component : component :=
  pure_component tier2_momentum
    (fun data => [tier2_momentum_return_score data; tier2_momentum_rel_score data;
                  tier2_momentum_technical_score data])
    [0.40; 0.35; 0.25].

Definition tier2_scale_moat_component : component :=
  pure_component tier2_scale_moat
    (fun data => [tier2_scale_moat_comp_pos_score data; tier2_scale_moat_moat_score data;
                  tier2_scale_moat_op_leverage_score data;
                  tier2_scale_moat_partnership_score data])
    [0.35; 0.30; 0.20; 0.15].

Definition tier3_valuation_component : component :=
  pure_component tier3_valuation
    (fun data => [tier3_valuation_ps_score data; tier3_valuation_rel_val_score data;
                  tier3_valuation_insider_score data])
    [0.60; 0.25; 0.15].

Definition tier3_quality_component : component :=
  pure_component tier3_quality
    (fun data => [tier3_quality_scale_score data; tier3_quality_profit_score data;
                  tier3_quality_gross_score data; tier3_quality_unit_econ_score data;
                  tier3_quality_customer_score data])
    [0.18; 0.20; 0.22; 0.20; 0.20].

Definition tier3_growth_component : component :=
  pure_component tier3_growth
    (fun data => [tier3_growth_rev_score data; tier3_growth_accel_score data;
                  tier3_growth_forward_score data; tier3_growth_tam_score data;
                  tier3_growth_drivers_score data; tier3_growth_cyclical_score data])
    [0.28; 0.18; 0.18; 0.18; 0.12; 0.06].

Definition tier3_momentum_component : component :=
  pure_component tier3_momentum
    (fun data => [tier3_momentum_return_score data; tier3_momentum_rel_score data;
                  tier3_momentum_sentiment_score data])
    [0.40; 0.35; 0.25].

Definition tier3_scale_inflection_component : component :=
  pure_component tier3_scale_inflection
    (fun data => [tier3_scale_inflection_market_pos_score data;
                  tier3_scale_inflection_op_lev_score data;
                  tier3_scale_inflection_moat_score data;
                  tier3_scale_inflection_partnership_score data])
    [0.30; 0.30; 0.25; 0.15].

Definition tier4_valuation_component : component :=
  {| scorer := tier4_valuation;
     subscores := fun data =>
       rel_val_score ← tier4_valuation_rel_val_score data;
       mret [tier4_valuation_ps_score data; rel_val_score; tier4_valuation_insider_score data];
     weights := [0.60; 0.25; 0.15] |}.

Definition tier4_quality_component : component :=
  pure_component tier4_quality
    (fun data => [tier4_quality_gross_score data; tier4_quality_rev_quality_score data;
                  tier4_quality_unit_econ_score data; tier4_quality_profit_path_score data])
    [0.30; 0.30; 0.20; 0.20].

Definition tier4_growth_component : component :=
  pure_component tier4_growth
    (fun data => [tier4_growth_rev_score data; tier4_growth_consist_score data;
                  tier4_growth_tam_score data; tier4_growth_penetration_score data;
                  tier4_growth_drivers_score data; tier4_growth_forward_score data;
                  tier4_growth_catalyst_score data])
    [0.28; 0.15; 0.15; 0.10; 0.15; 0.12; 0.05].

Definition tier4_momentum_component : component :=
  pure_component tier4_momentum
    (fun data => [tier4_momentum_return_score data; tier4_momentum_rel_score data;
                  tier4_momentum_sentiment_score data; tier4_momentum_volume_score data])
    [0.40; 0.30; 0.20; 0.10].

Definition tier4_disruption_component : component :=
  pure_component tier4_disruption
    (fun data => [tier4_disruption_disruption_score data; tier4_disruption_tech_moat_score data;
                  tier4_disruption_comp_dyn_score data; tier4_disruption_catalyst_score data])
    [0.35; 0.25; 0.25; 0.15].

(** The five component scorers of a tier, in the order of its composite. *)
Definition tier_components (tier : Z) : list component :=
  if (tier =? 1)%Z then
    [tier1_valuation_component; tier1_quality_component; tier1_growth_component;
     tier1_momentum_component; tier1_financial_health_component]
  else if (tier =? 2)%Z then
    [tier2_valuation_component; tier2_quality_component; tier2_growth_component;
     tier2_momentum_component; tier2_scale_moat_component]
  else if (tier =? 3)%Z then
    [tier3_valuation_component; tier3_quality_component; tier3_growth_component;
     tier3_momentum_component; tier3_scale_inflection_component]
  else
    [tier4_valuation_component; tier4_quality_component; tier4_growth_component;
     tier4_momentum_component; tier4_disruption_component].

(** The twenty component scorers of the engine. *)
Definition component_scorers : list component :=
  tier_components 1 ++ tier_components 2 ++ tier_components 3 ++ tier_components 4.

(** What a tier's composite calculation returns on a record: the five
    scorers of the tier, each in [0, 100], and their weighted sum under the
    tier's row of [TIER_WEIGHTS], rounded to two decimals. *)
Definition composite_ok (tier : Z) (data : ScoreInput)
    (composite : Q) (components : list (string * Q)) : Prop :=
  Forall2 (fun c p => scorer c data = Ok (snd p)) (tier_components tier) components /\
  Forall (fun p => in_range (snd p)) components /\
  (exists row, TIER_WEIGHTS !! tier = Some row /\
               composite = round2 (weighted_sum (map snd components) (map snd row))) /\
  in_range composite.

(** The dispatch on the tier inside [calculate_score]. *)
Definition tier_composite (tier : Z) (data : ScoreInput) : result (Q * list (string * Q)) :=
  if (tier =? 1)%Z then calculate_tier1_composite data
  else if (tier =? 2)%Z then mret (calculate_tier2_composite data)
  else if (tier =? 3)%Z then mret (calculate_tier3_composite data)
  else calculate_tier4_composite data.

(** The rating ladder inside [calculate_score]. *)
Definition rating_of (composite : Q) : string :=
  if composite >=? 80 then "Strong Buy"
  else if composite >=? 70 then "Buy"
  else if composite >=? 60 then "Hold"
  else if composite >=? 50 then "Reduce"
  else "Sell".

(** The exact position before rounding, as the specification writes it. *)
Definition exact_position (base mult score beta : Q) : Q :=
  (base * (score / 100)) / (1 + (beta - 1) * mult).

(** The record of the Tier-1 end-to-end scenario. *)
Definition googl_data : ScoreInput :=
  {| numbers := list_to_map
       [("market_cap_billions", 1800); ("pe_ratio", 22); ("historical_pe_avg", 25);
        ("fcf_yield_pct", 4.17); ("peg_ratio", 1.4); ("roic_pct", 24.08);
        ("operating_margin_pct", 32.08); ("margin_trend_bps_per_year", 150);
        ("earnings_beat_rate_pct", 83.3); ("cash_conversion_ratio", 1.25);
        ("revenue_cagr_3yr_pct", 11.86); ("revenue_growth_recent_yoy_pct", 16);
        ("eps_cagr_3yr_pct", 15); ("tam_billions", 500); ("market_share_pct", 15);
        ("analyst_forward_growth_pct", 12); ("return_12m_pct", 35.2);
        ("spy_return_12m_pct", 25); ("price", 140); ("ma_50", 135); ("ma_200", 125);
        ("net_cash_billions", 100); ("fcf_billions", 75); ("beta", 1.1)];
     booleans := ∅;
     texts := ∅;
     flag_sets := list_to_map
       [("moat_bonuses",
           list_to_map [("network_effects", true); ("economies_of_scale", true)]);
        ("mgmt_bonuses", list_to_map [("consistent_buybacks", true)]);
        ("capital_allocation_bonuses",
           list_to_map [("buybacks_rnd_gt_10pct", true); ("value_creating_ma", true)])] |}.

(** Two component tables agree: same names in the same order, equal scores. *)
Definition same_components (actual expected : list (string * Q)) : Prop :=
  Forall2 (fun p q => fst p = fst q /\ snd p == snd q) actual expected.

(** A Tier-1 record with a current P/E and no historical average. *)
Definition tier1_without_history : ScoreInput :=
  {| numbers := list_to_map [("market_cap_billions", 1800); ("pe_ratio", 22)];
     booleans := ∅; texts := ∅; flag_sets := ∅ |}.

(** The record with every field absent. *)
Definition no_fields : ScoreInput :=
  {| numbers := ∅; booleans := ∅; texts := ∅; flag_sets := ∅ |}.

(** Thresholds in strictly descending order, as [bracket_score] assumes. *)
Fixpoint descending (brackets : list (Q * Q)) : Prop :=
  match brackets with
  | [] => True
  | (threshold, _) :: rest =>
      Forall (fun p => fst p < threshold) rest /\ descending rest
  end.


(** A numeric field of the record, with the default the source gives it. *)
Definition field (key : string) (dflt : Q) (data : ScoreInput) : Q :=
  get_num data key dflt.
















(** The record with one numeric field. *)
Definition only_number (key : string) (value : Q) : ScoreInput :=
  {| numbers := {[ key := value ]}; booleans := ∅; texts := ∅; flag_sets := ∅ |}.

(** The tiers with their base allocation and volatility multiplier, as
    [calculate_position_size] tabulates them. *)
Definition position_tiers : list (Z * Q * Q) :=
  [(1%Z, 10.0, 0.75); (2%Z, 7.0, 1.0); (3%Z, 5.0, 1.3); (4%Z, 3.0, 1.5)].

(** The [vol_adjustment] of [calculate_position_size]. *)
Definition vol_adjustment (mult beta : Q) : Q := 1 + (beta - 1) * mult.

(** The same table on floats, as [Float64.calculate_position_size] reads
    it. *)
Definition float_position_tiers : list (Z * float * float) :=
  [(1%Z, 10.0%float, 0.75%float); (2%Z, 7.0%float, 1.0%float);
   (3%Z, 5.0%float, 1.3%float); (4%Z, 3.0%float, 1.5%float)].

(** The name of the fifth component in the result of a tier. *)
Definition fifth_component (tier : Z) : string :=
  if (tier =? 1)%Z then "Financial_Health"
  else if (tier =? 2)%Z then "Scale_Moat"
  else if (tier =? 3)%Z then "Scale_Inflection"
  else "Disruption".

(** Scores that never increase down a bracket table. *)
Fixpoint scores_descending (brackets : list (Q * Q)) : Prop :=
  match brackets with
  | [] => True
  | (_, score) :: rest =>
      Forall (fun p => snd p <= score) rest /\ scores_descending rest
  end.

(** * Properties *)

(** ** Comparisons and rounding *)

Lemma Qgeb_true x y : (x >=? y) = true <-> y <= x.
Proof. unfold Qgeb. apply Qle_bool_iff. Qed.

Lemma Qgeb_false x y : (x >=? y) = false <-> x < y.
Proof.
  unfold Qgeb. rewrite <- not_true_iff_false, Qle_bool_iff.
  split; [apply Qnot_le_lt | apply Qlt_not_le].
Qed.

Lemma Qleb_true x y : (x <=? y) = true <-> x <= y.
Proof. apply Qle_bool_iff. Qed.

Lemma Qleb_false x y : (x <=? y) = false <-> y < x.
Proof. apply (Qgeb_false y x). Qed.

Lemma Qgtb_true x y : (x >? y) = true <-> y < x.
Proof. unfold Qgtb. rewrite negb_true_iff. apply (Qgeb_false y x). Qed.

Lemma Qgtb_false x y : (x >? y) = false <-> x <= y.
Proof. unfold Qgtb. rewrite negb_false_iff. apply Qle_bool_iff. Qed.

Lemma Qltb_true x y : (x <? y) = true <-> x < y.
Proof. apply (Qgtb_true y x). Qed.

Lemma Qltb_false x y : (x <? y) = false <-> y <= x.
Proof. apply (Qgtb_false y x). Qed.

Lemma Qeqb_true x y : (x =? y) = true <-> x == y.
Proof. apply Qeq_bool_iff. Qed.

Lemma Qeqb_false x y : (x =? y) = false <-> ~ x == y.
Proof. rewrite <- not_true_iff_false, Qeq_bool_iff. reflexivity. Qed.

(** Turns every boolean comparison among the hypotheses into the
    inequality it decides. *)
Ltac reflect_cmp :=
  repeat match goal with
  | H : (_ >=? _) = true |- _ => apply Qgeb_true in H
  | H : (_ >=? _) = false |- _ => apply Qgeb_false in H
  | H : (_ <=? _) = true |- _ => apply Qleb_true in H
  | H : (_ <=? _) = false |- _ => apply Qleb_false in H
  | H : (_ >? _) = true |- _ => apply Qgtb_true in H
  | H : (_ >? _) = false |- _ => apply Qgtb_false in H
  | H : (_ <? _) = true |- _ => apply Qltb_true in H
  | H : (_ <? _) = false |- _ => apply Qltb_false in H
  | H : (_ =? _) = true |- _ => apply Qeqb_true in H
  | H : (_ =? _) = false |- _ => apply Qeqb_false in H
  | H : (_ && _) = true |- _ => apply andb_true_iff in H; destruct H
  end.

(** Case analysis on the first conditional of the goal, remembering the
    outcome of its test. *)
Ltac split_if :=
  match goal with
  | |- context [if ?c then _ else _] => destruct c eqn:?
  end.

(** Case analysis on a conditional whose test holds no conditional. *)
Ltac split_inner_if :=
  match goal with
  | |- context [if ?c then _ else _] =>
      lazymatch c with
      | context [if _ then _ else _] => fail
      | _ => destruct c eqn:?
      end
  end.

#[global] Instance round_half_even_proper : Proper (Qeq ==> eq) round_half_even.
Proof.
  intros x y Hxy. unfold round_half_even.
  rewrite (Qfloor_comp _ _ Hxy).
  assert (Hr : x - inject_Z (Qfloor y) == y - inject_Z (Qfloor y)) by (rewrite Hxy; reflexivity).
  unfold Qltb, Qgtb. rewrite !(Qleb_comp _ _ Hr _ _ (Qeq_refl _)).
  rewrite !(Qleb_comp _ _ (Qeq_refl _) _ _ Hr). reflexivity.
Qed.

#[global] Instance round2_proper : Proper (Qeq ==> eq) round2.
Proof.
  intros x y Hxy. unfold round2.
  assert (H : x * 100 == y * 100) by (rewrite Hxy; reflexivity).
  rewrite (round_half_even_proper _ _ H). reflexivity.
Qed.

(** The result of [round(x)] is the floor of [x] or its successor, and it is
    the successor only when [x] is at least half way up. *)
Lemma round_half_even_cases x :
  (round_half_even x = Qfloor x /\ x - inject_Z (Qfloor x) <= 1 # 2) \/
  (round_half_even x = (Qfloor x + 1)%Z /\ 1 # 2 <= x - inject_Z (Qfloor x)).
Proof.
  unfold round_half_even.
  destruct (_ <? _) eqn:H1; reflect_cmp; [left; split; [reflexivity | lra] |].
  destruct (_ >? _) eqn:H2; reflect_cmp; [right; split; [reflexivity | lra] |].
  destruct (Z.even _); [left | right]; split; auto.
Qed.

Lemma inject_Z_succ z : inject_Z (z + 1) == inject_Z z + 1.
Proof. rewrite inject_Z_plus. reflexivity. Qed.

(** [round(x)] is within one half of [x]. *)
Lemma round_half_even_nearest x :
  x - (1 # 2) <= inject_Z (round_half_even x) <= x + (1 # 2).
Proof.
  pose proof (Qfloor_le x) as Hlo. pose proof (Qlt_floor x) as Hhi.
  rewrite inject_Z_succ in Hhi.
  destruct (round_half_even_cases x) as [[-> H] | [-> H]].
  - lra.
  - rewrite inject_Z_succ. lra.
Qed.

(** Rounding never leaves an interval with integer ends. *)
Lemma round_half_even_bounds x (a b : Z) :
  inject_Z a <= x -> x <= inject_Z b -> (a <= round_half_even x <= b)%Z.
Proof.
  intros Ha Hb.
  assert (Hfa : (a <= Qfloor x)%Z).
  { rewrite <- (Qfloor_Z a). apply Qfloor_resp_le, Ha. }
  assert (Hfb : (Qfloor x <= b)%Z).
  { rewrite <- (Qfloor_Z b). apply Qfloor_resp_le, Hb. }
  destruct (round_half_even_cases x) as [[-> H] | [-> H]]; [lia |].
  split; [lia |].
  assert (Hlt : inject_Z (Qfloor x) < inject_Z b) by lra.
  rewrite <- Zlt_Qlt in Hlt. lia.
Qed.

Lemma round2_range x : in_range x -> in_range (round2 x).
Proof.
  unfold in_range, round2. intros [Hlo Hhi].
  destruct (round_half_even_bounds (x * 100) 0 10000) as [H0 H1].
  - change (inject_Z 0) with 0. lra.
  - change (inject_Z 10000) with 10000. lra.
  - rewrite Zle_Qle in H0, H1.
    change (inject_Z 0) with 0 in H0. change (inject_Z 10000) with 10000 in H1.
    split.
    + apply Qle_shift_div_l; lra.
    + apply Qle_shift_div_r; lra.
Qed.

(** ** Clamps, brackets and maxima *)

Lemma cap_score_le score maximum : cap_score score maximum <= maximum.
Proof. unfold cap_score. split_if; reflect_cmp; lra. Qed.

Lemma cap_score_ge score maximum lo :
  lo <= score -> lo <= maximum -> lo <= cap_score score maximum.
Proof. unfold cap_score. intros. split_if; lra. Qed.

Lemma floor_score_ge score minimum : minimum <= floor_score score minimum.
Proof. unfold floor_score. split_if; reflect_cmp; lra. Qed.

Lemma floor_score_le score minimum hi :
  score <= hi -> minimum <= hi -> floor_score score minimum <= hi.
Proof. unfold floor_score. intros. split_if; lra. Qed.

Lemma cap_range score : 0 <= score -> in_range (cap_score score 100).
Proof.
  intros H. split; [apply cap_score_ge; lra | apply cap_score_le].
Qed.

Lemma floor_range score : score <= 100 -> in_range (floor_score score 0).
Proof.
  intros H. split; [apply floor_score_ge | apply floor_score_le; lra].
Qed.

Lemma cap_floor_range score : in_range (cap_score (floor_score score 0) 100).
Proof. apply cap_range, floor_score_ge. Qed.

(** [bracket_score] returns one of the scores of its table. *)
Lemma first_bracket_In value brackets score :
  first_bracket value brackets = Some score ->
  exists threshold, In (threshold, score) brackets.
Proof.
  induction brackets as [| [t s] rest IH]; simpl; [discriminate |].
  destruct (value >=? t).
  - intros [= <-]. exists t. now left.
  - intros H. destruct (IH H) as [t' Ht']. exists t'. now right.
Qed.

Lemma bracket_score_In value brackets :
  brackets <> [] ->
  exists threshold, In (threshold, bracket_score value brackets) brackets.
Proof.
  intros Hne. unfold bracket_score.
  destruct (first_bracket value brackets) as [s |] eqn:H.
  - eapply first_bracket_In, H.
  - unfold last_score. exists (fst (List.last brackets (0, 0))).
    rewrite <- surjective_pairing.
    destruct (exists_last Hne) as (l & p & ->).
    rewrite last_last. apply in_or_app. right. now left.
Qed.

Lemma bracket_score_range value brackets :
  brackets <> [] ->
  Forall (fun p => in_range (snd p)) brackets ->
  in_range (bracket_score value brackets).
Proof.
  intros Hne Hall. destruct (bracket_score_In value brackets Hne) as [t Ht].
  rewrite List.Forall_forall in Hall. apply (Hall _ Ht).
Qed.

Lemma first_at_most_range value brackets dflt :
  Forall (fun p => in_range (snd p)) brackets -> in_range dflt ->
  in_range (first_at_most value brackets dflt).
Proof.
  intros Hall Hd. induction Hall as [| [t s] rest Hs _ IH]; simpl; [exact Hd |].
  destruct (value <=? t); [exact Hs | exact IH].
Qed.

Lemma max_or_range scores dflt :
  Forall in_range scores -> in_range dflt -> in_range (max_or scores dflt).
Proof.
  intros Hall Hd. destruct Hall as [| first rest Hf Hrest]; simpl; [exact Hd |].
  revert first Hf. induction Hrest as [| s rest Hs _ IH]; intros first Hf; simpl.
  - exact Hf.
  - apply IH. destruct (s >? first); assumption.
Qed.

(** ** Component scorers as weighted averages *)

Lemma weighted_sum_range subs ws :
  length subs = length ws -> Forall in_range subs ->
  Forall (fun w => 0 <= w) ws ->
  0 <= weighted_sum subs ws <= 100 * total ws.
Proof.
  intros Hlen Hsubs. revert ws Hlen.
  induction Hsubs as [| s subs [Hs0 Hs1] _ IH]; intros [| w ws] Hlen Hws;
    try discriminate; unfold weighted_sum, total; simpl; [lra |].
  inversion Hws as [| ? ? Hw Hws']; subst.
  injection Hlen as Hlen.
  specialize (IH ws Hlen Hws'). unfold weighted_sum, total in IH.
  split; [ nra | nra ].
Qed.

Lemma component_sound_range c :
  Forall (fun w => 0 <= w) (weights c) -> component_sound c ->
  forall data, exists s, scorer c data = Ok s /\ in_range s.
Proof.
  intros Hws [Htot Hc] data. destruct (Hc data) as (subs & _ & Hlen & Hsubs & Heq).
  eexists. split; [exact Heq |]. apply round2_range.
  pose proof (weighted_sum_range subs (weights c) Hlen Hsubs Hws) as H.
  rewrite Htot in H. unfold in_range. lra.
Qed.

(** Ranges of sub-scores: a bracket table, or a chain of tests whose leaves
    are constants or clamped sums. *)
Ltac table_range :=
  simpl removelast;
  apply bracket_score_range;
  [ discriminate | repeat constructor; unfold in_range; simpl; lra ].

Ltac closed_le := first [ solve [vm_compute; discriminate] | lra ].

Ltac leaf_range :=
  lazymatch goal with
  | |- in_range (cap_score (floor_score _ _) _) => apply cap_floor_range
  | |- in_range (cap_score _ _) => apply cap_range; closed_le
  | |- in_range (floor_score _ _) => apply floor_range; closed_le
  | |- in_range (bracket_score _ _) => table_range
  | |- _ => split; closed_le
  end.

Ltac ladder_range :=
  repeat match goal with
         | |- context [if ?c then _ else _] => destruct c
         end;
  leaf_range.

Create HintDb ranges.

Ltac subscore_range :=
  first
    [ solve [auto 1 with ranges nocore]
    | match goal with
      | |- in_range (?f _) => unfold f; cbv zeta; first [ table_range | ladder_range ]
      end ].

Ltac pure_sound :=
  match goal with |- component_sound ?c => unfold c, pure_component end;
  split; cbn [scorer subscores weights];
  [ vm_compute; reflexivity
  | intros data; eexists; split; [ reflexivity | split; [ reflexivity | split ] ];
    [ repeat apply List.Forall_cons; try apply List.Forall_nil; subscore_range
    | f_equal;
      match goal with |- ?f _ = _ => unfold f end; cbv zeta;
      apply round2_proper; unfold weighted_sum; cbn [zip_with fold_right]; ring ] ].

(** *** Tier 1 *)

Lemma tier1_valuation_pe_score_ok data :
  exists s, tier1_valuation_pe_score data = Ok s /\ in_range s.
Proof.
  unfold tier1_valuation_pe_score. cbv zeta.
  destruct (_ >? 0) eqn:Hpos; [| exists 50; split; [reflexivity | unfold in_range; lra]].
  unfold py_div. reflect_cmp.
  destruct (_ =? 0) eqn:Hz; reflect_cmp; [lra |].
  eexists. split; [reflexivity | apply cap_floor_range].
Qed.

Lemma tier1_valuation_peg_score_range data : in_range (tier1_valuation_peg_score data).
Proof.
  unfold tier1_valuation_peg_score. cbv zeta.
  destruct (_ <? _); [unfold in_range; lra |].
  apply first_at_most_range; [| unfold in_range; lra].
  repeat constructor; unfold in_range; simpl; lra.
Qed.

#[global] Hint Resolve tier1_valuation_peg_score_range : ranges.

Lemma tier1_valuation_sound : component_sound tier1_valuation_component.
Proof.
  split; [vm_compute; reflexivity |]. intros data.
  destruct (tier1_valuation_pe_score_ok data) as (pe & Hpe & Hrange).
  exists [pe; tier1_valuation_fcf_score data; tier1_valuation_peg_score data].
  cbn [scorer subscores weights tier1_valuation_component].
  unfold tier1_valuation. rewrite Hpe. cbn [mbind mret result_bind result_ret].
  split; [reflexivity | split; [reflexivity | split]].
  - repeat apply List.Forall_cons; try apply List.Forall_nil;
      [ exact Hrange | subscore_range | apply tier1_valuation_peg_score_range ].
  - f_equal. apply round2_proper. unfold weighted_sum. cbn [zip_with fold_right]. ring.
Qed.

Lemma tier1_quality_sound : component_sound tier1_quality_component.
Proof. pure_sound. Qed.

Lemma tier1_growth_sound : component_sound tier1_growth_component.
Proof. pure_sound. Qed.

Lemma tier1_momentum_sound : component_sound tier1_momentum_component.
Proof. pure_sound. Qed.

Lemma tier1_financial_health_sound : component_sound tier1_financial_health_component.
Proof. pure_sound. Qed.

(** *** Tier 2 *)

Lemma tier2_quality_retention_score_range data :
  in_range (tier2_quality_retention_score data).
Proof.
  unfold tier2_quality_retention_score. cbv zeta.
  destruct (get_bool data "is_saas" false); [ladder_range |].
  apply max_or_range; [| split; closed_le].
  cbn [app]. repeat apply List.Forall_cons; try apply List.Forall_nil; subscore_range.
Qed.
#[global] Hint Resolve tier2_quality_retention_score_range : ranges.

Lemma tier2_valuation_sound : component_sound tier2_valuation_component.
Proof. pure_sound. Qed.

Lemma tier2_quality_sound : component_sound tier2_quality_component.
Proof. pure_sound. Qed.

Lemma tier2_growth_sound : component_sound tier2_growth_component.
Proof. pure_sound. Qed.

Lemma tier2_momentum_sound : component_sound tier2_momentum_component.
Proof. pure_sound. Qed.

Lemma tier2_scale_moat_sound : component_sound tier2_scale_moat_component.
Proof. pure_sound. Qed.

(** *** Tier 3 *)

Lemma tier3_quality_customer_score_range data :
  in_range (tier3_quality_customer_score data).
Proof.
  unfold tier3_quality_customer_score. cbv zeta.
  destruct (get_bool data "is_saas" false); [ladder_range |].
  apply max_or_range; [| split; closed_le].
  cbn [app]. repeat apply List.Forall_cons; try apply List.Forall_nil; ladder_range.
Qed.
#[global] Hint Resolve tier3_quality_customer_score_range : ranges.

(** Four or more accelerating quarters start from 100 and only add to it, so
    the cap brings the sub-score back to exactly 100. *)
Lemma tier3_growth_accel_score_range data : in_range (tier3_growth_accel_score data).
Proof.
  unfold tier3_growth_accel_score. cbv zeta. apply cap_range.
  repeat split_if; reflect_cmp; lra.
Qed.
#[global] Hint Resolve tier3_growth_accel_score_range : ranges.

Lemma tier3_valuation_sound : component_sound tier3_valuation_component.
Proof. pure_sound. Qed.

Lemma tier3_quality_sound : component_sound tier3_quality_component.
Proof. pure_sound. Qed.

Lemma tier3_growth_sound : component_sound tier3_growth_component.
Proof. pure_sound. Qed.

Lemma tier3_momentum_sound : component_sound tier3_momentum_component.
Proof. pure_sound. Qed.

Lemma tier3_scale_inflection_sound : component_sound tier3_scale_inflection_component.
Proof. pure_sound. Qed.

(** *** Tier 4 *)

(** The guard [sector_median_ps > 0] keeps the division of the relative
    valuation from raising. *)
Lemma tier4_valuation_rel_val_score_ok data :
  exists s, tier4_valuation_rel_val_score data = Ok s /\ in_range s.
Proof.
  unfold tier4_valuation_rel_val_score. cbv zeta.
  destruct (_ >? 0) eqn:Hpos.
  - unfold py_div. reflect_cmp.
    destruct (_ =? 0) eqn:Hz; reflect_cmp; [lra |].
    eexists. split; [reflexivity |]. ladder_range.
  - eexists. split; [reflexivity |]. ladder_range.
Qed.

Lemma tier4_growth_consist_score_range data : in_range (tier4_growth_consist_score data).
Proof.
  unfold tier4_growth_consist_score. cbv zeta. apply cap_range.
  repeat split_if; reflect_cmp; lra.
Qed.
#[global] Hint Resolve tier4_growth_consist_score_range : ranges.

Lemma tier4_valuation_sound : component_sound tier4_valuation_component.
Proof.
  split; [vm_compute; reflexivity |]. intros data.
  destruct (tier4_valuation_rel_val_score_ok data) as (rel & Hrel & Hrange).
  exists [tier4_valuation_ps_score data; rel; tier4_valuation_insider_score data].
  cbn [scorer subscores weights tier4_valuation_component].
  unfold tier4_valuation. rewrite Hrel. cbn [mbind mret result_bind result_ret].
  split; [reflexivity | split; [reflexivity | split]].
  - repeat apply List.Forall_cons; try apply List.Forall_nil;
      [ subscore_range | exact Hrange | subscore_range ].
  - f_equal. apply round2_proper. unfold weighted_sum. cbn [zip_with fold_right]. ring.
Qed.

Lemma tier4_quality_sound : component_sound tier4_quality_component.
Proof. pure_sound. Qed.

Lemma tier4_growth_sound : component_sound tier4_growth_component.
Proof. pure_sound. Qed.

Lemma tier4_momentum_sound : component_sound tier4_momentum_component.
Proof. pure_sound. Qed.

Lemma tier4_disruption_sound : component_sound tier4_disruption_component.
Proof. pure_sound. Qed.

(** *** The twenty component scorers, by tier *)

Lemma component_scorers_sound : Forall component_sound component_scorers.
Proof.
  unfold component_scorers. cbn [tier_components Z.eqb Pos.eqb app].
  repeat apply List.Forall_cons; try apply List.Forall_nil.
  - apply tier1_valuation_sound.
  - apply tier1_quality_sound.
  - apply tier1_growth_sound.
  - apply tier1_momentum_sound.
  - apply tier1_financial_health_sound.
  - apply tier2_valuation_sound.
  - apply tier2_quality_sound.
  - apply tier2_growth_sound.
  - apply tier2_momentum_sound.
  - apply tier2_scale_moat_sound.
  - apply tier3_valuation_sound.
  - apply tier3_quality_sound.
  - apply tier3_growth_sound.
  - apply tier3_momentum_sound.
  - apply tier3_scale_inflection_sound.
  - apply tier4_valuation_sound.
  - apply tier4_quality_sound.
  - apply tier4_growth_sound.
  - apply tier4_momentum_sound.
  - apply tier4_disruption_sound.
Qed.

Lemma component_scorers_weights_nonneg :
  Forall (fun c => Forall (fun w => 0 <= w) (weights c)) component_scorers.
Proof.
  unfold component_scorers. cbn [tier_components Z.eqb Pos.eqb app].
  repeat apply List.Forall_cons; try apply List.Forall_nil;
    cbn [weights pure_component tier1_valuation_component tier4_valuation_component];
    unfold tier1_quality_component, tier1_growth_component, tier1_momentum_component,
      tier1_financial_health_component, tier2_valuation_component, tier2_quality_component,
      tier2_growth_component, tier2_momentum_component, tier2_scale_moat_component,
      tier3_valuation_component, tier3_quality_component, tier3_growth_component,
      tier3_momentum_component, tier3_scale_inflection_component, tier4_quality_component,
      tier4_growth_component, tier4_momentum_component, tier4_disruption_component;
    cbn [weights pure_component];
    repeat apply List.Forall_cons; try apply List.Forall_nil; closed_le.
Qed.

(** ** Composites *)

Lemma scorer_range c data :
  In c component_scorers -> exists s, scorer c data = Ok s /\ in_range s.
Proof.
  intros Hin. apply component_sound_range.
  - pose proof component_scorers_weights_nonneg as H.
    rewrite List.Forall_forall in H. apply H, Hin.
  - pose proof component_scorers_sound as H.
    rewrite List.Forall_forall in H. apply H, Hin.
Qed.

Lemma pure_scorer_range f subs ws data :
  In (pure_component f subs ws) component_scorers -> in_range (f data).
Proof.
  intros Hin. destruct (scorer_range _ data Hin) as (s & Hs & Hr).
  cbn in Hs. injection Hs as <-. exact Hr.
Qed.

(** Discharges membership of a named component in [component_scorers]. *)
Ltac in_scorers :=
  unfold component_scorers; cbn [tier_components Z.eqb Pos.eqb app];
  repeat (first [ left; reflexivity | right ]).

Ltac composite_tail :=
  repeat split;
  [ repeat apply List.Forall2_cons; try apply List.Forall2_nil; auto
  | repeat apply List.Forall_cons; try apply List.Forall_nil; auto
  | eexists; split;
    [ vm_compute; reflexivity
    | apply round2_proper; unfold weighted_sum; cbn [map snd zip_with fold_right]; ring ]
  | apply round2_range; unfold in_range in *; lra
  | apply round2_range; unfold in_range in *; lra ].

Lemma calculate_tier1_composite_ok data :
  exists composite components,
    calculate_tier1_composite data = Ok (composite, components) /\
    composite_ok 1 data composite components.
Proof.
  destruct (scorer_range tier1_valuation_component data ltac:(in_scorers)) as (v & Hv & Hvr).
  pose proof (pure_scorer_range tier1_quality _ _ data ltac:(in_scorers)) as Hq.
  pose proof (pure_scorer_range tier1_growth _ _ data ltac:(in_scorers)) as Hg.
  pose proof (pure_scorer_range tier1_momentum _ _ data ltac:(in_scorers)) as Hm.
  pose proof (pure_scorer_range tier1_financial_health _ _ data ltac:(in_scorers)) as Hf.
  cbn [scorer tier1_valuation_component] in Hv.
  unfold calculate_tier1_composite. rewrite Hv.
  cbn [mbind mret result_bind result_ret]. cbv zeta.
  do 2 eexists. split; [reflexivity |].
  unfold composite_ok. cbn [tier_components Z.eqb Pos.eqb].
  composite_tail.
Qed.

Lemma calculate_tier2_composite_ok data :
  composite_ok 2 data (fst (calculate_tier2_composite data))
                      (snd (calculate_tier2_composite data)).
Proof.
  pose proof (pure_scorer_range tier2_valuation _ _ data ltac:(in_scorers)) as Hv.
  pose proof (pure_scorer_range tier2_quality _ _ data ltac:(in_scorers)) as Hq.
  pose proof (pure_scorer_range tier2_growth _ _ data ltac:(in_scorers)) as Hg.
  pose proof (pure_scorer_range tier2_momentum _ _ data ltac:(in_scorers)) as Hm.
  pose proof (pure_scorer_range tier2_scale_moat _ _ data ltac:(in_scorers)) as Hs.
  unfold calculate_tier2_composite. cbv zeta. cbn [fst snd].
  unfold composite_ok. cbn [tier_components Z.eqb Pos.eqb].
  composite_tail.
Qed.

Lemma calculate_tier3_composite_ok data :
  composite_ok 3 data (fst (calculate_tier3_composite data))
                      (snd (calculate_tier3_composite data)).
Proof.
  pose proof (pure_scorer_range tier3_valuation _ _ data ltac:(in_scorers)) as Hv.
  pose proof (pure_scorer_range tier3_quality _ _ data ltac:(in_scorers)) as Hq.
  pose proof (pure_scorer_range tier3_growth _ _ data ltac:(in_scorers)) as Hg.
  pose proof (pure_scorer_range tier3_momentum _ _ data ltac:(in_scorers)) as Hm.
  pose proof (pure_scorer_range tier3_scale_inflection _ _ data ltac:(in_scorers)) as Hs.
  unfold calculate_tier3_composite. cbv zeta. cbn [fst snd].
  unfold composite_ok. cbn [tier_components Z.eqb Pos.eqb].
  composite_tail.
Qed.

Lemma calculate_tier4_composite_ok data :
  exists composite components,
    calculate_tier4_composite data = Ok (composite, components) /\
    composite_ok 4 data composite components.
Proof.
  destruct (scorer_range tier4_valuation_component data ltac:(in_scorers)) as (v & Hv & Hvr).
  pose proof (pure_scorer_range tier4_quality _ _ data ltac:(in_scorers)) as Hq.
  pose proof (pure_scorer_range tier4_growth _ _ data ltac:(in_scorers)) as Hg.
  pose proof (pure_scorer_range tier4_momentum _ _ data ltac:(in_scorers)) as Hm.
  pose proof (pure_scorer_range tier4_disruption _ _ data ltac:(in_scorers)) as Hd.
  cbn [scorer tier4_valuation_component] in Hv.
  unfold calculate_tier4_composite. rewrite Hv.
  cbn [mbind mret result_bind result_ret]. cbv zeta.
  do 2 eexists. split; [reflexivity |].
  unfold composite_ok. cbn [tier_components Z.eqb Pos.eqb].
  composite_tail.
Qed.

(** ** The main entry point *)

Lemma determine_tier_cases cap :
  determine_tier cap = 1%Z \/ determine_tier cap = 2%Z \/
  determine_tier cap = 3%Z \/ determine_tier cap = 4%Z.
Proof. unfold determine_tier. repeat split_if; auto. Qed.

Lemma tier_composite_ok tier data :
  tier = 1%Z \/ tier = 2%Z \/ tier = 3%Z \/ tier = 4%Z ->
  exists composite components,
    tier_composite tier data = Ok (composite, components) /\
    composite_ok tier data composite components.
Proof.
  intros [-> | [-> | [-> | ->]]]; unfold tier_composite; cbn [Z.eqb Pos.eqb].
  - apply calculate_tier1_composite_ok.
  - exists (fst (calculate_tier2_composite data)), (snd (calculate_tier2_composite data)).
    split; [now rewrite <- surjective_pairing | apply calculate_tier2_composite_ok].
  - exists (fst (calculate_tier3_composite data)), (snd (calculate_tier3_composite data)).
    split; [now rewrite <- surjective_pairing | apply calculate_tier3_composite_ok].
  - apply calculate_tier4_composite_ok.
Qed.

Lemma calculate_position_size_eval tier base mult score beta :
  base_allocations !! tier = Some base ->
  vol_multipliers !! tier = Some mult ->
  calculate_position_size tier score beta =
    if 1 + (beta - 1) * mult =? 0 then Raise ZeroDivisionError
    else Ok (inject_Z (round_half_even (exact_position base mult score beta * 2)) / 2).
Proof.
  intros Hb Hm. unfold calculate_position_size, subscript. rewrite Hb, Hm.
  cbn [mbind mret result_bind result_ret]. unfold py_div.
  destruct (_ =? 0); cbn [mbind mret result_bind result_ret]; [reflexivity |].
  do 3 f_equal. apply round_half_even_proper. unfold exact_position.
  assert (H : score / 100.0 == score / 100).
  { unfold Qdiv. apply Qmult_comp; [reflexivity | vm_compute; reflexivity]. }
  rewrite H. reflexivity.
Qed.

Lemma tier_tables tier :
  tier = 1%Z \/ tier = 2%Z \/ tier = 3%Z \/ tier = 4%Z ->
  exists base mult tier_def,
    base_allocations !! tier = Some base /\
    vol_multipliers !! tier = Some mult /\
    TIER_DEFINITIONS !! tier = Some tier_def.
Proof.
  intros [-> | [-> | [-> | ->]]]; do 3 eexists; repeat split; vm_compute; reflexivity.
Qed.

(** [calculate_score] computes the tier's composite, then the position size,
    which is the only step that can still raise. *)
Lemma calculate_score_outcome ticker data :
  let tier := determine_tier (get_num data "market_cap_billions" 0) in
  exists composite components base mult tier_def,
    tier_composite tier data = Ok (composite, components) /\
    composite_ok tier data composite components /\
    base_allocations !! tier = Some base /\
    vol_multipliers !! tier = Some mult /\
    TIER_DEFINITIONS !! tier = Some tier_def /\
    calculate_score ticker data =
      (position_size ← calculate_position_size tier composite (get_num data "beta" 1.0);
       mret {| ticker := ticker;
               tier := tier;
               tier_name := name tier_def;
               market_cap_billions := get_num data "market_cap_billions" 0;
               composite_score := composite;
               rating := rating_of composite;
               stars := EmptyString;
               position_size_pct := position_size;
               min_score_for_tier := min_score tier_def;
               score_buffer := round2 (composite - min_score tier_def);
               components := components;
               beta := get_num data "beta" 1.0 |}).
Proof.
  intros tier.
  pose proof (determine_tier_cases (get_num data "market_cap_billions" 0)) as Ht.
  fold tier in Ht.
  destruct (tier_composite_ok tier data Ht) as (c & comps & Hc & Hok).
  destruct (tier_tables tier Ht) as (base & mult & tdef & Hb & Hm & Hd).
  exists c, comps, base, mult, tdef.
  split; [exact Hc |]. split; [exact Hok |]. split; [exact Hb |].
  split; [exact Hm |]. split; [exact Hd |].
  unfold calculate_score. cbv zeta. fold tier.
  change (if (tier =? 1)%Z then calculate_tier1_composite data
          else if (tier =? 2)%Z then mret (calculate_tier2_composite data)
          else if (tier =? 3)%Z then mret (calculate_tier3_composite data)
          else calculate_tier4_composite data) with (tier_composite tier data).
  rewrite Hc. cbn [mbind mret result_bind result_ret].
  unfold subscript. rewrite Hd. unfold rating_of.
  destruct (calculate_position_size tier c (get_num data "beta" 1.0));
    repeat split_if; reflexivity.
Qed.

(** ** Tier classification *)

(** C4: [determine_tier] is defined on every market cap by half-open
    intervals whose lower bound is inclusive: tier 1 from 200 up, tier 2 on
    [50, 200), tier 3 on [10, 50), tier 4 below 10; in particular
    [determine_tier 200.0 = 1], [determine_tier 199.99 = 2],
    [determine_tier 50.0 = 2] and [determine_tier 9.999 = 4]. *)
Theorem determine_tier_intervals :
  (forall cap : Q,
     (200 <= cap -> determine_tier cap = 1%Z) /\
     (50 <= cap -> cap < 200 -> determine_tier cap = 2%Z) /\
     (10 <= cap -> cap < 50 -> determine_tier cap = 3%Z) /\
     (cap < 10 -> determine_tier cap = 4%Z)) /\
  determine_tier 200.0 = 1%Z /\
  determine_tier 199.99 = 2%Z /\
  determine_tier 50.0 = 2%Z /\
  determine_tier 9.999 = 4%Z.
Proof.
  split; [| repeat split; reflexivity].
  intros cap. unfold determine_tier.
  repeat split; intros; repeat split_if; reflect_cmp; first [reflexivity | lra].
Qed.

Lemma determine_tier_intervals_witness :
  50 <= 120 /\ 120 < 200 /\ determine_tier 120 = 2%Z.
Proof.
  assert (H1 : 50 <= 120) by (vm_compute; discriminate).
  assert (H2 : 120 < 200) by reflexivity.
  split; [exact H1 | split; [exact H2 |]].
  exact (proj1 (proj2 (proj1 determine_tier_intervals 120)) H1 H2).
Defined.

(** ** The Tier-1 end-to-end scenario *)

(** C1: on the Tier-1 scenario record [calculate_score] returns tier 1, the
    component scores Valuation 88.75, Quality 94.30, Growth 76.75, Momentum
    100.00 and Financial_Health 99.50, a composite within 0.01 of 89.89 and
    the rating "Strong Buy"; [calculate_tier1_composite] returns that
    composite and those components. *)
Theorem tier1_end_to_end_scenario (ticker : string) :
  exists r,
    calculate_score ticker googl_data = Ok r /\
    tier r = 1%Z /\
    same_components (components r)
      [("Valuation", 88.75); ("Quality", 94.30); ("Growth", 76.75);
       ("Momentum", 100.00); ("Financial_Health", 99.50)] /\
    Qabs (composite_score r - 89.89) <= 0.01 /\
    rating r = "Strong Buy" /\
    calculate_tier1_composite googl_data = Ok (composite_score r, components r).
Proof.
  eexists. split; [vm_compute; reflexivity |].
  cbn [tier components composite_score rating].
  split; [reflexivity |]. split.
  - unfold same_components.
    repeat apply List.Forall2_cons; try apply List.Forall2_nil;
      (split; [reflexivity | vm_compute; reflexivity]).
  - split; [vm_compute; discriminate |].
    split; [reflexivity | vm_compute; reflexivity].
Qed.

(** ** Position sizing *)

Lemma float_position_tiers_tables tier base mult :
  In (tier, base, mult) float_position_tiers ->
  Float64.base_allocations !! tier = Some base /\
  Float64.vol_multipliers !! tier = Some mult.
Proof.
  intros Hin. cbn [In float_position_tiers] in Hin.
  destruct Hin as [H | [H | [H | [H | []]]]]; injection H as <- <- <-;
    split; vm_compute; reflexivity.
Qed.

(** C3, the claim as stated fails: at tier 2, score 64.99999999999999 and
    beta 0.2 the function returns 23.0.  The exact quotient (7 * score/100)
    / (1 + (beta - 1) * 1.0) is below 22.75, whether it is taken at the
    decimal values of the arguments or at the values of their floats, so
    its nearest half point is 22.5; the computed quotient is 22.75, which
    rounds to the even number of halves, 23.  Likewise at tier 1, score 65
    and beta 0.2 the function returns 16.5: the computed quotient is
    16.250000000000004, while the exact quotient at the values of these
    floats is below 16.25 and its nearest half point is 16. *)
Lemma position_size_off_the_exact_quotient :
  Float64.calculate_position_size 2 64.99999999999999 0.2 = Ok 23%float /\
  Qabs (22.5 - exact_position 7 1 64.99999999999999 0.2) < 1 # 4 /\
  1 # 4 < Qabs (23 - exact_position 7 1 64.99999999999999 0.2) /\
  (exists score beta,
     Float64.float_value 64.99999999999999 = Some score /\
     Float64.float_value 0.2 = Some beta /\
     Qabs (22.5 - exact_position 7 1 score beta) < 1 # 4 /\
     1 # 4 < Qabs (23 - exact_position 7 1 score beta)) /\
  Float64.calculate_position_size 1 65 0.2 = Ok 16.5%float /\
  (exists score beta,
     Float64.float_value 65 = Some score /\
     Float64.float_value 0.2 = Some beta /\
     Qabs (16 - exact_position 10 0.75 score beta) < 1 # 4 /\
     1 # 4 < Qabs (16.5 - exact_position 10 0.75 score beta)).
Proof.
  split; [vm_compute; reflexivity |].
  split; [vm_compute; reflexivity |].
  split; [vm_compute; reflexivity |].
  split.
  { eexists _, _. split; [vm_compute; reflexivity |]. split; [vm_compute; reflexivity |].
    split; vm_compute; reflexivity. }
  split; [vm_compute; reflexivity |].
  eexists _, _. split; [vm_compute; reflexivity |]. split; [vm_compute; reflexivity |].
  split; vm_compute; reflexivity.
Qed.

(** C3 as amended: for tiers 1 to 4, with base allocations 10, 7, 5, 3 and
    volatility multipliers 0.75, 1.0, 1.3, 1.5, [calculate_position_size]
    evaluates (base * (score/100)) / (1 + (beta - 1) * mult) in binary64
    arithmetic and, where the computed adjustment is not zero, returns the
    computed quotient rounded to the nearest half point, ties to the even
    number of halves: the result is k/2 for the integer k nearest twice the
    computed quotient.  No maximum is applied to it (tier 1 at score 100
    and beta 0.5 gets 16).  In particular [calculate_position_size 1 89.89
    1.1] is 8.5. *)
Theorem calculate_position_size_formula :
  (forall tier base mult score beta value,
     In (tier, base, mult) float_position_tiers ->
     let vol_adjustment := (1 + (beta - 1) * mult)%float in
     let position := (base * (score / 100.0) / vol_adjustment)%float in
     (vol_adjustment =? 0)%float = false ->
     Float64.float_value (position * 2)%float = Some value ->
     exists k : Z,
       Float64.calculate_position_size tier score beta = Ok (Float64.int_half k) /\
       k = round_half_even value /\
       Qabs (inject_Z k - value) <= 1 # 2) /\
  Float64.calculate_position_size 1 89.89 1.1 = Ok 8.5%float /\
  Float64.calculate_position_size 1 100 0.5 = Ok 16%float.
Proof.
  split; [| split; vm_compute; reflexivity].
  intros tier base mult score beta value Hin vol_adjustment position Hden Hvalue.
  destruct (float_position_tiers_tables tier base mult Hin) as [Hb Hm].
  unfold Float64.calculate_position_size, subscript. rewrite Hb, Hm.
  cbn [mbind mret result_bind result_ret]. unfold Float64.py_div.
  fold vol_adjustment. rewrite Hden. cbn [mbind mret result_bind result_ret].
  fold position. unfold Float64.round. rewrite Hvalue.
  cbn [mbind mret result_bind result_ret].
  eexists. split; [reflexivity |]. split; [reflexivity |].
  pose proof (round_half_even_nearest value) as [Hlo Hhi].
  apply Qabs_Qle_condition. split; lra.
Qed.

Lemma calculate_position_size_formula_witness :
  exists k : Z,
    Float64.calculate_position_size 2 75 2 = Ok (Float64.int_half k) /\
    k = round_half_even (5910974510923776 # 1125899906842624) /\
    Qabs (inject_Z k - (5910974510923776 # 1125899906842624)) <= 1 # 2.
Proof.
  apply (proj1 calculate_position_size_formula 2%Z 7.0%float 1.0%float 75%float 2%float).
  - right. left. reflexivity.
  - vm_compute. reflexivity.
  - vm_compute. reflexivity.
Defined.

(** C7, evaluated on the code: at tier 2 and beta 0 the volatility
    adjustment 1 + (0 - 1) * 1.0 is zero and [calculate_position_size]
    raises [ZeroDivisionError]; so does [calculate_score] on a record with
    that tier and beta. *)
Theorem calculate_position_size_raises :
  calculate_position_size 2 80 0 = Raise ZeroDivisionError /\
  forall ticker,
    calculate_score ticker
      {| numbers := list_to_map [("market_cap_billions", 100); ("beta", 0)];
         booleans := ∅; texts := ∅; flag_sets := ∅ |}
    = Raise ZeroDivisionError.
Proof. split; [| intros ticker]; vm_compute; reflexivity. Qed.

(** ** Ranges *)

Lemma tier_components_length tier : length (tier_components tier) = 5%nat.
Proof. unfold tier_components. repeat split_if; reflexivity. Qed.

Lemma component_scorers_ranges data :
  Forall (fun c => exists subs s,
            subscores c data = Ok subs /\ Forall in_range subs /\
            scorer c data = Ok s /\ in_range s) component_scorers.
Proof.
  rewrite List.Forall_forall. intros c Hin.
  pose proof component_scorers_sound as Hsound.
  rewrite List.Forall_forall in Hsound.
  destruct (Hsound c Hin) as [_ Hc].
  destruct (Hc data) as (subs & Hsubs & _ & Hr & _).
  destruct (scorer_range c data Hin) as (s & Hs & Hsr).
  exists subs, s. auto.
Qed.

(** C2: on every record, each sub-score that enters a weighted average of
    any of the twenty component scorers lies in [0, 100], hence so does each
    component score; the five components and the composite of the assigned
    tier lie in [0, 100], and they are what [calculate_score] returns
    whenever the position size does not raise.  The Tier-3 growth
    acceleration and the Tier-4 revenue quality are two of those
    sub-scores. *)
Theorem scores_in_range (ticker : string) (data : ScoreInput) :
  let tier := determine_tier (get_num data "market_cap_billions" 0) in
  Forall (fun c => exists subs s,
            subscores c data = Ok subs /\ Forall in_range subs /\
            scorer c data = Ok s /\ in_range s) component_scorers /\
  in_range (tier3_growth_accel_score data) /\
  in_range (tier4_quality_rev_quality_score data) /\
  exists composite comps,
    tier_composite tier data = Ok (composite, comps) /\
    Forall2 (fun c p => scorer c data = Ok (snd p)) (tier_components tier) comps /\
    length comps = 5%nat /\
    Forall (fun p => in_range (snd p)) comps /\
    in_range composite /\
    (calculate_score ticker data = Raise ZeroDivisionError \/
     exists r, calculate_score ticker data = Ok r /\
               composite_score r = composite /\ components r = comps).
Proof.
  intros tier.
  split; [apply component_scorers_ranges |].
  split; [apply tier3_growth_accel_score_range |].
  split; [subscore_range |].
  destruct (calculate_score_outcome ticker data)
    as (c & comps & base & mult & tdef & Hc & Hok & Hb & Hm & Hd & Hscore).
  fold tier in Hc, Hok, Hb, Hm, Hd, Hscore.
  destruct Hok as (Hcomps & Hranges & _ & Hrange).
  exists c, comps. split; [exact Hc |]. split; [exact Hcomps |].
  split; [rewrite <- (Forall2_length _ _ _ Hcomps); apply tier_components_length |].
  split; [exact Hranges |]. split; [exact Hrange |].
  rewrite Hscore, (calculate_position_size_eval _ _ _ _ _ Hb Hm).
  destruct (_ =? 0); cbn [mbind mret result_bind result_ret].
  - left. reflexivity.
  - right. eexists. split; [reflexivity |]. split; reflexivity.
Qed.

(** ** Weights *)

(** C8: the sub-weights of each of the twenty component scorers add up to
    one, and the scorer returns the rounded sum of its sub-scores under
    exactly those weights (Tier-2 Growth: 0.25, 0.15, 0.20, 0.10, 0.15,
    0.10, 0.05); for every tier the five weights of its row of
    [TIER_WEIGHTS] add up to one, within 1e-9, and the tier's composite is
    the rounded sum of its five component scores under that row. *)
Theorem weights_sum_to_one :
  Forall (fun c =>
            total (weights c) == 1 /\
            forall data, exists subs,
              subscores c data = Ok subs /\
              length subs = length (weights c) /\
              scorer c data = Ok (round2 (weighted_sum subs (weights c))))
         component_scorers /\
  length component_scorers = 20%nat /\
  weights tier2_growth_component = [0.25; 0.15; 0.20; 0.10; 0.15; 0.10; 0.05] /\
  (forall data, scorer tier2_growth_component data = Ok (tier2_growth data)) /\
  Forall (fun tier =>
            exists row,
              TIER_WEIGHTS !! tier = Some row /\
              length row = 5%nat /\
              total (map snd row) == 1 /\
              Qabs (total (map snd row) - 1) <= 1 # 1000000000 /\
              forall data, exists composite comps,
                tier_composite tier data = Ok (composite, comps) /\
                Forall2 (fun c p => scorer c data = Ok (snd p))
                        (tier_components tier) comps /\
                composite = round2 (weighted_sum (map snd comps) (map snd row)))
         [1%Z; 2%Z; 3%Z; 4%Z].
Proof.
  split.
  { eapply List.Forall_impl; [| apply component_scorers_sound].
    intros c [Htot Hc]. split; [exact Htot |]. intros data.
    destruct (Hc data) as (subs & H1 & H2 & _ & H3). exists subs. auto. }
  split; [reflexivity |]. split; [reflexivity |]. split; [reflexivity |].
  repeat apply List.Forall_cons; try apply List.Forall_nil.
  all: eexists; split; [vm_compute; reflexivity |].
  all: split; [reflexivity |]; split; [vm_compute; reflexivity |].
  all: split; [vm_compute; discriminate |]; intros data.
  - destruct (tier_composite_ok 1 data) as (c & comps & Hc & H1 & _ & (row & Hrow & Heq) & _); [auto |].
    exists c, comps. split; [exact Hc |]. split; [exact H1 |].
    vm_compute in Hrow. injection Hrow as <-. exact Heq.
  - destruct (tier_composite_ok 2 data) as (c & comps & Hc & H1 & _ & (row & Hrow & Heq) & _); [auto |].
    exists c, comps. split; [exact Hc |]. split; [exact H1 |].
    vm_compute in Hrow. injection Hrow as <-. exact Heq.
  - destruct (tier_composite_ok 3 data) as (c & comps & Hc & H1 & _ & (row & Hrow & Heq) & _); [auto |].
    exists c, comps. split; [exact Hc |]. split; [exact H1 |].
    vm_compute in Hrow. injection Hrow as <-. exact Heq.
  - destruct (tier_composite_ok 4 data) as (c & comps & Hc & H1 & _ & (row & Hrow & Heq) & _); [auto 6 |].
    exists c, comps. split; [exact Hc |]. split; [exact H1 |].
    vm_compute in Hrow. injection Hrow as <-. exact Heq.
Qed.

(** ** Customer retention of non-SaaS issuers *)

(** C9: when [is_saas] is false (or absent), the customer-retention
    sub-score of [tier2_quality] is the maximum of the four proxy scores:
    it is one of them and no proxy exceeds it.  It is not their average: on
    the record with no fields it is 40 while the average is 33.75. *)
Theorem tier2_retention_is_max :
  (forall data,
     get_bool data "is_saas" false = false ->
     let r := tier2_quality_retention_score data in
     let repeat_revenue := tier2_quality_repeat_revenue_score data in
     let churn := tier2_quality_churn_score data in
     let customer_growth := tier2_quality_customer_growth_score data in
     let concentration := tier2_quality_concentration_score data in
     (r = repeat_revenue \/ r = churn \/ r = customer_growth \/ r = concentration) /\
     repeat_revenue <= r /\ churn <= r /\ customer_growth <= r /\ concentration <= r) /\
  tier2_quality_retention_score no_fields == 40 /\
  (tier2_quality_repeat_revenue_score no_fields + tier2_quality_churn_score no_fields +
   tier2_quality_customer_growth_score no_fields +
   tier2_quality_concentration_score no_fields) / 4 == 33.75.
Proof.
  split; [| split; vm_compute; reflexivity].
  intros data Hsaas. cbv zeta.
  unfold tier2_quality_retention_score. rewrite Hsaas. cbv zeta.
  cbn [app]. unfold max_or. cbn [fold_left].
  set (a := tier2_quality_repeat_revenue_score data).
  set (b := tier2_quality_churn_score data).
  set (c := tier2_quality_customer_growth_score data).
  set (d := tier2_quality_concentration_score data).
  destruct (b >? a) eqn:Hb; destruct (c >? _) eqn:Hc; destruct (d >? _) eqn:Hd;
    reflect_cmp; repeat split; auto; lra.
Qed.

Lemma tier2_retention_is_max_witness :
  let r := tier2_quality_retention_score no_fields in
  let repeat_revenue := tier2_quality_repeat_revenue_score no_fields in
  let churn := tier2_quality_churn_score no_fields in
  let customer_growth := tier2_quality_customer_growth_score no_fields in
  let concentration := tier2_quality_concentration_score no_fields in
  (r = repeat_revenue \/ r = churn \/ r = customer_growth \/ r = concentration) /\
  repeat_revenue <= r /\ churn <= r /\ customer_growth <= r /\ concentration <= r.
Proof.
  apply (proj1 tier2_retention_is_max no_fields). reflexivity.
Defined.

(** ** Relative valuation without a sector median *)

Lemma get_num_absent data key dflt :
  numbers data !! key = None -> get_num data key dflt = dflt.
Proof. intros H. unfold get_num. rewrite H. reflexivity. Qed.

Lemma Qdiv_self x : 0 < x -> x / x == 1.
Proof. intros H. field. lra. Qed.

(** C10: on every record without the field [sector_median_ps] the
    relative-valuation sub-score of the Tier-3 and of the Tier-4 valuation
    is exactly 75, whatever the other fields hold: the median defaults to
    the stock's own P/S ratio, the test for strictly below the median fails
    and the test for equality succeeds. *)
Theorem missing_sector_median_scores_75 (data : ScoreInput) :
  numbers data !! "sector_median_ps" = None ->
  tier3_valuation_rel_val_score data = 75 /\
  tier4_valuation_rel_val_score data = Ok 75.
Proof.
  intros Hnone. split.
  - unfold tier3_valuation_rel_val_score. cbv zeta.
    rewrite !(get_num_absent data "sector_median_ps" _ Hnone).
    repeat split_if; reflect_cmp; first [reflexivity | lra].
  - unfold tier4_valuation_rel_val_score. cbv zeta.
    rewrite !(get_num_absent data "sector_median_ps" _ Hnone).
    set (ps := get_num data "ps_ratio" 999).
    destruct (ps >? 0) eqn:Hpos; reflect_cmp.
    + unfold py_div. destruct (ps =? 0) eqn:Hz; reflect_cmp; [lra |].
      cbn [mbind mret result_bind result_ret].
      pose proof (Qdiv_self ps Hpos) as Hone.
      set (ratio := ps / ps) in *.
      repeat split_if; reflect_cmp; first [reflexivity | lra].
    + cbn [mbind mret result_bind result_ret].
      repeat split_if; reflect_cmp; first [reflexivity | lra].
Qed.

Lemma missing_sector_median_scores_75_witness :
  tier3_valuation_rel_val_score googl_data = 75 /\
  tier4_valuation_rel_val_score googl_data = Ok 75.
Proof.
  apply (missing_sector_median_scores_75 googl_data). reflexivity.
Defined.

(** ** Absent fields and guarded divisions *)

Lemma tier1_valuation_pe_score_neutral data :
  get_num data "historical_pe_avg" (get_num data "pe_ratio" 0) <= 0 ->
  tier1_valuation_pe_score data = Ok 50.
Proof.
  intros H. unfold tier1_valuation_pe_score. cbv zeta.
  destruct (_ >? 0) eqn:Hpos; reflect_cmp; [lra | reflexivity].
Qed.

(** C6, the claim as stated fails: on a Tier-1 record that has [pe_ratio]
    but no [historical_pe_avg], the historical average defaults to the
    current P/E, the ratio is 1 and the P/E sub-score is 100, not the
    neutral 50. *)
Lemma absent_historical_pe_scores_100 :
  numbers tier1_without_history !! "historical_pe_avg" = None /\
  determine_tier (get_num tier1_without_history "market_cap_billions" 0) = 1%Z /\
  exists s, tier1_valuation_pe_score tier1_without_history = Ok s /\
            s == 100 /\ ~ s == 50.
Proof.
  split; [reflexivity |]. split; [reflexivity |].
  eexists. split; [vm_compute; reflexivity |].
  split; [reflexivity | vm_compute; discriminate].
Qed.

Lemma vol_multipliers_cases tier mult :
  vol_multipliers !! tier = Some mult ->
  mult = 0.75 \/ mult = 1.0 \/ mult = 1.3 \/ mult = 1.5.
Proof.
  unfold vol_multipliers. intros H.
  repeat (rewrite lookup_insert in H; case_decide; [injection H as <-; tauto |]).
  rewrite lookup_empty in H. discriminate H.
Qed.

(** C6 as amended: on every record, whichever fields are absent,
    [calculate_score] returns a complete result provided the volatility
    adjustment 1 + (beta - 1) * mult of the assigned tier is at least 0.01
    away from zero, as it is whenever [beta] is absent or at least 0.5; in
    particular it returns one on the record with no fields.  The guarded
    division of the Tier-1 P/E sub-score yields the neutral 50 when the
    historical average, or the current P/E that stands in for it when it is
    absent, is not positive; when the historical average is absent and the
    current P/E is positive the sub-score is 100. *)
Theorem calculate_score_degrades_to_defaults :
  (forall ticker data,
     let tier := determine_tier (get_num data "market_cap_billions" 0) in
     (forall mult, vol_multipliers !! tier = Some mult ->
                   1 # 100 <= Qabs (1 + (get_num data "beta" 1.0 - 1) * mult)) ->
     exists r, calculate_score ticker data = Ok r /\
               tier_composite tier data = Ok (composite_score r, components r)) /\
  (forall ticker data,
     1 # 2 <= get_num data "beta" 1.0 ->
     exists r, calculate_score ticker data = Ok r) /\
  (forall ticker data,
     numbers data !! "beta" = None ->
     exists r, calculate_score ticker data = Ok r) /\
  (forall ticker, exists r, calculate_score ticker no_fields = Ok r) /\
  (forall data,
     get_num data "historical_pe_avg" (get_num data "pe_ratio" 0) <= 0 ->
     tier1_valuation_pe_score data = Ok 50) /\
  (forall data,
     numbers data !! "historical_pe_avg" = None ->
     numbers data !! "pe_ratio" = None ->
     tier1_valuation_pe_score data = Ok 50) /\
  (forall data,
     numbers data !! "historical_pe_avg" = None ->
     0 < get_num data "pe_ratio" 0 ->
     exists s, tier1_valuation_pe_score data = Ok s /\ s == 100).
Proof.
  assert (Hgen : forall ticker data,
     (forall mult,
        vol_multipliers !! determine_tier (get_num data "market_cap_billions" 0) = Some mult ->
        1 # 100 <= Qabs (1 + (get_num data "beta" 1.0 - 1) * mult)) ->
     exists r, calculate_score ticker data = Ok r /\
               tier_composite (determine_tier (get_num data "market_cap_billions" 0)) data
               = Ok (composite_score r, components r)).
  { intros ticker data Hden.
    destruct (calculate_score_outcome ticker data)
      as (c & comps & base & mult & tdef & Hc & _ & Hb & Hm & _ & Hscore).
    rewrite Hscore, (calculate_position_size_eval _ _ _ _ _ Hb Hm).
    destruct (_ =? 0) eqn:Hz; reflect_cmp.
    - specialize (Hden mult Hm). rewrite Hz in Hden. vm_compute in Hden.
      exfalso. apply Hden. reflexivity.
    - cbn [mbind mret result_bind result_ret].
      eexists. split; [reflexivity | exact Hc]. }
  assert (Hhalf : forall ticker data,
     1 # 2 <= get_num data "beta" 1.0 ->
     exists r, calculate_score ticker data = Ok r).
  { intros ticker data Hbeta.
    destruct (Hgen ticker data) as (r & Hr & _); [| exists r; exact Hr].
    intros mult Hm. set (beta := get_num data "beta" 1.0) in *.
    assert (Hpos : 1 # 4 <= 1 + (beta - 1) * mult).
    { destruct (vol_multipliers_cases _ _ Hm) as [-> | [-> | [-> | ->]]]; lra. }
    rewrite Qabs_pos; lra. }
  split; [exact Hgen |]. split; [exact Hhalf |]. split; [| split].
  - intros ticker data Hbeta. apply Hhalf.
    rewrite (get_num_absent data "beta" _ Hbeta). vm_compute. discriminate.
  - intros ticker. eexists. vm_compute. reflexivity.
  - split; [exact tier1_valuation_pe_score_neutral |]. split.
    + intros data Hh Hp. apply tier1_valuation_pe_score_neutral.
      rewrite (get_num_absent data "historical_pe_avg" _ Hh).
      rewrite (get_num_absent data "pe_ratio" _ Hp). lra.
    + intros data Hh Hp. unfold tier1_valuation_pe_score. cbv zeta.
      rewrite (get_num_absent data "historical_pe_avg" _ Hh).
      set (pe := get_num data "pe_ratio" 0) in *.
      destruct (pe >? 0) eqn:Hpos; reflect_cmp; [| lra].
      unfold py_div. destruct (pe =? 0) eqn:Hz; reflect_cmp; [lra |].
      cbn [mbind mret result_bind result_ret].
      eexists. split; [reflexivity |].
      pose proof (Qdiv_self pe Hpos) as Hone.
      set (ratio := pe / pe) in *.
      unfold cap_score, floor_score.
      repeat split_if; reflect_cmp; lra.
Qed.

Lemma calculate_score_degrades_to_defaults_witness :
  exists r, calculate_score "GOOGL" googl_data = Ok r /\
            tier_composite (determine_tier (get_num googl_data "market_cap_billions" 0))
              googl_data = Ok (composite_score r, components r).
Proof.
  apply (proj1 calculate_score_degrades_to_defaults "GOOGL" googl_data).
  intros mult Hm. vm_compute in Hm. injection Hm as <-. vm_compute. discriminate.
Defined.

(** ** Thresholds of the ladders *)




















(** * Further properties of the engine *)

(** ** Rounding *)

Lemma round_half_even_inject_Z z : round_half_even (inject_Z z) = z.
Proof.
  unfold round_half_even. rewrite Qfloor_Z.
  destruct (_ <? _) eqn:H; reflect_cmp; [reflexivity | lra].
Qed.

Lemma round_half_even_mono x y : x <= y -> (round_half_even x <= round_half_even y)%Z.
Proof.
  intros Hxy.
  pose proof (Qfloor_resp_le x y Hxy) as Hf.
  destruct (Z.eq_dec (Qfloor x) (Qfloor y)) as [Heq | Hne].
  - unfold round_half_even. rewrite Heq.
    set (f := Qfloor y).
    assert (Hr : x - inject_Z f <= y - inject_Z f) by lra.
    destruct (x - inject_Z f <? 1 # 2) eqn:H1; destruct (y - inject_Z f <? 1 # 2) eqn:H2;
      destruct (x - inject_Z f >? 1 # 2) eqn:H3; destruct (y - inject_Z f >? 1 # 2) eqn:H4;
      destruct (Z.even f); reflect_cmp; first [lia | lra].
  - assert (Hlt : (Qfloor x + 1 <= Qfloor y)%Z) by lia.
    destruct (round_half_even_cases x) as [[-> _] | [-> _]];
      destruct (round_half_even_cases y) as [[-> _] | [-> _]]; lia.
Qed.

Lemma round2_mono x y : x <= y -> round2 x <= round2 y.
Proof.
  intros Hxy. unfold round2.
  assert (H : (round_half_even (x * 100) <= round_half_even (y * 100))%Z)
    by (apply round_half_even_mono; lra).
  rewrite Zle_Qle in H.
  apply Qmult_le_compat_r; [exact H | vm_compute; discriminate].
Qed.

(** [round(x, 2)] leaves a number with two decimals as it is. *)
Lemma round2_two_decimals z : round2 (inject_Z z / 100) = inject_Z z / 100.
Proof.
  unfold round2. f_equal. f_equal.
  rewrite <- (round_half_even_inject_Z z) at 2.
  apply round_half_even_proper. field.
Qed.

Lemma round2_nearest x : Qabs (round2 x - x) <= 5 # 1000.
Proof.
  unfold round2. pose proof (round_half_even_nearest (x * 100)) as [Hlo Hhi].
  set (k := inject_Z (round_half_even (x * 100))) in *.
  assert (Hk : k / 100 == k * (1 # 100)) by reflexivity.
  apply Qabs_Qle_condition. rewrite Hk. split; lra.
Qed.

(** ** Position sizes *)

Lemma scaled_score_nonneg base score : 0 <= base -> 0 <= score -> 0 <= base * (score / 100).
Proof.
  intros Hb Hs. assert (Hq : score / 100 == score * (1 # 100)) by reflexivity.
  rewrite Hq. nra.
Qed.
Lemma scaled_score_le base score : 0 <= base -> score <= 100 -> base * (score / 100) <= base.
Proof.
  intros Hb Hs. assert (Hq : score / 100 == score * (1 # 100)) by reflexivity.
  rewrite Hq. nra.
Qed.
Lemma Qdiv_nonneg n d : 0 <= n -> 0 < d -> 0 <= n / d.
Proof. intros Hn Hd. apply Qle_shift_div_l; [exact Hd | lra]. Qed.
Lemma Qdiv_le_numerator n1 n2 d : n1 <= n2 -> 0 < d -> n1 / d <= n2 / d.
Proof.
  intros Hn Hd. apply Qle_shift_div_l; [exact Hd |].
  assert (H : n1 / d * d == n1) by (field; lra). rewrite H. exact Hn.
Qed.
Lemma Qdiv_le_denominator n d1 d2 : 0 <= n -> 0 < d1 -> d1 <= d2 -> n / d2 <= n / d1.
Proof.
  intros Hn Hd1 Hd. apply Qle_shift_div_r; [lra |].
  pose proof (Qdiv_nonneg n d1 Hn Hd1) as Hq.
  assert (H : n / d1 * d1 == n) by (field; lra).
  set (q := n / d1) in *. nra.
Qed.
Lemma Qdiv_nonpos n d : 0 <= n -> d < 0 -> n / d <= 0.
Proof.
  intros Hn Hd.
  assert (H : n / d == - (n / (- d))) by (field; lra).
  rewrite H. pose proof (Qdiv_nonneg n (- d) Hn ltac:(lra)). lra.
Qed.

Lemma position_tiers_tables tier base mult :
  In (tier, base, mult) position_tiers ->
  base_allocations !! tier = Some base /\ vol_multipliers !! tier = Some mult /\
  0 < mult /\ 0 <= base /\
  exists b2 : Z, inject_Z b2 == base * 2.
Proof.
  unfold position_tiers. cbn [In].
  intros [H | [H | [H | [H | []]]]]; injection H as <- <- <-;
    (split; [vm_compute; reflexivity |]); (split; [vm_compute; reflexivity |]);
    (split; [reflexivity |]); (split; [vm_compute; discriminate |]).
  - exists 20%Z. reflexivity.
  - exists 14%Z. reflexivity.
  - exists 10%Z. reflexivity.
  - exists 6%Z. reflexivity.
Qed.

Lemma calculate_position_size_positive tier base mult score beta :
  In (tier, base, mult) position_tiers -> 0 < vol_adjustment mult beta ->
  calculate_position_size tier score beta =
    Ok (inject_Z (round_half_even (exact_position base mult score beta * 2)) / 2).
Proof.
  intros Hin Hpos. destruct (position_tiers_tables _ _ _ Hin) as (Hb & Hm & _).
  rewrite (calculate_position_size_eval tier base mult score beta Hb Hm).
  unfold vol_adjustment in Hpos.
  destruct (_ =? 0) eqn:Hz; reflect_cmp; [lra | reflexivity].
Qed.

Lemma half_le k1 k2 : (k1 <= k2)%Z -> inject_Z k1 / 2 <= inject_Z k2 / 2.
Proof.
  intros H. rewrite Zle_Qle in H.
  apply Qmult_le_compat_r; [exact H | vm_compute; discriminate].
Qed.

(** A tier outside 1..4 is a missing key of [base_allocations]: the call
    raises [KeyError] before any arithmetic, whatever the score and beta. *)
Theorem calculate_position_size_unknown_tier (tier : Z) (score beta : Q) :
  ~ In tier [1%Z; 2%Z; 3%Z; 4%Z] ->
  calculate_position_size tier score beta = Raise KeyError.
Proof.
  intros Hnot. unfold calculate_position_size, subscript.
  assert (H : base_allocations !! tier = None).
  { unfold base_allocations.
    rewrite !lookup_insert_ne, lookup_empty; [reflexivity | | | |];
      intros <-; apply Hnot; cbn [In]; auto. }
  rewrite H. reflexivity.
Qed.

Lemma calculate_position_size_unknown_tier_witness :
  calculate_position_size 5 80 1 = Raise KeyError.
Proof.
  apply calculate_position_size_unknown_tier.
  cbn [In]. intros [H | [H | [H | [H | []]]]]; discriminate H.
Defined.

Lemma position_size_bounds tier base mult score beta :
  In (tier, base, mult) position_tiers ->
  0 <= score -> score <= 100 -> 1 <= beta ->
  exists p, calculate_position_size tier score beta = Ok p /\ 0 <= p /\ p <= base.
Proof.
  intros Hin Hs0 Hs1 Hbeta.
  destruct (position_tiers_tables _ _ _ Hin) as (_ & _ & Hmult & Hbpos & b2 & Hbase).
  assert (Hd : 1 <= vol_adjustment mult beta) by (unfold vol_adjustment; nra).
  rewrite (calculate_position_size_positive _ _ _ score beta Hin) by lra.
  eexists. split; [reflexivity |].
  pose proof (scaled_score_nonneg base score Hbpos Hs0) as Hn0.
  pose proof (scaled_score_le base score Hbpos Hs1) as Hn1.
  assert (He0 : 0 <= exact_position base mult score beta).
  { apply Qdiv_nonneg; [exact Hn0 | fold (vol_adjustment mult beta); lra]. }
  assert (He1 : exact_position base mult score beta <= base).
  { unfold exact_position. fold (vol_adjustment mult beta).
    apply Qle_shift_div_r; [lra | nra]. }
  set (e := exact_position base mult score beta) in *.
  destruct (round_half_even_bounds (e * 2) 0 b2) as [H0 H1].
  - change (inject_Z 0) with 0. lra.
  - lra.
  - rewrite Zle_Qle in H0, H1. change (inject_Z 0) with 0 in H0.
    set (k := inject_Z (round_half_even (e * 2))) in *.
    assert (Hk : k / 2 == k * (1 # 2)) by reflexivity.
    rewrite Hk. split; lra.
Qed.

(** With a beta of at least 1 and a score within [0, 100] the position size
    is defined, is never negative and never exceeds the base allocation of
    the tier. *)
Theorem position_size_within_base tier base mult score beta :
  In (tier, base, mult) position_tiers ->
  0 <= score -> score <= 100 -> 1 <= beta ->
  exists p, calculate_position_size tier score beta = Ok p /\ 0 <= p /\ p <= base.
Proof. apply position_size_bounds. Qed.

Lemma position_size_within_base_witness :
  exists p, calculate_position_size 3 72 (3 # 2) = Ok p /\ 0 <= p /\ p <= 5.0.
Proof.
  apply (position_size_within_base 3 5.0 1.3 72 (3 # 2)).
  - right. right. left. reflexivity.
  - vm_compute. discriminate.
  - vm_compute. discriminate.
  - vm_compute. discriminate.
Defined.

(** For a fixed tier and a beta whose volatility adjustment is at least
    0.01, a higher score within [0, 100] never gets a smaller position. *)
Theorem position_size_monotone_in_score tier base mult beta score1 score2 :
  In (tier, base, mult) position_tiers ->
  1 # 100 <= vol_adjustment mult beta ->
  0 <= score1 -> score1 <= score2 -> score2 <= 100 ->
  exists p1 p2,
    calculate_position_size tier score1 beta = Ok p1 /\
    calculate_position_size tier score2 beta = Ok p2 /\
    p1 <= p2.
Proof.
  intros Hin Hmargin _ Hs _.
  assert (Hd : 0 < vol_adjustment mult beta) by lra.
  destruct (position_tiers_tables _ _ _ Hin) as (_ & _ & _ & Hbpos & _).
  rewrite !(calculate_position_size_positive _ _ _ _ beta Hin Hd).
  do 2 eexists. split; [reflexivity |]. split; [reflexivity |].
  apply half_le, round_half_even_mono.
  assert (He : exact_position base mult score1 beta <= exact_position base mult score2 beta).
  { apply Qdiv_le_numerator; [| exact Hd].
    assert (Hq : forall s, s / 100 == s * (1 # 100)) by reflexivity.
    rewrite !Hq. nra. }
  lra.
Qed.

Lemma position_size_monotone_in_score_witness :
  exists p1 p2,
    calculate_position_size 1 60 1.1 = Ok p1 /\
    calculate_position_size 1 89.89 1.1 = Ok p2 /\
    p1 <= p2.
Proof.
  apply (position_size_monotone_in_score 1 10.0 0.75 1.1 60 89.89).
  - left. reflexivity.
  - vm_compute. discriminate.
  - vm_compute. discriminate.
  - vm_compute. discriminate.
  - vm_compute. discriminate.
Defined.

(** For a fixed tier and a score within [0, 100], a higher beta never gets
    a larger position, from the betas on whose volatility adjustment is at
    least 0.01. *)
Theorem position_size_antitone_in_beta tier base mult score beta1 beta2 :
  In (tier, base, mult) position_tiers ->
  0 <= score -> score <= 100 ->
  1 # 100 <= vol_adjustment mult beta1 -> beta1 <= beta2 ->
  exists p1 p2,
    calculate_position_size tier score beta1 = Ok p1 /\
    calculate_position_size tier score beta2 = Ok p2 /\
    p2 <= p1.
Proof.
  intros Hin Hs _ Hmargin Hb.
  assert (Hd1 : 0 < vol_adjustment mult beta1) by lra.
  destruct (position_tiers_tables _ _ _ Hin) as (_ & _ & Hmult & Hbpos & _).
  assert (Hd : vol_adjustment mult beta1 <= vol_adjustment mult beta2)
    by (unfold vol_adjustment; nra).
  rewrite (calculate_position_size_positive _ _ _ _ beta1 Hin Hd1).
  rewrite (calculate_position_size_positive _ _ _ _ beta2 Hin) by lra.
  do 2 eexists. split; [reflexivity |]. split; [reflexivity |].
  apply half_le, round_half_even_mono.
  assert (He : exact_position base mult score beta2 <= exact_position base mult score beta1).
  { apply Qdiv_le_denominator; [apply scaled_score_nonneg | |]; assumption. }
  lra.
Qed.

Lemma position_size_antitone_in_beta_witness :
  exists p1 p2,
    calculate_position_size 4 75 1.2 = Ok p1 /\
    calculate_position_size 4 75 2.4 = Ok p2 /\
    p2 <= p1.
Proof.
  apply (position_size_antitone_in_beta 4 3.0 1.5 75 1.2 2.4).
  - right. right. right. left. reflexivity.
  - vm_compute. discriminate.
  - vm_compute. discriminate.
  - vm_compute. discriminate.
  - vm_compute. discriminate.
Defined.

(** When beta is so low that the volatility adjustment is -0.01 or less, a
    score within [0, 100] gets a position size that is not positive:
    nothing floors the result at zero. *)
Theorem position_size_negative_adjustment tier base mult score beta :
  In (tier, base, mult) position_tiers ->
  0 <= score -> score <= 100 ->
  vol_adjustment mult beta <= - (1 # 100) ->
  exists p, calculate_position_size tier score beta = Ok p /\ p <= 0.
Proof.
  intros Hin Hs _ Hmargin.
  assert (Hd : vol_adjustment mult beta < 0) by lra.
  destruct (position_tiers_tables _ _ _ Hin) as (Hb & Hm & _ & Hbpos & _).
  rewrite (calculate_position_size_eval tier base mult score beta Hb Hm).
  fold (vol_adjustment mult beta).
  destruct (_ =? 0) eqn:Hz; reflect_cmp; [lra |].
  eexists. split; [reflexivity |].
  assert (He : exact_position base mult score beta <= 0).
  { apply Qdiv_nonpos; [apply scaled_score_nonneg; assumption | exact Hd]. }
  apply Qle_trans with (inject_Z 0 / 2); [| vm_compute; discriminate].
  assert (H : (round_half_even (exact_position base mult score beta * 2)
               <= round_half_even (inject_Z 0))%Z)
    by (apply round_half_even_mono; change (inject_Z 0) with 0; lra).
  rewrite round_half_even_inject_Z in H. apply half_le, H.
Qed.

Lemma position_size_negative_adjustment_witness :
  exists p, calculate_position_size 4 80 (-1) = Ok p /\ p <= 0.
Proof.
  apply (position_size_negative_adjustment 4 3.0 1.5 80 (-1)).
  - right. right. right. left. reflexivity.
  - vm_compute. discriminate.
  - vm_compute. discriminate.
  - vm_compute. discriminate.
Defined.

(** ** What [calculate_score] returns *)

(** The only exception [calculate_score] can raise is [ZeroDivisionError]:
    the tier it assigns is always a key of the tier tables, so their
    subscripts never raise [KeyError]. *)
Theorem calculate_score_raises_only_zero_division
    (ticker : string) (data : ScoreInput) (e : exn) :
  calculate_score ticker data = Raise e -> e = ZeroDivisionError.
Proof.
  destruct (calculate_score_outcome ticker data)
    as (c & comps & base & mult & tdef & _ & _ & Hb & Hm & _ & Hscore).
  rewrite Hscore, (calculate_position_size_eval _ _ _ _ _ Hb Hm).
  destruct (_ =? 0); cbn [mbind mret result_bind result_ret]; intros H.
  - injection H as <-. reflexivity.
  - discriminate H.
Qed.

Lemma calculate_score_raises_only_zero_division_witness :
  ZeroDivisionError = ZeroDivisionError.
Proof.
  apply (calculate_score_raises_only_zero_division "X"
           {| numbers := list_to_map [("market_cap_billions", 100); ("beta", 0)];
              booleans := ∅; texts := ∅; flag_sets := ∅ |}).
  vm_compute. reflexivity.
Defined.

Lemma calculate_score_inversion ticker data r :
  calculate_score ticker data = Ok r ->
  exists composite comps tier_def position,
    let tier := determine_tier (get_num data "market_cap_billions" 0) in
    tier_composite tier data = Ok (composite, comps) /\
    composite_ok tier data composite comps /\
    TIER_DEFINITIONS !! tier = Some tier_def /\
    calculate_position_size tier composite (get_num data "beta" 1.0) = Ok position /\
    r = {| ticker := ticker;
           tier := tier;
           tier_name := name tier_def;
           market_cap_billions := get_num data "market_cap_billions" 0;
           composite_score := composite;
           rating := rating_of composite;
           stars := EmptyString;
           position_size_pct := position;
           min_score_for_tier := min_score tier_def;
           score_buffer := round2 (composite - min_score tier_def);
           components := comps;
           beta := get_num data "beta" 1.0 |}.
Proof.
  intros Hr.
  destruct (calculate_score_outcome ticker data)
    as (c & comps & base & mult & tdef & Hc & Hok & _ & _ & Hd & Hscore).
  rewrite Hscore in Hr.
  destruct (calculate_position_size _ c _) as [p | e] eqn:Hp;
    cbn [mbind mret result_bind result_ret] in Hr; [| discriminate Hr].
  injection Hr as <-. exists c, comps, tdef, p. cbv zeta. auto 6.
Qed.

Lemma tier_definition_cases tier tier_def :
  TIER_DEFINITIONS !! tier = Some tier_def ->
  (tier = 1%Z /\ min_score tier_def = 60 /\ name tier_def = "Mega-Cap Core") \/
  (tier = 2%Z /\ min_score tier_def = 65 /\ name tier_def = "Large-Cap Growth") \/
  (tier = 3%Z /\ min_score tier_def = 67 /\ name tier_def = "Mid-Cap Emerging") \/
  (tier = 4%Z /\ min_score tier_def = 70 /\ name tier_def = "Small-Cap Moonshots").
Proof.
  unfold TIER_DEFINITIONS. intros H.
  repeat (rewrite lookup_insert in H; case_decide;
          [injection H as <-; subst; cbn; tauto |]).
  rewrite lookup_empty in H. discriminate H.
Qed.

Lemma tier_composite_names tier data composite comps :
  tier_composite tier data = Ok (composite, comps) ->
  map fst comps = ["Valuation"; "Quality"; "Growth"; "Momentum"; fifth_component tier].
Proof.
  unfold tier_composite, fifth_component.
  destruct (tier =? 1)%Z; [| destruct (tier =? 2)%Z; [| destruct (tier =? 3)%Z]].
  - unfold calculate_tier1_composite. destruct (tier1_valuation data);
      cbn [mbind mret result_bind result_ret]; [| discriminate].
    intros [= <- <-]. reflexivity.
  - unfold calculate_tier2_composite. cbn [mret result_ret]. intros [= <- <-]. reflexivity.
  - unfold calculate_tier3_composite. cbn [mret result_ret]. intros [= <- <-]. reflexivity.
  - unfold calculate_tier4_composite. destruct (tier4_valuation data);
      cbn [mbind mret result_bind result_ret]; [| discriminate].
    intros [= <- <-]. reflexivity.
Qed.

Lemma round2_buffer z (m : Z) :
  round2 (inject_Z z / 100 - inject_Z m) == inject_Z z / 100 - inject_Z m.
Proof.
  assert (H : inject_Z z / 100 - inject_Z m == inject_Z (z - 100 * m) / 100).
  { unfold Z.sub. rewrite inject_Z_plus, inject_Z_opp, inject_Z_mult. field. }
  rewrite (round2_proper _ _ H), round2_two_decimals. symmetry. exact H.
Qed.

(** The result record is consistent: its tier is the one of the market
    cap, the tier's name and minimum score (60, 65, 67, 70) come from the
    same row of [TIER_DEFINITIONS], the components are named Valuation,
    Quality, Growth, Momentum and the tier's own fifth component, and the
    score buffer is exactly the composite minus the minimum (rounding it to
    two decimals changes nothing), so the buffer is negative exactly when
    the composite misses the tier's minimum. *)
Theorem calculate_score_result_consistent (ticker : string) (data : ScoreInput) (r : ScoreResult) :
  calculate_score ticker data = Ok r ->
  tier r = determine_tier (get_num data "market_cap_billions" 0) /\
  (exists tier_def,
     TIER_DEFINITIONS !! tier r = Some tier_def /\
     tier_name r = name tier_def /\ min_score_for_tier r = min_score tier_def) /\
  In (tier r, min_score_for_tier r) [(1%Z, 60); (2%Z, 65); (3%Z, 67); (4%Z, 70)] /\
  map fst (components r) =
    ["Valuation"; "Quality"; "Growth"; "Momentum"; fifth_component (tier r)] /\
  score_buffer r == composite_score r - min_score_for_tier r /\
  (score_buffer r < 0 <-> composite_score r < min_score_for_tier r).
Proof.
  intros Hr.
  destruct (calculate_score_inversion ticker data r Hr)
    as (c & comps & tdef & p & Hc & Hok & Hd & _ & ->).
  cbn [tier tier_name min_score_for_tier components score_buffer composite_score].
  set (t := determine_tier (get_num data "market_cap_billions" 0)) in *.
  split; [reflexivity |]. split; [exists tdef; auto |].
  assert (Hbuf : round2 (c - min_score tdef) == c - min_score tdef).
  { destruct Hok as (_ & _ & (row & _ & ->) & _). unfold round2 at 2 3.
    destruct (tier_definition_cases t tdef Hd) as [H | [H | [H | H]]];
      destruct H as (_ & -> & _).
    - apply (round2_buffer _ 60).
    - apply (round2_buffer _ 65).
    - apply (round2_buffer _ 67).
    - apply (round2_buffer _ 70). }
  split.
  { destruct (tier_definition_cases t tdef Hd) as [H | [H | [H | H]]];
      destruct H as (-> & -> & _); cbn [In]; auto 6. }
  split; [exact (tier_composite_names t data c comps Hc) |].
  split; [exact Hbuf |]. rewrite Hbuf. split; intros; lra.
Qed.

Lemma calculate_score_result_consistent_witness :
  exists r, calculate_score "GOOGL" googl_data = Ok r /\
            score_buffer r == composite_score r - min_score_for_tier r.
Proof.
  eexists. split; [vm_compute; reflexivity |].
  eapply (calculate_score_result_consistent "GOOGL" googl_data).
  vm_compute. reflexivity.
Defined.

(** The rating is read off the composite alone, by one ladder for all
    tiers: 80 and above is a Strong Buy, [70, 80) a Buy, [60, 70) a Hold,
    [50, 60) a Reduce and anything below 50 a Sell. *)
Theorem rating_follows_composite (ticker : string) (data : ScoreInput) (r : ScoreResult) :
  calculate_score ticker data = Ok r ->
  (rating r = "Strong Buy" <-> 80 <= composite_score r) /\
  (rating r = "Buy" <-> 70 <= composite_score r /\ composite_score r < 80) /\
  (rating r = "Hold" <-> 60 <= composite_score r /\ composite_score r < 70) /\
  (rating r = "Reduce" <-> 50 <= composite_score r /\ composite_score r < 60) /\
  (rating r = "Sell" <-> composite_score r < 50).
Proof.
  intros Hr.
  destruct (calculate_score_inversion ticker data r Hr)
    as (c & comps & tdef & p & _ & _ & _ & _ & ->).
  cbn [rating composite_score]. unfold rating_of.
  repeat split_if; reflect_cmp;
    repeat split; intros; try discriminate; try reflexivity; try lra;
    match goal with H : _ /\ _ |- _ => destruct H; lra end.
Qed.

Lemma rating_follows_composite_witness :
  exists r, calculate_score "GOOGL" googl_data = Ok r /\
            (rating r = "Strong Buy" <-> 80 <= composite_score r).
Proof.
  eexists. split; [vm_compute; reflexivity |].
  eapply (rating_follows_composite "GOOGL" googl_data).
  vm_compute. reflexivity.
Defined.

(** ** Composites are monotone *)

Ltac invert_components :=
  repeat match goal with
         | H : Forall2 _ (_ :: _) (_ :: _) |- _ =>
             apply List.Forall2_cons_iff in H; destruct H
         end;
  cbn [snd] in *.

(** For a fixed tier, raising component scores never lowers the composite:
    if every component of one record is at most the same component of
    another, so is its composite. *)
Theorem composite_monotone (tier : Z) (data1 data2 : ScoreInput)
    (c1 c2 : Q) (comps1 comps2 : list (string * Q)) :
  tier_composite tier data1 = Ok (c1, comps1) ->
  tier_composite tier data2 = Ok (c2, comps2) ->
  Forall2 (fun p q => snd p <= snd q) comps1 comps2 ->
  c1 <= c2.
Proof.
  unfold tier_composite.
  destruct (tier =? 1)%Z; [| destruct (tier =? 2)%Z; [| destruct (tier =? 3)%Z]].
  - unfold calculate_tier1_composite.
    destruct (tier1_valuation data1); destruct (tier1_valuation data2);
      cbn [mbind mret result_bind result_ret]; try discriminate.
    intros [= <- <-] [= <- <-] Hle. invert_components. apply round2_mono. lra.
  - unfold calculate_tier2_composite. cbn [mret result_ret].
    intros [= <- <-] [= <- <-] Hle. invert_components. apply round2_mono. lra.
  - unfold calculate_tier3_composite. cbn [mret result_ret].
    intros [= <- <-] [= <- <-] Hle. invert_components. apply round2_mono. lra.
  - unfold calculate_tier4_composite.
    destruct (tier4_valuation data1); destruct (tier4_valuation data2);
      cbn [mbind mret result_bind result_ret]; try discriminate.
    intros [= <- <-] [= <- <-] Hle. invert_components. apply round2_mono. lra.
Qed.

Lemma composite_monotone_witness :
  fst (calculate_tier2_composite no_fields) <= fst (calculate_tier2_composite googl_data).
Proof.
  apply (composite_monotone 2 no_fields googl_data _ _
           (snd (calculate_tier2_composite no_fields))
           (snd (calculate_tier2_composite googl_data))).
  - vm_compute. reflexivity.
  - vm_compute. reflexivity.
  - vm_compute. repeat apply List.Forall2_cons; try apply List.Forall2_nil; discriminate.
Defined.

(** ** Sub-scores of the valuation components *)

(** With a positive historical average the Tier-1 P/E sub-score is 100
    while the current P/E is at most the average (also when the current P/E
    is negative), falls linearly as 200 - 100 * current / average up to
    twice the average, and is 0 from there on. *)
Theorem tier1_pe_score_shape (data : ScoreInput) :
  let current_pe := get_num data "pe_ratio" 0 in
  let historical_pe := get_num data "historical_pe_avg" current_pe in
  0 < historical_pe ->
  exists s,
    tier1_valuation_pe_score data = Ok s /\
    (current_pe <= historical_pe -> s == 100) /\
    (historical_pe <= current_pe -> current_pe <= 2 * historical_pe ->
     s == 200 - 100 * (current_pe / historical_pe)) /\
    (2 * historical_pe <= current_pe -> s == 0).
Proof.
  cbv zeta. intros Hpos. unfold tier1_valuation_pe_score. cbv zeta.
  set (pe := get_num data "pe_ratio" 0) in *.
  set (hist := get_num data "historical_pe_avg" pe) in *.
  destruct (hist >? 0) eqn:Hgt; reflect_cmp; [| lra].
  unfold py_div. destruct (hist =? 0) eqn:Hz; reflect_cmp; [lra |].
  cbn [mbind mret result_bind result_ret].
  eexists. split; [reflexivity |].
  assert (H1 : pe <= hist -> pe / hist <= 1)
    by (intros; apply Qle_shift_div_r; lra).
  assert (H2 : hist <= pe -> 1 <= pe / hist)
    by (intros; apply Qle_shift_div_l; lra).
  assert (H3 : pe <= 2 * hist -> pe / hist <= 2)
    by (intros; apply Qle_shift_div_r; lra).
  assert (H4 : 2 * hist <= pe -> 2 <= pe / hist)
    by (intros; apply Qle_shift_div_l; lra).
  set (ratio := pe / hist) in *.
  unfold floor_score. destruct (0 >? _) eqn:Hfloor;
    unfold cap_score; destruct (100 <? _) eqn:Hcap; reflect_cmp;
    repeat split; intros;
    repeat match goal with
           | H : ?a -> _, Ha : ?a |- _ => specialize (H Ha)
           end;
    lra.
Qed.

Lemma tier1_pe_score_shape_witness :
  exists s,
    tier1_valuation_pe_score googl_data = Ok s /\
    (get_num googl_data "pe_ratio" 0
       <= get_num googl_data "historical_pe_avg" (get_num googl_data "pe_ratio" 0) ->
     s == 100).
Proof.
  destruct (tier1_pe_score_shape googl_data) as (s & Hs & H100 & _).
  - reflexivity.
  - exists s. split; [exact Hs | exact H100].
Defined.

(** When both [forward_pe] and [sector_median_pe] are absent, the Tier-2
    relative valuation compares the P/E-or-P/S sub-score with itself (it is
    the default of both lookups) and always scores 80. *)
Theorem tier2_relative_valuation_defaults (data : ScoreInput) :
  numbers data !! "sector_median_pe" = None ->
  numbers data !! "forward_pe" = None ->
  tier2_valuation_rel_val_score data = 80.
Proof.
  intros Hmedian Hpe. unfold tier2_valuation_rel_val_score. cbv zeta.
  rewrite !(get_num_absent data "sector_median_pe" _ Hmedian).
  rewrite !(get_num_absent data "forward_pe" _ Hpe).
  assert (Hrange : in_range (tier2_valuation_pe_ps_score data)) by subscore_range.
  destruct Hrange as [H0 _].
  set (p := tier2_valuation_pe_ps_score data) in *.
  repeat split_if; reflect_cmp; first [reflexivity | lra].
Qed.

Lemma tier2_relative_valuation_defaults_witness :
  tier2_valuation_rel_val_score no_fields = 80.
Proof.
  apply tier2_relative_valuation_defaults; reflexivity.
Defined.

(** The Tier-1 and Tier-2 PEG ladders have the same cut points 1.0, 1.5,
    2.0 and 2.5 and the same scores, and agree everywhere except exactly on
    the cut points: Tier 1 tests [<=] and keeps the higher score there
    (100, 85, 70, 50), Tier 2 tests [<] and gives the lower one
    (85, 70, 50, 30). *)
Theorem peg_ladders_differ_on_cut_points (data : ScoreInput) :
  let peg := get_num data "peg_ratio" 999 in
  (~ peg == 1.0 -> ~ peg == 1.5 -> ~ peg == 2.0 -> ~ peg == 2.5 ->
   tier1_valuation_peg_score data = tier2_valuation_peg_score data) /\
  (peg == 1.0 -> tier1_valuation_peg_score data = 100 /\ tier2_valuation_peg_score data = 85) /\
  (peg == 1.5 -> tier1_valuation_peg_score data = 85 /\ tier2_valuation_peg_score data = 70) /\
  (peg == 2.0 -> tier1_valuation_peg_score data = 70 /\ tier2_valuation_peg_score data = 50) /\
  (peg == 2.5 -> tier1_valuation_peg_score data = 50 /\ tier2_valuation_peg_score data = 30).
Proof.
  cbv zeta. unfold tier1_valuation_peg_score, tier2_valuation_peg_score.
  cbv zeta. cbn [first_at_most].
  set (peg := get_num data "peg_ratio" 999).
  repeat split; intros; repeat split; repeat split_if; reflect_cmp;
    first [ reflexivity
          | exfalso; lra
          | exfalso;
            match goal with
            | H : ~ _ == _ |- _ => apply H; apply Qle_antisym; lra
            end ].
Qed.

Lemma peg_ladders_differ_on_cut_points_witness :
  tier1_valuation_peg_score (only_number "peg_ratio" 1.5) = 85 /\
  tier2_valuation_peg_score (only_number "peg_ratio" 1.5) = 70.
Proof.
  apply (peg_ladders_differ_on_cut_points (only_number "peg_ratio" 1.5)).
  reflexivity.
Defined.

(** ** Sub-scores of the momentum components *)

(** The technical setup of Tier 1 and Tier 2 is one and the same function
    of price and the two moving averages.  Its score is 100 above both
    averages, 70 above the 200-day only, 55 above the 50-day only and 30
    otherwise: the branch that would score 50 is never taken. *)
Theorem technical_score_values (data : ScoreInput) :
  let price := get_num data "price" 0 in
  let ma_50 := get_num data "ma_50" 0 in
  let ma_200 := get_num data "ma_200" 0 in
  let s := tier1_momentum_technical_score data in
  tier2_momentum_technical_score data = s /\
  (s = 100 <-> ma_50 < price /\ ma_200 < price) /\
  (s = 70 <-> price <= ma_50 /\ ma_200 < price) /\
  (s = 55 <-> ma_50 < price /\ price <= ma_200) /\
  (s = 30 <-> price <= ma_50 /\ price <= ma_200) /\
  s <> 50.
Proof.
  cbv zeta. split; [reflexivity |].
  unfold tier1_momentum_technical_score. cbv zeta.
  set (price := get_num data "price" 0).
  set (ma_50 := get_num data "ma_50" 0).
  set (ma_200 := get_num data "ma_200" 0).
  destruct (price >? ma_50) eqn:H50; destruct (price >? ma_200) eqn:H200;
    cbn [andb]; unfold Qltb; fold (price >? ma_50); rewrite ?H50; cbn [andb];
    reflect_cmp; repeat split; intros; try discriminate; try reflexivity; try lra;
    match goal with H : _ /\ _ |- _ => destruct H; lra end.
Qed.

(** A falling price is scored as oversold, above a flat or mildly rising
    one: in Tier 1 a 12-month return below -10 scores 60 while any return
    in [-10, 10) scores at most 45; in Tiers 3 and 4 a negative 6-month
    return scores 60 while any return in [0, 30) scores less. *)
Theorem oversold_outranks_flat (falling flat : ScoreInput) :
  (get_num falling "return_12m_pct" 0 < -10 ->
   -10 <= get_num flat "return_12m_pct" 0 -> get_num flat "return_12m_pct" 0 < 10 ->
   tier1_momentum_return_score falling = 60 /\
   tier1_momentum_return_score flat <= 45) /\
  (get_num falling "return_6m_pct" 0 < 0 ->
   0 <= get_num flat "return_6m_pct" 0 -> get_num flat "return_6m_pct" 0 < 30 ->
   tier3_momentum_return_score falling = 60 /\
   tier3_momentum_return_score flat <= 55 /\
   tier4_momentum_return_score falling = 60 /\
   tier4_momentum_return_score flat <= 50).
Proof.
  split; intros Hfall Hlo Hhi.
  - unfold tier1_momentum_return_score. cbv zeta. simpl removelast.
    unfold bracket_score. cbn [first_bracket].
    split; repeat split_if; reflect_cmp;
      first [reflexivity | lra | vm_compute; discriminate].
  - unfold tier3_momentum_return_score, tier4_momentum_return_score. cbv zeta.
    repeat split; repeat split_if; reflect_cmp;
      first [reflexivity | lra | vm_compute; discriminate].
Qed.

Lemma oversold_outranks_flat_witness :
  tier3_momentum_return_score (only_number "return_6m_pct" (-20)) = 60 /\
  tier3_momentum_return_score (only_number "return_6m_pct" 5) <= 55 /\
  tier4_momentum_return_score (only_number "return_6m_pct" (-20)) = 60 /\
  tier4_momentum_return_score (only_number "return_6m_pct" 5) <= 50.
Proof.
  apply (proj2 (oversold_outranks_flat (only_number "return_6m_pct" (-20))
                                        (only_number "return_6m_pct" 5))).
  - reflexivity.
  - vm_compute. discriminate.
  - reflexivity.
Defined.

(** ** Sub-scores of the quality and growth components *)

(** The unit economics of Tier 3 and Tier 4 are one and the same function.
    A measured LTV/CAC of at least 1 decides the score alone, and two
    records with the same such ratio score the same whatever their CAC
    payback and flags: the proxies are consulted only below 1 (or when the
    ratio is absent), in the order payback under 12 months, expanding gross
    margin, improving cohorts. *)
Theorem unit_economics_precedence (data other : ScoreInput) :
  let ltv_cac := get_num data "ltv_cac_ratio" 0 in
  tier4_quality_unit_econ_score data = tier3_quality_unit_econ_score data /\
  (1 <= ltv_cac -> get_num other "ltv_cac_ratio" 0 == ltv_cac ->
   tier3_quality_unit_econ_score other = tier3_quality_unit_econ_score data) /\
  (1 <= ltv_cac -> ltv_cac < 2 -> tier3_quality_unit_econ_score data = 40) /\
  (ltv_cac < 1 -> get_num data "cac_payback_months" 999 < 12 ->
   tier3_quality_unit_econ_score data = 85) /\
  (ltv_cac < 1 -> 12 <= get_num data "cac_payback_months" 999 ->
   tier3_quality_unit_econ_score data =
     if get_bool data "gross_margin_expanding" false then 70
     else if get_bool data "cohorts_improving" false then 60
     else 40).
Proof.
  cbv zeta. split; [reflexivity |].
  unfold tier3_quality_unit_econ_score. cbv zeta.
  repeat split; intros; repeat (split_if; reflect_cmp; try lra); reflexivity.
Qed.

Lemma unit_economics_precedence_witness :
  tier3_quality_unit_econ_score (only_number "ltv_cac_ratio" 1.5) = 40.
Proof.
  apply (proj1 (proj2 (proj2
           (unit_economics_precedence (only_number "ltv_cac_ratio" 1.5) no_fields)))).
  - vm_compute. discriminate.
  - reflexivity.
Defined.

(** The acceleration bonus is absorbed by the cap: from four accelerating
    quarters on the Tier-3 acceleration sub-score is 100 whatever the
    count, and so is the Tier-4 consistency sub-score from five on. *)
Theorem acceleration_saturates (data : ScoreInput) :
  let quarters := get_num data "quarters_accelerating" 0 in
  (4 <= quarters -> tier3_growth_accel_score data == 100) /\
  (5 <= quarters -> tier4_growth_consist_score data == 100).
Proof.
  cbv zeta. unfold tier3_growth_accel_score, tier4_growth_consist_score, cap_score.
  cbv zeta. set (q := get_num data "quarters_accelerating" 0).
  split; intros Hq.
  - destruct (q >=? 4) eqn:H4; reflect_cmp; [| lra].
    destruct (q >? 4) eqn:H5; destruct (100 <? _) eqn:Hc; reflect_cmp; lra.
  - destruct (q >=? 5) eqn:H5; reflect_cmp; [| lra].
    destruct (100 <? _) eqn:Hc; reflect_cmp; lra.
Qed.

Lemma acceleration_saturates_witness :
  tier3_growth_accel_score (only_number "quarters_accelerating" 9) == 100.
Proof.
  apply (acceleration_saturates (only_number "quarters_accelerating" 9)).
  vm_compute. discriminate.
Defined.

(** Taking the best proxy puts a floor under the customer sub-scores of
    issuers that are not SaaS: Tier-2 retention and Tier-3 customer quality
    are at least 40 there, while a SaaS issuer with a net revenue retention
    below 90 gets 25 in Tier 2 and 30 in Tier 3. *)
Theorem non_saas_customer_floor (data : ScoreInput) :
  (get_bool data "is_saas" false = false ->
   40 <= tier2_quality_retention_score data /\
   40 <= tier3_quality_customer_score data) /\
  (get_bool data "is_saas" false = true ->
   get_num data "nrr_pct" 100 < 90 ->
   get_num data "dollar_based_retention_pct" 100 <= 105 ->
   tier2_quality_retention_score data = 25 /\
   tier3_quality_customer_score data = 30).
Proof.
  split.
  - intros Hsaas.
    unfold tier2_quality_retention_score, tier3_quality_customer_score.
    rewrite Hsaas. cbv zeta. cbn [app]. unfold max_or. cbn [fold_left].
    assert (H2 : 40 <= tier2_quality_repeat_revenue_score data).
    { unfold tier2_quality_repeat_revenue_score. cbv zeta.
      repeat split_if; vm_compute; discriminate. }
    set (a := tier2_quality_repeat_revenue_score data) in *.
    set (b := tier2_quality_churn_score data).
    set (c := tier2_quality_customer_growth_score data).
    set (d := tier2_quality_concentration_score data).
    split.
    + destruct (b >? a) eqn:Hb; destruct (c >? _) eqn:Hc; destruct (d >? _) eqn:Hd;
        reflect_cmp; lra.
    + set (x := if get_num data "top_customer_concentration_pct" 100 <? 10 then 100
                else if get_num data "top_customer_concentration_pct" 100 <? 20 then 80
                else if get_num data "top_customer_concentration_pct" 100 <? 30 then 60
                else 30).
      assert (Hy : 40 <= (if get_num data "customer_growth_pct" 0 >? 25 then 100
                          else if get_num data "customer_growth_pct" 0 >=? 15 then 80
                          else if get_num data "customer_growth_pct" 0 >=? 5 then 60
                          else 40))
        by (repeat split_if; vm_compute; discriminate).
      set (y := if get_num data "customer_growth_pct" 0 >? 25 then 100 else _) in *.
      set (z := if get_num data "repeat_revenue_pct" 0 >? 60 then 100 else _).
      destruct (y >? x) eqn:Hyx; destruct (z >? _) eqn:Hz; reflect_cmp; lra.
  - intros Hsaas Hnrr Hdbr.
    unfold tier2_quality_retention_score, tier3_quality_customer_score.
    rewrite Hsaas. cbv zeta. unfold cap_score.
    split; repeat (split_inner_if; reflect_cmp; try lra); reflexivity.
Qed.

Lemma non_saas_customer_floor_witness :
  40 <= tier2_quality_retention_score no_fields /\
  40 <= tier3_quality_customer_score no_fields.
Proof.
  apply (proj1 (non_saas_customer_floor no_fields)). reflexivity.
Defined.

(** ** The bracket primitive *)

Lemma bracket_score_cons value threshold score rest :
  bracket_score value ((threshold, score) :: rest) =
    if value >=? threshold then score
    else match rest with
         | [] => score
         | _ :: _ => bracket_score value rest
         end.
Proof.
  unfold bracket_score. cbn [first_bracket].
  destruct (value >=? threshold); [reflexivity |].
  destruct rest as [| p rest]; reflexivity.
Qed.

(** [bracket_score] never invents a score: on a non-empty table it returns
    the score of one of the pairs, and for a value below every threshold it
    is the score of the last pair, which acts as the floor. *)
Theorem bracket_score_floor (value : Q) (brackets : list (Q * Q)) :
  brackets <> [] ->
  (exists threshold, In (threshold, bracket_score value brackets) brackets) /\
  (Forall (fun p => value < fst p) brackets ->
   bracket_score value brackets = snd (List.last brackets (0, 0))).
Proof.
  intros Hne. split; [apply bracket_score_In, Hne |].
  intros Hbelow. unfold bracket_score.
  assert (H : first_bracket value brackets = None).
  { clear Hne. induction Hbelow as [| [t s] rest Hlt _ IH]; [reflexivity |].
    cbn [first_bracket fst] in *.
    destruct (value >=? t) eqn:Hge; reflect_cmp; [lra | exact IH]. }
  rewrite H. reflexivity.
Qed.

Lemma bracket_score_floor_witness :
  (exists threshold,
     In (threshold, bracket_score (-3) [(5, 100); (3, 80); (2, 60); (1, 40); (0, 20)])
        [(5, 100); (3, 80); (2, 60); (1, 40); (0, 20)]) /\
  (Forall (fun p => -3 < fst p) [(5, 100); (3, 80); (2, 60); (1, 40); (0, 20)] ->
   bracket_score (-3) [(5, 100); (3, 80); (2, 60); (1, 40); (0, 20)]
   = snd (List.last [(5, 100); (3, 80); (2, 60); (1, 40); (0, 20)] (0, 0))).
Proof.
  apply (bracket_score_floor (-3) [(5, 100); (3, 80); (2, 60); (1, 40); (0, 20)]).
  discriminate.
Defined.

(** On a table whose thresholds strictly descend and whose scores never
    increase down the table, [bracket_score] is monotone: a larger value
    never gets a smaller score. *)
Theorem bracket_score_monotone (brackets : list (Q * Q)) (value1 value2 : Q) :
  descending brackets -> scores_descending brackets -> value1 <= value2 ->
  bracket_score value1 brackets <= bracket_score value2 brackets.
Proof.
  intros Hdesc Hscores Hle.
  induction brackets as [| [t s] rest IH]; [apply Qle_refl |].
  destruct Hdesc as [_ Hdesc]. destruct Hscores as [Hbelow Hscores].
  specialize (IH Hdesc Hscores).
  assert (Hrest : forall v, rest <> [] -> bracket_score v rest <= s).
  { intros v Hne. destruct (bracket_score_In v rest Hne) as [t' Hin].
    rewrite List.Forall_forall in Hbelow. apply (Hbelow _ Hin). }
  rewrite !bracket_score_cons.
  destruct (value1 >=? t) eqn:H1; destruct (value2 >=? t) eqn:H2; reflect_cmp.
  - apply Qle_refl.
  - lra.
  - destruct rest; [apply Qle_refl | apply Hrest; discriminate].
  - destruct rest; [apply Qle_refl | exact IH].
Qed.

Lemma bracket_score_monotone_witness :
  bracket_score 12 [(25, 100); (20, 90); (15, 75); (10, 50); (0, 25)]
  <= bracket_score 21 [(25, 100); (20, 90); (15, 75); (10, 50); (0, 25)].
Proof.
  apply bracket_score_monotone.
  - cbn [descending]. repeat split;
      repeat apply List.Forall_cons; try apply List.Forall_nil; reflexivity.
  - cbn [scores_descending]. repeat split;
      repeat apply List.Forall_cons; try apply List.Forall_nil;
      vm_compute; discriminate.
  - vm_compute. discriminate.
Defined.

(** ** Tiers *)

(** [TIER_DEFINITIONS] and [determine_tier] agree: for a market cap that is
    not negative, the row of the assigned tier has its minimum cap at or
    below the cap and its maximum cap, when it has one, above it. *)
Theorem tier_definitions_match_determine_tier (cap : Q) :
  0 <= cap ->
  exists tier_def,
    TIER_DEFINITIONS !! determine_tier cap = Some tier_def /\
    min_cap tier_def <= cap /\
    match max_cap tier_def with
    | Some maximum => cap < maximum
    | None => True
    end.
Proof.
  intros Hcap. unfold determine_tier.
  repeat split_if; reflect_cmp;
    (eexists; split; [vm_compute; reflexivity |]);
    cbn [min_cap max_cap]; split; first [exact I | lra].
Qed.

Lemma tier_definitions_match_determine_tier_witness :
  exists tier_def,
    TIER_DEFINITIONS !! determine_tier 120 = Some tier_def /\
    min_cap tier_def <= 120 /\
    match max_cap tier_def with
    | Some maximum => 120 < maximum
    | None => True
    end.
Proof.
  apply tier_definitions_match_determine_tier. vm_compute. discriminate.
Defined.

(** A record without [market_cap_billions] is scored as a market cap of 0:
    it lands in tier 4, Small-Cap Moonshots, with the highest minimum
    score, 70. *)
Theorem missing_market_cap_is_tier4 (ticker : string) (data : ScoreInput) (r : ScoreResult) :
  numbers data !! "market_cap_billions" = None ->
  calculate_score ticker data = Ok r ->
  tier r = 4%Z /\ tier_name r = "Small-Cap Moonshots" /\
  min_score_for_tier r = 70 /\ market_cap_billions r = 0 /\
  map fst (components r) = ["Valuation"; "Quality"; "Growth"; "Momentum"; "Disruption"].
Proof.
  intros Hcap Hr.
  destruct (calculate_score_inversion ticker data r Hr)
    as (c & comps & tdef & p & Hc & _ & Hd & _ & ->).
  rewrite (get_num_absent data "market_cap_billions" _ Hcap) in *.
  change (determine_tier 0) with 4%Z in *.
  cbn [tier tier_name min_score_for_tier market_cap_billions components].
  vm_compute in Hd. injection Hd as <-.
  repeat split; try reflexivity.
  apply (tier_composite_names 4 data c comps Hc).
Qed.

Lemma missing_market_cap_is_tier4_witness :
  exists r, calculate_score "X" no_fields = Ok r /\ tier r = 4%Z.
Proof.
  eexists. split; [vm_compute; reflexivity |].
  eapply (proj1 (missing_market_cap_is_tier4 "X" no_fields _ _ _)).
  Unshelve. - reflexivity. - vm_compute. reflexivity.
Defined.

(** ** Rounding of the component scores *)

(** Each of the twenty component scores is a number with two decimals that
    lies within 0.005 of the exact weighted sum of its sub-scores. *)
Theorem component_scores_rounded (data : ScoreInput) :
  Forall (fun c => exists subs s,
            subscores c data = Ok subs /\
            scorer c data = Ok s /\
            Qabs (s - weighted_sum subs (weights c)) <= 5 # 1000 /\
            exists hundredths : Z, s = inject_Z hundredths / 100)
         component_scorers.
Proof.
  eapply List.Forall_impl; [| apply component_scorers_sound].
  intros c [_ Hc]. destruct (Hc data) as (subs & Hsubs & _ & _ & Hs).
  exists subs, (round2 (weighted_sum subs (weights c))).
  split; [exact Hsubs |]. split; [exact Hs |].
  split; [apply round2_nearest |].
  eexists. reflexivity.
Qed.

(** ** Gaps and defaults in single sub-scores *)

(** The Tier-2 comparison of EPS growth with revenue growth has a gap: EPS
    growth between 5 and 7 points above revenue growth falls through to the
    base score 50, below the 70 given to growth within 5 points of revenue
    growth and the 100 given above 7; more than 5 points below scores 30.
    Stated for growth figures within [-1000, 1000] and gaps at least 0.001
    away from the cut points 7, 5 and -5. *)
Theorem tier2_eps_vs_rev_gap (data : ScoreInput) :
  let eps := get_num data "eps_growth_pct" 0 in
  let rev := get_num data "revenue_growth_ttm_pct" 0 in
  -1000 <= eps <= 1000 -> -1000 <= rev <= 1000 ->
  (7 + (1 # 1000) <= eps - rev -> tier2_growth_eps_vs_rev_score data = 100) /\
  (5 + (1 # 1000) <= eps - rev -> eps - rev <= 7 - (1 # 1000) ->
   tier2_growth_eps_vs_rev_score data = 50) /\
  (Qabs (eps - rev) <= 5 - (1 # 1000) -> tier2_growth_eps_vs_rev_score data = 70) /\
  (eps - rev <= - 5 - (1 # 1000) -> tier2_growth_eps_vs_rev_score data = 30).
Proof.
  cbv zeta. unfold tier2_growth_eps_vs_rev_score, cap_score, abs. cbv zeta.
  set (eps := get_num data "eps_growth_pct" 0).
  set (rev := get_num data "revenue_growth_ttm_pct" 0).
  intros _ _.
  pose proof (Qabs_Qle_condition (eps - rev) 5) as Habs.
  pose proof (Qabs_Qle_condition (eps - rev) (5 - (1 # 1000))) as Habs'.
  repeat split; intros;
    try (match goal with
         | H : Qabs _ <= 5 - _ |- _ => apply Habs' in H; destruct H
         end);
    destruct (eps >? rev + 7) eqn:H7; destruct (Qabs (eps - rev) <=? 5) eqn:H5;
    destruct (eps <? rev - 5) eqn:Hm; reflect_cmp;
    try (apply Habs in H5; destruct H5);
    try (assert (Hin : Qabs (eps - rev) <= 5) by (apply Habs; split; lra); lra);
    try lra;
    (match goal with
     | |- (if ?c then _ else _) = _ => destruct c eqn:Hc; reflect_cmp
     end; first [reflexivity | exfalso; revert Hc; vm_compute; congruence | lra]).
Qed.

Lemma tier2_eps_vs_rev_gap_witness :
  tier2_growth_eps_vs_rev_score
    {| numbers := list_to_map [("eps_growth_pct", 26); ("revenue_growth_ttm_pct", 20)];
       booleans := ∅; texts := ∅; flag_sets := ∅ |} = 50.
Proof.
  apply (fun Heps Hrev => proj1 (proj2 (tier2_eps_vs_rev_gap _ Heps Hrev))).
  - split; vm_compute; discriminate.
  - split; vm_compute; discriminate.
  - vm_compute. discriminate.
  - vm_compute. discriminate.
Defined.

(** Absent concentration fields count as full concentration: without
    [top_customer_concentration_pct] and [top_3_concentration_pct] the
    Tier-4 revenue quality loses 35 and 20 points, so it is at most 45, and
    it is 0 when recurring revenue is below 50 and net revenue retention at
    most 110. *)
Theorem tier4_revenue_quality_without_concentration (data : ScoreInput) :
  numbers data !! "top_customer_concentration_pct" = None ->
  numbers data !! "top_3_concentration_pct" = None ->
  tier4_quality_rev_quality_score data <= 45 /\
  (get_num data "recurring_revenue_pct" 0 < 50 -> get_num data "nrr_pct" 100 <= 110 ->
   tier4_quality_rev_quality_score data == 0).
Proof.
  intros Htop Htop3. unfold tier4_quality_rev_quality_score. cbv zeta.
  rewrite !(get_num_absent data "top_customer_concentration_pct" _ Htop).
  rewrite !(get_num_absent data "top_3_concentration_pct" _ Htop3).
  change (100 <? 10) with false. change (100 >? 50) with true.
  change (100 <? 25) with false. change (100 >? 30) with true.
  cbv iota. unfold cap_score, floor_score.
  split; intros; repeat (split_inner_if; reflect_cmp; try lra).
Qed.

Lemma tier4_revenue_quality_without_concentration_witness :
  tier4_quality_rev_quality_score no_fields <= 45 /\
  (get_num no_fields "recurring_revenue_pct" 0 < 50 ->
   get_num no_fields "nrr_pct" 100 <= 110 ->
   tier4_quality_rev_quality_score no_fields == 0).
Proof.
  apply tier4_revenue_quality_without_concentration; reflexivity.
Defined.

(** ** The recommended position, end to end *)

Lemma assigned_tier_in_position_tiers tier base mult :
  tier = 1%Z \/ tier = 2%Z \/ tier = 3%Z \/ tier = 4%Z ->
  base_allocations !! tier = Some base ->
  vol_multipliers !! tier = Some mult ->
  In (tier, base, mult) position_tiers.
Proof.
  unfold position_tiers. cbn [In].
  intros [-> | [-> | [-> | ->]]] Hb Hm;
    vm_compute in Hb; vm_compute in Hm;
    injection Hb as <-; injection Hm as <-; auto 6.
Qed.

(** On every record whose beta is at least 1, and on every record without a
    beta, [calculate_score] returns a result whose recommended position is
    not negative and does not exceed the base allocation of its tier (10,
    7, 5 or 3 percent). *)
Theorem recommended_position_within_base (ticker : string) (data : ScoreInput) :
  1 <= get_num data "beta" 1.0 ->
  exists r base mult,
    calculate_score ticker data = Ok r /\
    In (tier r, base, mult) position_tiers /\
    0 <= position_size_pct r /\ position_size_pct r <= base.
Proof.
  intros Hbeta.
  destruct (calculate_score_outcome ticker data)
    as (c & comps & base & mult & tdef & _ & Hok & Hb & Hm & _ & Hscore).
  pose proof (determine_tier_cases (get_num data "market_cap_billions" 0)) as Ht.
  pose proof (assigned_tier_in_position_tiers _ base mult Ht Hb Hm) as Hin.
  destruct Hok as (_ & _ & _ & [Hc0 Hc1]).
  destruct (position_size_bounds _ base mult c (get_num data "beta" 1.0)
              Hin Hc0 Hc1 Hbeta) as (p & Hp & Hp0 & Hp1).
  rewrite Hp in Hscore. cbn [mbind mret result_bind result_ret] in Hscore.
  eexists. exists base, mult. split; [exact Hscore |].
  cbn [tier position_size_pct]. auto.
Qed.

Lemma recommended_position_within_base_witness :
  exists r base mult,
    calculate_score "GOOGL" googl_data = Ok r /\
    In (tier r, base, mult) position_tiers /\
    0 <= position_size_pct r /\ position_size_pct r <= base.
Proof.
  apply (recommended_position_within_base "GOOGL" googl_data).
  vm_compute. discriminate.
Defined.
